(** * A shallow embedding of the chatgpt client (conversation window,
    stream decoder, login handshake, credential cache, client start-up)

    Go values are modelled as follows: [string] is a byte string
    ([String.string], one [ascii] per byte), [int] is [Z] (no arithmetic
    here leaves the 64-bit range), a slice is the [list] of its
    contents, a [map[string]T] is a [gmap string T], [time.Time] is
    an instant in [Z].  The only times that occur are the zero time
    and times decoded from JSON, which encoding/json writes back
    without error and reads back as the same instant.  A run-time
    panic is an explicit outcome.  Methods that talk
    to the network, the disk or the logger run in a state and error
    monad over the client, the network, the cache file and the log;
    the goroutine of the live decoder is modelled by the events of its
    run.  The first part holds the definitions, the second the
    properties. *)

From Stdlib Require Import String Ascii ZArith List Bool.
From stdpp Require Import gmap strings list fin_maps.

Local Open Scope string_scope.
Local Open Scope Z_scope.

(** ** Outcomes of Go calls: a value, an [error], or a run-time panic *)

Inductive Outcome (E A : Type) : Type :=
| Ret (a : A)
| Fail (e : E)
| Panic (msg : string).
Arguments Ret {E A} a.
Arguments Fail {E A} e.
Arguments Panic {E A} msg.

(** ** The functions of Go's [strings] package that the client calls *)

Module GoStr.

(** [strings.HasPrefix(s, p)] *)
Definition HasPrefix (s p : string) : bool := String.prefix p s.

(** [strings.Contains(s, sub)] *)
Fixpoint Contains (s sub : string) : bool :=
  String.prefix sub s
  || match s with
     | EmptyString => false
     | String _ s' => Contains s' sub
     end.

Fixpoint drop (n : nat) (s : string) : string :=
  match n, s with
  | O, _ => s
  | S _, EmptyString => EmptyString
  | S k, String _ s' => drop k s'
  end.

(** [strings.TrimPrefix(s, p)] *)
Definition TrimPrefix (s p : string) : string :=
  if HasPrefix s p then drop (String.length p) s else s.

Fixpoint rev_onto (acc s : string) : string :=
  match s with
  | EmptyString => acc
  | String c s' => rev_onto (String c acc) s'
  end.
Definition rev (s : string) : string := rev_onto EmptyString s.

(** [strings.Split(s, sep)] for a non-empty separator, which is the
    only way the client calls it.  [skip] counts the bytes of a
    separator that was just matched and remain to be dropped; [cur]
    holds the current piece, reversed. *)
Fixpoint Split_from (sep : string) (skip : nat) (cur s : string) : list string :=
  match s with
  | EmptyString => [rev cur]
  | String c s' =>
      match skip with
      | S k => Split_from sep k cur s'
      | O =>
          if String.prefix sep s
          then rev cur :: Split_from sep (String.length sep - 1) EmptyString s'
          else Split_from sep O (String c cur) s'
      end
  end.
Definition Split (s sep : string) : list string := Split_from sep O EmptyString s.

(** The UTF-8 encodings of the code points for which
    [unicode.IsSpace] holds. *)
Definition bytes (l : list nat) : string :=
  fold_right (fun n s => String (ascii_of_nat n) s) EmptyString l.

Definition spaces : list string :=
  map bytes
    [ [9]; [10]; [11]; [12]; [13]; [32];
      [194; 133]; [194; 160];
      [225; 154; 128];
      [226; 128; 128]; [226; 128; 129]; [226; 128; 130]; [226; 128; 131];
      [226; 128; 132]; [226; 128; 133]; [226; 128; 134]; [226; 128; 135];
      [226; 128; 136]; [226; 128; 137]; [226; 128; 138];
      [226; 128; 168]; [226; 128; 169]; [226; 128; 175];
      [226; 129; 159];
      [227; 128; 128] ]%nat.

(** The remainder of [s] after one leading white-space rune, if any. *)
Definition strip_space (s : string) : option string :=
  match filter (fun w => String.prefix w s) spaces with
  | w :: _ => Some (drop (String.length w) s)
  | [] => None
  end.

Fixpoint TrimLeftSpace (fuel : nat) (s : string) : string :=
  match fuel with
  | O => s
  | S k => match strip_space s with
           | Some s' => TrimLeftSpace k s'
           | None => s
           end
  end.

(** The same from the right, on the reversed string. *)
Definition strip_space_rev (r : string) : option string :=
  match filter (fun w => String.prefix (rev w) r) spaces with
  | w :: _ => Some (drop (String.length w) r)
  | [] => None
  end.

Fixpoint TrimLeftSpace_rev (fuel : nat) (r : string) : string :=
  match fuel with
  | O => r
  | S k => match strip_space_rev r with
           | Some r' => TrimLeftSpace_rev k r'
           | None => r
           end
  end.

(** [strings.TrimSpace(s)]: every stripped rune has at least one
    byte, so [String.length s] rounds are enough. *)
Definition TrimSpace (s : string) : string :=
  let l := TrimLeftSpace (String.length s) s in
  rev (TrimLeftSpace_rev (String.length l) (rev l)).

End GoStr.

(** ** conversations.go *)

Module Conv.

Definition TextDavinciEngine := "text-davinci-".
Definition Gpt3_5Engine := "gpt-3.5-".
Definition Gpt4_32Engine := "gpt-4-32".
Definition Gpt4_8Engine := "gpt-4-8".

Definition Engines : gmap string Z :=
  <[TextDavinciEngine := 4000]>
    (<[Gpt3_5Engine := 4000]>
       (<[Gpt4_32Engine := 32000]>
          (<[Gpt4_8Engine := 8000]> ∅))).

Record Message := mkMessage { Role : string; Content : string }.

(** [Messages] holds the contents of the slice, that is what its
    header shows of the backing array.  [append] may write into an
    array that the slice of another stored conversation shares (a
    conversation got with [GetConversation] and set under a second
    identifier), so what is proved of an operation that appends
    concerns the conversation it works on; of the other conversations
    of the client nothing is stated after an append. *)
Record Conversation := mkConversation {
  InitMessage : string;
  LastMessage : string;
  Messages : list Message
}.

(** The zero value [Conversation{}]. *)
Definition zero : Conversation := mkConversation "" "" [].

Definition addMessage (c : Conversation) (m : Message) : Conversation :=
  {| InitMessage := InitMessage c;
     LastMessage := Content m;
     Messages := Messages c ++ [m] |}.

Definition initMessage (c : Conversation) (m : Message) : Conversation :=
  {| InitMessage := Content m;
     LastMessage := Content m;
     Messages := Messages c ++ [m] |}.

(** [len(c.InitMessage) / 4], Go's division truncating towards zero. *)
Definition getTokenCount (c : Conversation) : Z :=
  Z.quot (Z.of_nat (String.length (InitMessage c))) 4.

Section Limit.

(** [getEngineTokenLimit] is a function of ask.go, of which the
    repository holds two revisions (see [Rev] below). *)
Variable getEngineTokenLimit : string -> Z.

Definition tokenizeMessage (c : Conversation) (engine : string) : Conversation :=
  let tokenCount := getTokenCount c in
  let maxTokens := getEngineTokenLimit engine in
  if maxTokens <? tokenCount
  then {| InitMessage := InitMessage c;
          LastMessage := LastMessage c;
          Messages := [ mkMessage "system" (InitMessage c);
                        mkMessage "user" (LastMessage c) ] |}
  else c.

End Limit.

End Conv.

(** ** Go errors

    [fmt.Errorf] is kept as its format string and arguments, a
    [*ChatError] as its two fields, and an error handed up from the
    standard library ([net/http], [os], [encoding/json]) as its text. *)

Inductive error : Type :=
| Errorf (format : string) (args : list string)
| ChatError (Message : string) (Code : Z)
| LibError (text : string).

(** Writing Go string literals that contain a quotation mark: [lit]
    turns every apostrophe of its argument into a quotation mark. *)
Fixpoint lit (s : string) : string :=
  match s with
  | EmptyString => EmptyString
  | String c s' =>
      String (if Ascii.eqb c "039"%char then "034"%char else c) (lit s')
  end.

(** ** The two revisions of ask.go

    The repository holds ask.go twice: src/ask.go and the first file
    of src/unnamed/part_000.  In the functions modelled here the two
    differ in five places, which a [Rev.t] records. *)

Module Rev.

(** [getEngineTokenLimit] of src/ask.go ranges over the map
    [Conv.Engines]; Go leaves the order of that iteration to the run
    time, so the order actually taken, [range], is an argument.  It is
    a permutation of [map_to_list Conv.Engines]. *)
Fixpoint getEngineTokenLimit_ask_go (range : list (string * Z)) (engine : string) : Z :=
  match range with
  | [] => 4000
  | (a, e) :: rest =>
      if GoStr.Contains engine a then e else getEngineTokenLimit_ask_go rest engine
  end.

(** [getEngineTokenLimit] of unnamed/part_000 compares the name. *)
Definition getEngineTokenLimit_part_000 (engine : string) : Z :=
  if String.eqb engine "gpt-4-32k" then 32000
  else if String.eqb engine "gpt-4" then 8000
  else 4000.

Record t := mk {
  (** the text that [parseResponse] and [startScan] look for with
      [strings.Contains] *)
  detailNeedle : string;
  (** whether [close(streamChannel)] sits under [if streamChannel != nil] *)
  closeGuarded : bool;
  (** whether [Ask] appends the prompt to a conversation that it has
      just created *)
  promptOnCreate : bool;
  (** [getEngineTokenLimit], given the order of the iteration *)
  getEngineTokenLimit : list (string * Z) -> string -> Z;
  (** what [GetResponse] returns when [Choices] is nil *)
  nilChoices : string
}.

Definition ask_go : t :=
  {| detailNeedle := lit "{'detail':}";
     closeGuarded := false;
     promptOnCreate := false;
     getEngineTokenLimit := getEngineTokenLimit_ask_go;
     nilChoices := "" |}.

Definition part_000 : t :=
  {| detailNeedle := lit "{'detail':";
     closeGuarded := true;
     promptOnCreate := true;
     getEngineTokenLimit := fun _ => getEngineTokenLimit_part_000;
     nilChoices := "malformed response" |}.

End Rev.

(** ** Strings that are not valid UTF-8

    A Go string is any sequence of bytes.  encoding/json writes and
    reads text: its encoder puts the replacement character U+FFFD in
    the place of every byte at which [utf8.DecodeRuneInString] finds
    no valid encoding, and its decoder does the same with the bytes
    of a string literal.  [coerce] is what a string has become after
    either. *)

Module Utf8.

Definition within (lo hi : N) (c : ascii) : bool :=
  ((lo <=? N_of_ascii c) && (N_of_ascii c <=? hi))%N.

(** The length of the encoding that the first byte announces; 0 for a
    byte that begins none. *)
Definition size (c0 : ascii) : nat :=
  if (N_of_ascii c0 <? 128)%N then 1
  else if within 194 223 c0 then 2
  else if within 224 239 c0 then 3
  else if within 240 244 c0 then 4
  else 0.

(** A continuation byte. *)
Definition cont (c : ascii) : bool := within 128 191 c.

(** The second byte that the first accepts: no encoding longer than
    needed, no surrogate, nothing above U+10FFFF. *)
Definition accept (c0 c1 : ascii) : bool :=
  if Ascii.eqb c0 "224" then within 160 191 c1
  else if Ascii.eqb c0 "237" then within 128 159 c1
  else if Ascii.eqb c0 "240" then within 144 191 c1
  else if Ascii.eqb c0 "244" then within 128 143 c1
  else cont c1.

Fixpoint coerce (s : string) : string :=
  match s with
  | EmptyString => EmptyString
  | String c0 r0 =>
      let bad := String "239" (String "191" (String "189" (coerce r0))) in
      match size c0 with
      | 1%nat => String c0 (coerce r0)
      | 2%nat =>
          match r0 with
          | String c1 r1 =>
              if accept c0 c1 then String c0 (String c1 (coerce r1)) else bad
          | _ => bad
          end
      | 3%nat =>
          match r0 with
          | String c1 (String c2 r2) =>
              if accept c0 c1 && cont c2
              then String c0 (String c1 (String c2 (coerce r2)))
              else bad
          | _ => bad
          end
      | 4%nat =>
          match r0 with
          | String c1 (String c2 (String c3 r3)) =>
              if accept c0 c1 && cont c2 && cont c3
              then String c0 (String c1 (String c2 (String c3 (coerce r3))))
              else bad
          | _ => bad
          end
      | _ => bad
      end
  end.

(** [utf8.ValidString] *)
Definition valid (s : string) : bool := String.eqb (coerce s) s.

End Utf8.

(** ** encoding/json: decoding a document into [map[string]interface{}] *)

Module Json.

(** What [interface{}] holds after decoding.  A number keeps its
    literal (Go stores a [float64]); an object keeps its members in
    document order, and a lookup takes the last one of a name, as
    later members overwrite earlier ones in a Go map. *)
#[warnings="-register-all"]
Inductive Value : Type :=
| VNull
| VBool (b : bool)
| VNumber (literal : string)
| VString (s : string)
| VArray (items : list Value)
| VObject (members : list (string * Value)).

Fixpoint get (members : list (string * Value)) (key : string) : option Value :=
  match members with
  | [] => None
  | (k, v) :: rest =>
      match get rest key with
      | Some v' => Some v'
      | None => if String.eqb k key then Some v else None
      end
  end.

Definition is_ws (c : ascii) : bool :=
  Ascii.eqb c " " || Ascii.eqb c "009" || Ascii.eqb c "010" || Ascii.eqb c "013".

Fixpoint skip_ws (s : string) : string :=
  match s with
  | String c s' => if is_ws c then skip_ws s' else s
  | EmptyString => s
  end.

Definition is_digit (c : ascii) : bool :=
  let n := N_of_ascii c in (48 <=? n)%N && (n <=? 57)%N.

Definition hex_val (c : ascii) : option N :=
  let n := N_of_ascii c in
  if (48 <=? n)%N && (n <=? 57)%N then Some (n - 48)%N
  else if (97 <=? n)%N && (n <=? 102)%N then Some (n - 87)%N
  else if (65 <=? n)%N && (n <=? 70)%N then Some (n - 55)%N
  else None.

Definition hex4 (a b c d : ascii) : option N :=
  match hex_val a, hex_val b, hex_val c, hex_val d with
  | Some x, Some y, Some z, Some w => Some (((x * 16 + y) * 16 + z) * 16 + w)%N
  | _, _, _, _ => None
  end.

Definition bytesN (l : list N) : string :=
  fold_right (fun n s => String (ascii_of_N n) s) EmptyString l.

(** UTF-8 encoding of a code point. *)
Definition utf8 (r : N) : string :=
  if (r <? 128)%N then bytesN [r]
  else if (r <? 2048)%N then bytesN [192 + r / 64; 128 + r mod 64]%N
  else if (r <? 65536)%N then
    bytesN [224 + r / 4096; 128 + (r / 64) mod 64; 128 + r mod 64]%N
  else
    bytesN [240 + r / 262144; 128 + (r / 4096) mod 64;
            128 + (r / 64) mod 64; 128 + r mod 64]%N.

Definition is_surrogate (r : N) : bool := (55296 <=? r)%N && (r <? 57344)%N.
Definition is_high (r : N) : bool := (55296 <=? r)%N && (r <? 56320)%N.
Definition is_low (r : N) : bool := (56320 <=? r)%N && (r <? 57344)%N.
Definition replacement : N := 65533.

(** The body of a string literal, after its opening quotation mark:
    the decoded text and the input left after the closing mark.  Raw
    bytes from 128 up are collected as they are; at the closing mark
    those that are not valid UTF-8 are replaced ([Utf8.coerce]; an
    escape yields a whole code point, so it cannot complete what raw
    bytes began). *)
Fixpoint parse_string (acc s : string) : option (string * string) :=
  match s with
  | EmptyString => None
  | String c r =>
      if Ascii.eqb c "034" then Some (Utf8.coerce (GoStr.rev acc), r)
      else if (N_of_ascii c <? 32)%N then None
      else if Ascii.eqb c "\" then
        match r with
        | String e r1 =>
            let simple (x : ascii) := parse_string (String x acc) r1 in
            if Ascii.eqb e "034" then simple "034"%char
            else if Ascii.eqb e "\" then simple "\"%char
            else if Ascii.eqb e "/" then simple "/"%char
            else if Ascii.eqb e "b" then simple "008"%char
            else if Ascii.eqb e "f" then simple "012"%char
            else if Ascii.eqb e "n" then simple "010"%char
            else if Ascii.eqb e "r" then simple "013"%char
            else if Ascii.eqb e "t" then simple "009"%char
            else if Ascii.eqb e "u" then
              match r1 with
              | String h1 (String h2 (String h3 (String h4 r2))) =>
                  match hex4 h1 h2 h3 h4 with
                  | None => None
                  | Some u =>
                      if is_surrogate u then
                        match r2 with
                        | String b (String v (String g1 (String g2 (String g3 (String g4 r3))))) =>
                            match (if Ascii.eqb b "\" && Ascii.eqb v "u"
                                   then hex4 g1 g2 g3 g4 else None) with
                            | Some u2 =>
                                if is_high u && is_low u2
                                then parse_string
                                       (GoStr.rev_onto acc
                                          (utf8 (65536 + (u - 55296) * 1024 + (u2 - 56320))%N))
                                       r3
                                else parse_string (GoStr.rev_onto acc (utf8 replacement)) r2
                            | None => parse_string (GoStr.rev_onto acc (utf8 replacement)) r2
                            end
                        | _ => parse_string (GoStr.rev_onto acc (utf8 replacement)) r2
                        end
                      else parse_string (GoStr.rev_onto acc (utf8 u)) r2
                  end
              | _ => None
              end
            else None
        | EmptyString => None
        end
      else parse_string (String c acc) r
  end.

Fixpoint take_digits (acc s : string) : string * string :=
  match s with
  | String c r => if is_digit c then take_digits (String c acc) r else (acc, s)
  | EmptyString => (acc, s)
  end.

(** A number literal: an optional minus sign; a zero, or a digit
    from 1 to 9 and any digits; optionally a point and one digit or
    more; optionally e or E, an optional sign and one digit or more.
    The accumulators are reversed. *)
Definition parse_number (s : string) : option (string * string) :=
  let '(sign, s1) :=
    match s with
    | String "-" r => ("-", r)
    | _ => ("", s)
    end in
  let int_part :=
    match s1 with
    | String "0" r => Some ("0" ++ sign, r)
    | String c _ =>
        if is_digit c then Some (take_digits sign s1) else None
    | EmptyString => None
    end in
  match int_part with
  | None => None
  | Some (a1, s2) =>
      let frac :=
        match s2 with
        | String "." (String c r) =>
            if is_digit c then Some (take_digits (String "." a1) (String c r)) else None
        | String "." EmptyString => None
        | _ => Some (a1, s2)
        end in
      match frac with
      | None => None
      | Some (a2, s3) =>
          let digits_after (a : string) (r : string) :=
            match r with
            | String c _ => if is_digit c then Some (take_digits a r) else None
            | EmptyString => None
            end in
          let exp :=
            match s3 with
            | String e r =>
                if Ascii.eqb e "e" || Ascii.eqb e "E" then
                  match r with
                  | String sg r' =>
                      if Ascii.eqb sg "+" || Ascii.eqb sg "-"
                      then digits_after (String sg (String e a2)) r'
                      else digits_after (String e a2) r
                  | EmptyString => None
                  end
                else Some (a2, s3)
            | EmptyString => Some (a2, s3)
            end in
          match exp with
          | None => None
          | Some (a3, s4) => Some (GoStr.rev a3, s4)
          end
      end
  end.

(** Whether [strconv.ParseFloat] finds the literal out of the range
    of a [float64]: rounded to the nearest, its value would be
    infinite, that is, it is at least 2^1024 - 2^970.  The literal
    stands for [d] times ten to the power [e - nf], [d] having at
    most [ni + nf] digits. *)
Fixpoint read_digits (acc : Z) (n : Z) (s : string) : Z * Z * string :=
  match s with
  | String c r =>
      if is_digit c
      then read_digits (acc * 10 + (Z.of_N (N_of_ascii c) - 48)) (n + 1) r
      else (acc, n, s)
  | EmptyString => (acc, n, s)
  end.

Definition overflows (literal : string) : bool :=
  let s := match literal with
           | String "-" r => r
           | _ => literal
           end in
  let '(i, ni, s1) := read_digits 0 0 s in
  let '(d, nf, s2) :=
    match s1 with
    | String "." r => read_digits i 0 r
    | _ => (i, 0, s1)
    end in
  let e :=
    match s2 with
    | String _ (String "-" r) => - fst (fst (read_digits 0 0 r))
    | String _ (String "+" r) => fst (fst (read_digits 0 0 r))
    | String _ r => fst (fst (read_digits 0 0 r))
    | EmptyString => 0
    end in
  let threshold := 2 ^ 1024 - 2 ^ 970 in
  if d =? 0 then false
  else if nf <=? e
  then if 310 <? e - nf then true else threshold <=? d * 10 ^ (e - nf)
  else if ni + nf <=? nf - e then false
  else threshold * 10 ^ (nf - e) <=? d.

(** The decoder refuses documents nested deeper than this. *)
Definition maxNestingDepth : N := 10000.

Fixpoint parse_value (fuel : nat) (depth : N) (s : string) {struct fuel}
  : option (Value * string) :=
  match fuel with
  | O => None
  | S f =>
      match skip_ws s with
      | String "{" r =>
          if (maxNestingDepth <? depth + 1)%N then None
          else match skip_ws r with
               | String "}" r' => Some (VObject [], r')
               | r' => parse_members f (depth + 1)%N [] r'
               end
      | String "[" r =>
          if (maxNestingDepth <? depth + 1)%N then None
          else match skip_ws r with
               | String "]" r' => Some (VArray [], r')
               | r' => parse_elements f (depth + 1)%N [] r'
               end
      | String "034" r =>
          match parse_string EmptyString r with
          | Some (t, r') => Some (VString t, r')
          | None => None
          end
      | String "t" (String "r" (String "u" (String "e" r))) => Some (VBool true, r)
      | String "f" (String "a" (String "l" (String "s" (String "e" r)))) =>
          Some (VBool false, r)
      | String "n" (String "u" (String "l" (String "l" r))) => Some (VNull, r)
      | s' =>
          match parse_number s' with
          | Some (n, r) => Some (VNumber n, r)
          | None => None
          end
      end
  end
with parse_members (fuel : nat) (depth : N) (acc : list (string * Value)) (s : string)
       {struct fuel} : option (Value * string) :=
  match fuel with
  | O => None
  | S f =>
      match skip_ws s with
      | String "034" r =>
          match parse_string EmptyString r with
          | Some (k, r1) =>
              match skip_ws r1 with
              | String ":" r2 =>
                  match parse_value f depth r2 with
                  | Some (v, r3) =>
                      match skip_ws r3 with
                      | String "," r4 => parse_members f depth ((k, v) :: acc) r4
                      | String "}" r4 => Some (VObject (List.rev ((k, v) :: acc)), r4)
                      | _ => None
                      end
                  | None => None
                  end
              | _ => None
              end
          | None => None
          end
      | _ => None
      end
  end
with parse_elements (fuel : nat) (depth : N) (acc : list Value) (s : string)
       {struct fuel} : option (Value * string) :=
  match fuel with
  | O => None
  | S f =>
      match parse_value f depth s with
      | Some (v, r) =>
          match skip_ws r with
          | String "," r' => parse_elements f depth (v :: acc) r'
          | String "]" r' => Some (VArray (List.rev (v :: acc)), r')
          | _ => None
          end
      | None => None
      end
  end.

(** A whole document: one value and nothing but white space after it.
    Every call of the three parsers that succeeds consumes a byte, so
    twice the length bounds their number. *)
Definition parse (s : string) : option Value :=
  match parse_value (2 * String.length s + 2) 0%N s with
  | Some (v, r) =>
      match skip_ws r with
      | EmptyString => Some v
      | _ => None
      end
  | None => None
  end.

(** No number of the value is out of the range of a [float64]. *)
Fixpoint in_range (v : Value) : bool :=
  match v with
  | VNumber literal => negb (overflows literal)
  | VArray items => forallb in_range items
  | VObject members => forallb (fun member => in_range (snd member)) members
  | _ => true
  end.

(** [json.Unmarshal(data, &m)] for [var m map[string]interface{}]:
    [None] stands for a returned error (ill-formed input, a document
    that is not an object, or a number out of range); the document
    [null] leaves [m] nil, which reads like the empty map. *)
Definition Unmarshal (data : string) : option (list (string * Value)) :=
  match parse data with
  | Some (VObject members) =>
      if in_range (VObject members) then Some members else None
  | Some VNull => Some []
  | _ => None
  end.

End Json.

(** ** The logger of client.go *)

Module Log.

Definition LogLevelNone : Z := 0.
Definition LogLevelDebug : Z := 1.
Definition LogLevelInfo : Z := 2.
Definition LogLevelWarn : Z := 3.
Definition LogLevelError : Z := 4.

Record Logger := mkLogger { Level : Z; sessionName : string }.

Definition SetLevel (l : Logger) (level : Z) : Logger :=
  {| Level := level; sessionName := sessionName l |}.

Definition SessionName (l : Logger) : string :=
  if String.eqb (sessionName l) "default" then "" else sessionName l.

(** Each method yields the lines that [log.Printf] writes (without
    the time stamp): one line, or none when the level filters it. *)
Definition emit (l : Logger) (threshold : Z) (tag msg : string) : list string :=
  if Level l <=? threshold
  then ["chatgpt" ++ SessionName l ++ " - " ++ tag ++ " - " ++ msg]
  else [].

Definition Debug (l : Logger) (msg : string) := emit l LogLevelDebug "Debug" msg.
Definition Info (l : Logger) (msg : string) := emit l LogLevelInfo "Info" msg.
Definition Warn (l : Logger) (msg : string) := emit l LogLevelWarn "Warn" msg.
Definition Error (l : Logger) (msg : string) := emit l LogLevelError "Error" msg.

End Log.

(** ** The stream decoder: [parseResponse], [startScan], [checkFields] *)

Module Stream.

Record ChatResponse := mkChatResponse {
  Message : string;
  ConversationID : string;
  ParentID : string;
  Model : string;
  done : bool
}.

(** What a run does besides returning, in order. *)
Inductive Event : Type :=
| Send (r : ChatResponse)      (* streamChannel <- r *)
| CloseChan                    (* close(streamChannel) *)
| Logged (line : string)       (* a line written by the logger *)
| CloseBody.                   (* respBody.Close() *)

(** *** bufio.Scanner with the default split function [ScanLines]

    The lines [Scan] yields for a body: split at line feeds, one
    trailing carriage return dropped, a last line without line feed
    kept when it is not empty.  A line that does not fit the 64 KiB
    buffer ends the scan. *)
Definition MaxScanTokenSize : Z := 65536.

Definition dropCR (reversed : string) : string :=
  match reversed with
  | String "013" r => r
  | _ => reversed
  end.

Fixpoint scanLines_from (cur : string) (n : Z) (body : string) : list string :=
  match body with
  | EmptyString =>
      match cur with
      | EmptyString => []
      | _ => [GoStr.rev (dropCR cur)]
      end
  | String c rest =>
      if Ascii.eqb c "010" then GoStr.rev (dropCR cur) :: scanLines_from EmptyString 0 rest
      else if MaxScanTokenSize <=? n + 1 then []
      else scanLines_from (String c cur) (n + 1) rest
  end.

Definition scanLines (body : string) : list string := scanLines_from EmptyString 0 body.

(** [regexp.MustCompile(`{"detail":.*}`).FindString(line)]: the
    leftmost match, the star taking as much as it can: from the first
    [{"detail":] to the last closing brace after it; the empty string
    when there is none. *)
Fixpoint after_first (s sub : string) : option string :=
  if String.prefix sub s then Some (GoStr.drop (String.length sub) s)
  else match s with
       | EmptyString => None
       | String _ s' => after_first s' sub
       end.

(** The prefix of [s] up to its last closing brace, that brace
    included. *)
Fixpoint upto_last_brace (s : string) : option string :=
  match s with
  | EmptyString => None
  | String c s' =>
      match upto_last_brace s' with
      | Some p => Some (String c p)
      | None => if Ascii.eqb c "}" then Some (String c EmptyString) else None
      end
  end.

Definition FindDetail (line : string) : string :=
  match after_first line (lit "{'detail':") with
  | Some rest =>
      match upto_last_brace rest with
      | Some p => lit "{'detail':" ++ p
      | None => ""
      end
  | None => ""
  end.

Definition asObject (v : option Json.Value) : option (list (string * Json.Value)) :=
  match v with
  | Some (Json.VObject m) => Some m
  | _ => None
  end.

Definition asArray (v : option Json.Value) : option (list Json.Value) :=
  match v with
  | Some (Json.VArray l) => Some l
  | _ => None
  end.

Definition asString (v : option Json.Value) : option string :=
  match v with
  | Some (Json.VString s) => Some s
  | _ => None
  end.

Definition checkFields (parsedLine : list (string * Json.Value)) : bool :=
  match asObject (Json.get parsedLine "message") with
  | None => false
  | Some message =>
      match asObject (Json.get message "content") with
      | None => false
      | Some content =>
          match asArray (Json.get content "parts") with
          | None => false
          | Some parts =>
              match parts with
              | [] => false
              | _ => true
              end
          end
      end
  end.

Section Decoder.

(** The two library calls whose results the decoder depends on:
    [json.Unmarshal] into a [map[string]interface{}], and what
    [fmt.Sprintf("%v", x)] prints for a value that is not a string
    (a string prints as itself). *)
Variable unmarshal : string -> option (list (string * Json.Value)).
Variable sprint_other : Json.Value -> string.

Variable rev : Rev.t.
Variable logger : Log.Logger.
(** [streamChannel != nil] *)
Variable live : bool.

Definition Sprintf_v (v : Json.Value) : string :=
  match v with
  | Json.VString s => s
  | _ => sprint_other v
  end.

(** The state of the loop of [startScan]: the slice [messages] and
    the events so far. *)
Record Scan := mkScan { messages : list ChatResponse; events : list Event }.

Inductive Step : Type :=
| Continue (s : Scan)
| Break (s : Scan)
| Return (e : error) (s : Scan)
| Crash (msg : string) (s : Scan).

(** One round of the loop, for the line [scanner.Text()]. *)
Definition scanLine (s : Scan) (line : string) : Step :=
  if String.eqb line "" || GoStr.HasPrefix line "event: " then Continue s
  else if negb (GoStr.HasPrefix line "data: ") then Continue s
  else if GoStr.Contains line (Rev.detailNeedle rev)
  then Return (Errorf (FindDetail line) []) s
  else
    let line := GoStr.TrimPrefix line "data: " in
    if String.eqb line "[DONE]" then Break s
    else
      match unmarshal line with
      | None => Continue s
      | Some parsedLine =>
          if negb (checkFields parsedLine) then Continue s
          else
            match asObject (Json.get parsedLine "message") with
            | None => Crash "interface conversion" s
            | Some message =>
                match asObject (Json.get message "content") with
                | None => Crash "interface conversion" s
                | Some content =>
                    let '(messageContextType, ok) :=
                      match asString (Json.get content "content_type") with
                      | Some t => (t, true)
                      | None => ("", false)
                      end in
                    if ok && String.eqb messageContextType "text" then
                      match asArray (Json.get content "parts") with
                      | None => Crash "interface conversion" s
                      | Some [] => Continue s
                      | Some (part :: _) =>
                          let message_text := Sprintf_v part in
                          match asString (Json.get parsedLine "conversation_id") with
                          | None => Crash "interface conversion" s
                          | Some conversationID =>
                              match asString (Json.get message "id") with
                              | None => Crash "interface conversion" s
                              | Some parentID =>
                                  let r := {| Message := GoStr.TrimSpace message_text;
                                              ConversationID := conversationID;
                                              ParentID := parentID;
                                              Model := "";
                                              done := false |} in
                                  if live && negb (String.eqb message_text "")
                                  then Continue {| messages := messages s;
                                                   events := events s ++ [Send r] |}
                                  else Continue {| messages := messages s ++ [r];
                                                   events := events s |}
                              end
                          end
                      end
                    else
                      Continue
                        {| messages := messages s;
                           events := events s ++
                             map Logged
                               (Log.Warn logger
                                  ("Unsupported message type: " ++ messageContextType)) |}
                end
            end
      end.

(** [for scanner.Scan() { ... }] over the lines still to come. *)
Fixpoint scanLoop (s : Scan) (lines : list string) : Step :=
  match lines with
  | [] => Break s
  | line :: rest =>
      match scanLine s line with
      | Continue s' => scanLoop s' rest
      | stop => stop
      end
  end.

(** What a call returns and what it did.  [respBody.Close()] is
    deferred, so it is the last event on every way out. *)
Record Run := mkRun {
  outcome : Outcome error (list ChatResponse);
  effects : list Event
}.

Definition startScan (lines : list string) : Run :=
  match scanLoop {| messages := []; events := [] |} lines with
  | Continue s | Break s =>
      if live
      then {| outcome := Ret (messages s);
              effects := events s ++ [CloseChan; CloseBody] |}
      else if Rev.closeGuarded rev
      then {| outcome := Ret (messages s); effects := events s ++ [CloseBody] |}
      else {| outcome := Panic "close of nil channel";
              effects := events s ++ [CloseBody] |}
  | Return e s => {| outcome := Fail e; effects := events s ++ [CloseBody] |}
  | Crash msg s => {| outcome := Panic msg; effects := events s ++ [CloseBody] |}
  end.

(** [parseResponse] reads the first line itself and hands the rest
    to [startScan]: in the caller's thread when the channel is nil
    (buffered mode), in a goroutine of its own otherwise (live
    mode).  [spawned] is the run of that goroutine to its end, with
    a receiver that takes every frame. *)
Record Parsed := mkParsed {
  returned : Outcome error (list ChatResponse);
  did : list Event;
  spawned : option Run
}.

Definition parseResponse (body : string) : Parsed :=
  let lines := scanLines body in
  let detail_first :=
    match lines with
    | line :: _ => GoStr.Contains line (Rev.detailNeedle rev)
    | [] => false
    end in
  if detail_first
  then {| returned := Fail (Errorf (FindDetail (hd "" lines)) []);
          did := []; spawned := None |}
  else
    let run := startScan (tl lines) in
    if live
    then {| returned := Ret []; did := []; spawned := Some run |}
    else {| returned := outcome run; did := effects run; spawned := None |}.

End Decoder.

End Stream.

(** ** auth.go, client.go and [Ask] of ask.go *)

Module Chatgpt.

Definition ApiKeyMode : Z := 0.
Definition AccessTokenMode : Z := 1.

Definition DEFAULT_INIT_MESSAGE : string :=
  "You are chatGPT, trained on a very huge dataset of conversations. Act conversationally".

Record Auth := mkAuth {
  email : string;
  password : string;
  authState : string;
  apiKey : string;
  accessToken : string;
  expires : Z;
  enableCache : bool;
  clientStarted : bool;
  sessionName : string
}.

(** The fields of [Client] that the modelled methods read or write
    ([httpx] is the transport below; [temperature], [enableInternet]
    and [stream] take no part). *)
Record Client := mkClient {
  auth : Auth;
  conversations : gmap string Conv.Conversation;
  engine : string;
  c_initMessage : string;
  baseUrl : string;
  proxy : option string;
  authmode : Z;
  ispaid : bool;
  logger : Log.Logger
}.

Record authCache := mkAuthCache { AccessToken : string; Expires : Z }.

Record authResp := mkAuthResp {
  r_AccessToken : string;
  r_Expires : Z;
  r_Detail : string
}.

(** *** The file gpt-cache.json

    The file is modelled by what [json.NewDecoder(file).Decode]
    makes of it when the target is a nil [map[string]authCache].
    The strings of such a map are valid UTF-8, in the names as in the
    tokens: the decoder delivers no others. *)
Inductive CacheFile : Type :=
| Mapping (m : gmap string authCache)  (* an object: no error, the map filled *)
| Null                                 (* the document null: no error, the map left nil *)
| Broken (stored : option (gmap string authCache)).
                                       (* an error; what the map holds by then *)

(** What [Decode] makes of the file that [Encode] has written for the
    map [m], in which [key] is the entry just assigned.  The other
    entries were decoded from the file before, so their strings are
    valid UTF-8 and come back as they are.  In the entry of [key] the
    encoder replaces what is not valid UTF-8, in the name as in the
    token.  When another entry has the name that results, the file
    holds two members of one name: the encoder writes the members in
    the order of their keys (bytes compared), and the decoder keeps
    the later one. *)
Definition reread (key : string) (m : gmap string authCache) : gmap string authCache :=
  match m !! key with
  | None => m
  | Some v =>
      let v' := {| AccessToken := Utf8.coerce (AccessToken v); Expires := Expires v |} in
      let key' := Utf8.coerce key in
      if String.eqb key' key then <[key := v']> m
      else
        let others := delete key m in
        match others !! key' with
        | Some _ => if String.ltb key' key then <[key' := v']> others else others
        | None => <[key' := v']> others
        end
  end.

Record Disk := mkDisk {
  file : option CacheFile;   (* [None]: os.Stat fails *)
  canOpen : bool;            (* os.Open succeeds *)
  canCreate : bool           (* os.Create and the write succeed *)
}.

(** *** HTTP *)

Record Request := mkRequest {
  Method : string;
  URL : string;
  Body : string;
  ContentType : string;
  Authorization : string;
  Cookies : list string
}.

Record Response := mkResponse {
  StatusCode : Z;
  Status : string;
  Location : string;          (* Header.Get("Location") *)
  SetCookies : list string;   (* Cookies() *)
  RespBody : string
}.

(** What building and sending a request comes to.  [BadRequest]:
    [http.NewRequest] failed, so the request is nil (the client drops
    that error) and using it panics. *)
Inductive Reply : Type :=
| Answer (r : Response)
| NetError (e : string)
| BadRequest.

Record OpenAIResponse := mkOpenAIResponse {
  Choices : option (list (Conv.Message * string))   (* message, finish_reason; [None] is nil *)
}.

Record AskOpts := mkAskOpts { o_ConversationID : string; o_ParentID : string }.

Definition GetResponse (rev : Rev.t) (r : OpenAIResponse) : string :=
  match Choices r with
  | None => Rev.nilChoices rev
  | Some [] => ""
  | Some ((m, _) :: _) => Conv.Content m
  end.

(** [Config] and [NewClient].  The proxy of the configuration goes
    into the transport of [httpx]; the field [proxy] of the client is
    set by [SetProxy] only. *)
Module Config.
Record t := mk {
  ApiKey : string;
  Email : string;
  Password : string;
  AccessToken : string;
  Engine : string;
  InitMessage : string;
  BaseURL : string;
  LogLevel : Z;
  IsPaid : bool;
  DisableCache : bool
}.
End Config.

Definition NewClient (config : Config.t) (sessionName : list string) : Client :=
  let name := match sessionName with
              | n :: _ => n
              | [] => "default"
              end in
  {| auth := {| email := Config.Email config;
                password := Config.Password config;
                authState := "";
                apiKey := Config.ApiKey config;
                accessToken := Config.AccessToken config;
                expires := 0;
                enableCache := negb (Config.DisableCache config);
                clientStarted := false;
                sessionName := name |};
     conversations := ∅;
     engine := if String.eqb (Config.Engine config) "" then "gpt-3.5-turbo"
               else Config.Engine config;
     c_initMessage := Config.InitMessage config;
     baseUrl := if String.eqb (Config.BaseURL config) ""
                then "https://bypass.churchless.tech/api/conversation"
                else Config.BaseURL config;
     proxy := None;
     authmode := 0;
     ispaid := Config.IsPaid config;
     logger := {| Log.Level := if negb (Config.LogLevel config =? 0)
                               then Config.LogLevel config else Log.LogLevelInfo;
                  Log.sessionName := name |} |}.

Section Engine.

(** The state of everything outside the process that answers HTTP
    requests, and the transport. *)
Variable W : Type.
Variable send : W -> Request -> Reply * W.

(** Library calls: [url.QueryEscape]; decoding the bodies of the
    three JSON answers (the error text, or the decoded struct);
    [json.Marshal] of the [Payload] of [makePayload].  The decoder
    replaces the bytes of a string that are not valid UTF-8; where
    a decoded string goes on to the cache file, in [stepThree], the
    model does so with what the parameter delivers. *)
Variable QueryEscape : string -> string.
Variable decodeEndpoint : string -> string + (string * string).   (* state, url *)
Variable decodeAuthResp : string -> string + authResp.
Variable decodeOpenAIResponse : string -> string + OpenAIResponse.
Variable decodeOpenAIError : string -> string + (string * Z).     (* message, code *)
Variable marshalPayload : string -> list Conv.Message -> string.

(** The revision of ask.go, and the orders in which the two calls of
    [getEngineTokenLimit] in [Ask], the one of [Ask] itself and the
    one of [tokenizeMessage], meet the entries of [Engines]. *)
Variable rev : Rev.t.
Variable range range' : list (string * Z).

Record State := mkState {
  client : Client;
  net : W;
  disk : Disk;
  out : list string          (* what the logger wrote *)
}.

(** A method of [*Auth] or [*Client]: reads and writes the state,
    and returns, fails with an [error], or panics. *)
Definition M (A : Type) : Type := State -> Outcome error A * State.

Definition ret {A} (a : A) : M A := fun s => (Ret a, s).
Definition fail {A} (e : error) : M A := fun s => (Fail e, s).
Definition panic {A} (msg : string) : M A := fun s => (Panic msg, s).
Definition bind {A B} (m : M A) (k : A -> M B) : M B :=
  fun s =>
    match m s with
    | (Ret a, s') => k a s'
    | (Fail e, s') => (Fail e, s')
    | (Panic msg, s') => (Panic msg, s')
    end.

Notation "x <- m ;; k" := (bind m (fun x => k))
  (at level 100, m at next level, right associativity).
Notation "m ;;; k" := (bind m (fun _ => k))
  (at level 100, right associativity).

Definition getAuth : M Auth := fun s => (Ret (auth (client s)), s).
Definition getClient : M Client := fun s => (Ret (client s), s).
Definition setClient (c : Client) : M unit :=
  fun s => (Ret tt, {| client := c; net := net s; disk := disk s; out := out s |}).
Definition withAuth (c : Client) (a : Auth) : Client :=
  {| auth := a; conversations := conversations c; engine := engine c;
     c_initMessage := c_initMessage c; baseUrl := baseUrl c; proxy := proxy c;
     authmode := authmode c; ispaid := ispaid c; logger := logger c |}.
Definition setAuth (a : Auth) : M unit :=
  fun s => (Ret tt, {| client := withAuth (client s) a;
                       net := net s; disk := disk s; out := out s |}).
Definition getDisk : M Disk := fun s => (Ret (disk s), s).
Definition setDisk (d : Disk) : M unit :=
  fun s => (Ret tt, {| client := client s; net := net s; disk := d; out := out s |}).
Definition write (lines : list string) : M unit :=
  fun s => (Ret tt, {| client := client s; net := net s; disk := disk s;
                       out := out s ++ lines |}).
Definition Do (req : Request) : M Reply :=
  fun s => let '(r, w) := send (net s) req in
           (Ret r, {| client := client s; net := w; disk := disk s; out := out s |}).

(** **** auth.go *)

Definition withToken (a : Auth) (token : string) (exp : Z) : Auth :=
  {| email := email a; password := password a; authState := authState a;
     apiKey := apiKey a; accessToken := token; expires := exp;
     enableCache := enableCache a; clientStarted := clientStarted a;
     sessionName := sessionName a |}.

Definition withAuthState (a : Auth) (st : string) : Auth :=
  {| email := email a; password := password a; authState := st;
     apiKey := apiKey a; accessToken := accessToken a; expires := expires a;
     enableCache := enableCache a; clientStarted := clientStarted a;
     sessionName := sessionName a |}.

Definition withStarted (a : Auth) : Auth :=
  {| email := email a; password := password a; authState := authState a;
     apiKey := apiKey a; accessToken := accessToken a; expires := expires a;
     enableCache := enableCache a; clientStarted := true;
     sessionName := sessionName a |}.

(** [nil] is [None]. *)
Definition decodePrevious (d : Disk) : option (gmap string authCache) :=
  match file d with
  | None => None
  | Some f =>
      if canOpen d then
        match f with
        | Mapping m => Some m
        | Null => None
        | Broken stored => stored
        end
      else None
  end.

Definition cacheAccessToken : M unit :=
  a <- getAuth ;;
  d <- getDisk ;;
  let previousData :=
    match decodePrevious d with
    | Some m => m
    | None => ∅
    end in
  let previousData :=
    <[sessionName a := {| AccessToken := accessToken a; Expires := expires a |}]>
      previousData in
  if canCreate d
  then setDisk {| file := Some (Mapping (reread (sessionName a) previousData));
                  canOpen := canOpen d; canCreate := canCreate d |}
  else fail (LibError "open gpt-cache.json").

Definition loadCachedAccessToken : M unit :=
  a <- getAuth ;;
  d <- getDisk ;;
  match file d with
  | None => ret tt
  | Some f =>
      if negb (canOpen d) then ret tt
      else match f with
           | Broken _ => ret tt
           | Null => ret tt
           | Mapping data =>
               match data !! sessionName a with
               | Some cache => setAuth (withToken a (AccessToken cache) (Expires cache))
               | None => ret tt
               end
           end
  end.

Definition stepOne : M string :=
  reply <- Do {| Method := "GET"; URL := "https://chat-api.zhile.io/auth/endpoint";
                 Body := ""; ContentType := ""; Authorization := "";
                 Cookies := [] |} ;;
  match reply with
  | NetError e => fail (LibError e)
  | BadRequest => fail (LibError "parse url")     (* http.Get returns the error *)
  | Answer resp =>
      if negb (StatusCode resp =? 200)
      then fail (Errorf "bad status: %s" [Status resp])
      else
        match decodeEndpoint (RespBody resp) with
        | inl e => fail (LibError e)
        | inr (state, url) =>
            a <- getAuth ;;
            setAuth (withAuthState a state) ;;;
            ret url
        end
  end.

Definition invalid_credentials : error :=
  ChatError
    "email and password combination is incorrect or you have not verified your email address yet"
    400.

(** The status check after each of the two form posts. *)
Definition check_post (next_url : string) (resp : Response) : M unit :=
  if negb (StatusCode resp =? 302)
  then if StatusCode resp =? 400
       then fail invalid_credentials
       else fail (ChatError ("bad status for url: " ++ next_url) (StatusCode resp))
  else ret tt.

Definition get (url : string) (cookies : list string) : Request :=
  {| Method := "GET"; URL := url; Body := ""; ContentType := "";
     Authorization := ""; Cookies := cookies |}.

(** A POST of a URL-encoded form. *)
Definition post (url body : string) (cookies : list string) : Request :=
  {| Method := "POST"; URL := url; Body := body;
     ContentType := "application/x-www-form-urlencoded";
     Authorization := ""; Cookies := cookies |}.

Definition _url_prefix : string := "https://auth0.openai.com".

(** [strings.Split(strings.Split(next_url, "state=")[1], "&")[0]];
    [None] when the first split has a single piece and the index
    is out of range. *)
Definition current_state_of (next_url : string) : option string :=
  match GoStr.Split next_url "state=" with
  | _ :: after :: _ => Some (hd "" (GoStr.Split after "&"))
  | _ => None
  end.

Definition username_form (current_state _email : string) : string :=
  "state=" ++ current_state ++ "&username=" ++ QueryEscape _email
  ++ "&js-available=true&webauthn-available=true&is-brave=false&webauthn-platform-available=false&action=default".

Definition password_form (current_state _email _password : string) : string :=
  "state=" ++ current_state ++ "&username=" ++ QueryEscape _email
  ++ "&password=" ++ QueryEscape _password ++ "&action=default".

Definition stepTwo (auth_url _email _password : string) : M string :=
  reply <- Do (get auth_url []) ;;
  match reply with
  | BadRequest => panic "nil pointer dereference"
  | NetError _ => panic "nil pointer dereference"   (* resp.Cookies() on a nil resp *)
  | Answer resp =>
      let _ref_cookies := SetCookies resp in
      if negb (StatusCode resp =? 302)
      then fail (Errorf "bad status for url: %s" [auth_url])
      else
        let next_url := _url_prefix ++ Location resp in
        match current_state_of next_url with
        | None => panic "index out of range [1] with length 1"
        | Some current_state =>
            reply <- Do (post next_url (username_form current_state _email)
                              _ref_cookies) ;;
            match reply with
            | BadRequest => panic "nil pointer dereference"
            | NetError e => fail (LibError e)
            | Answer resp =>
                check_post next_url resp ;;;
                let next_url := _url_prefix ++ Location resp in
                reply <- Do (post next_url
                                  (password_form current_state _email _password)
                                  _ref_cookies) ;;
                match reply with
                | BadRequest => panic "nil pointer dereference"
                | NetError e => fail (LibError e)
                | Answer resp =>
                    check_post next_url resp ;;;
                    let next_url := _url_prefix ++ Location resp in
                    reply <- Do (get next_url _ref_cookies) ;;
                    match reply with
                    | BadRequest => panic "nil pointer dereference"
                    | NetError e => fail (LibError e)
                    | Answer resp =>
                        if negb (StatusCode resp =? 302)
                        then fail (ChatError ("bad status for url: " ++ next_url)
                                             (StatusCode resp))
                        else ret (Location resp)
                    end
                end
            end
        end
  end.

Definition stepThree (code_url : string) : M authResp :=
  a <- getAuth ;;
  reply <- Do (post "https://chat-api.zhile.io/auth/token"
                    ("state=" ++ authState a ++ "&callbackUrl=" ++ QueryEscape code_url)
                    []) ;;
  match reply with
  | BadRequest => panic "nil pointer dereference"
  | NetError e => fail (LibError e)
  | Answer resp =>
      match decodeAuthResp (RespBody resp) with
      | inl e => fail (LibError e)
      | inr result =>
          (* the strings that the decoder delivers are valid UTF-8 *)
          ret {| r_AccessToken := Utf8.coerce (r_AccessToken result);
                 r_Expires := r_Expires result;
                 r_Detail := Utf8.coerce (r_Detail result) |}
      end
  end.

(** [now] is [time.Now()] at the call. *)
Definition GetAccessToken (now : Z) : M string :=
  a <- getAuth ;;
  (if enableCache a then loadCachedAccessToken else ret tt) ;;;
  a <- getAuth ;;
  if negb (String.eqb (accessToken a) "") && (now <? expires a)
  then ret (accessToken a)
  else if String.eqb (email a) "" || String.eqb (password a) ""
  then fail (Errorf "email and password must be set to authenticate with OpenAI" [])
  else
    callback_url <- stepOne ;;
    code_url <- stepTwo callback_url (email a) (password a) ;;
    resp <- stepThree code_url ;;
    a <- getAuth ;;
    setAuth (withToken a (r_AccessToken resp) (r_Expires resp)) ;;;
    (if enableCache a
     then fun s => match cacheAccessToken s with
                   | (Panic m, s') => (Panic m, s')
                   | (_, s') => (Ret tt, s')      (* the error is dropped *)
                   end
     else ret tt) ;;;
    ret (r_AccessToken resp).

(** **** client.go *)

Definition checkCredentials : M unit :=
  a <- getAuth ;;
  if String.eqb (apiKey a) ""
     && (String.eqb (email a) "" || String.eqb (password a) "")
     && String.eqb (accessToken a) ""
  then fail (Errorf "no credentials provided, please set an API key, email and password, or access token" [])
  else if (negb (String.eqb (email a) "") && String.eqb (password a) "")
          || (String.eqb (email a) "" && negb (String.eqb (password a) ""))
  then fail (Errorf "email and password must be set together" [])
  else ret tt.

Definition pingProxy : M unit :=
  c <- getClient ;;
  match proxy c with
  | None => fail (Errorf "no proxy server set" [])
  | Some p =>
      reply <- Do {| Method := "GET"; URL := p; Body := ""; ContentType := "";
                     Authorization := ""; Cookies := [] |} ;;
      match reply with
      | Answer _ => ret tt
      | NetError e => fail (LibError e)
      | BadRequest => fail (LibError "parse url")
      end
  end.

Definition withMode (c : Client) (mode : Z) : Client :=
  {| auth := auth c; conversations := conversations c; engine := engine c;
     c_initMessage := c_initMessage c; baseUrl := baseUrl c; proxy := proxy c;
     authmode := mode; ispaid := ispaid c; logger := logger c |}.

Definition withEngine (c : Client) (e : string) : Client :=
  {| auth := auth c; conversations := conversations c; engine := e;
     c_initMessage := c_initMessage c; baseUrl := baseUrl c; proxy := proxy c;
     authmode := authmode c; ispaid := ispaid c; logger := logger c |}.

Definition withConversations (c : Client) (m : gmap string Conv.Conversation) : Client :=
  {| auth := auth c; conversations := m; engine := engine c;
     c_initMessage := c_initMessage c; baseUrl := baseUrl c; proxy := proxy c;
     authmode := authmode c; ispaid := ispaid c; logger := logger c |}.

Definition Debug (msg : string) : M unit :=
  c <- getClient ;; write (Log.Debug (logger c) msg).
Definition Info (msg : string) : M unit :=
  c <- getClient ;; write (Log.Info (logger c) msg).

(** The last lines of both access-token branches of [Start]. *)
Definition use_free_engine : M unit :=
  c <- getClient ;;
  if negb (ispaid c)
  then setClient (withEngine c "text-davinci-002-render-sha") ;;;
       Debug ("Using free engine: " ++ "text-davinci-002-render-sha")
  else ret tt.

Definition Start (now : Z) : M unit :=
  loadCachedAccessToken ;;;
  checkCredentials ;;;
  c <- getClient ;;
  (match proxy c with
   | Some _ => pingProxy ;;; Debug "Proxy server is alive"
   | None => ret tt
   end) ;;;
  a <- getAuth ;;
  (if negb (String.eqb (apiKey a) "") then
     c <- getClient ;;
     setClient (withMode c ApiKeyMode) ;;;
     Info "Starting client with API key Authentication"
   else if negb (String.eqb (accessToken a) "") then
     c <- getClient ;;
     setClient (withMode c AccessTokenMode) ;;;
     (if enableCache a then cacheAccessToken else ret tt) ;;;
     Info "Starting client with access token Authentication" ;;;
     use_free_engine
   else if negb (String.eqb (email a) "") && negb (String.eqb (password a) "") then
     Info "Starting client with email and password Authentication" ;;;
     accessToken <- GetAccessToken now ;;
     Info "Successfully authenticated with OpenAI" ;;;
     a <- getAuth ;;
     setAuth (withToken a accessToken (expires a)) ;;;
     c <- getClient ;;
     setClient (withMode c AccessTokenMode) ;;;
     use_free_engine
   else ret tt) ;;;
  a <- getAuth ;;
  setAuth (withStarted a).

(** **** ask.go: [Ask] *)

Definition OPENAI_HOST : string := "https://api.openai.com/v1/chat/completions".

Definition askOpenAI (messages : list Conv.Message) : M OpenAIResponse :=
  c <- getClient ;;
  reply <- Do {| Method := "POST"; URL := OPENAI_HOST;
                 Body := marshalPayload (engine c) messages;
                 ContentType := "application/json";
                 Authorization := "Bearer " ++ apiKey (auth c);
                 Cookies := [] |} ;;
  match reply with
  | BadRequest => panic "nil pointer dereference"
  | NetError e => fail (LibError e)
  | Answer resp =>
      if StatusCode resp =? 200
      then match decodeOpenAIResponse (RespBody resp) with
           | inl e => fail (LibError e)
           | inr response => ret response
           end
      else match decodeOpenAIError (RespBody resp) with
           | inl e => fail (LibError e)
           | inr (message, code) => fail (ChatError message code)
           end
  end.

(** The conversation that [Ask] works on: the one named by the first
    option, "default" when there is none. *)
Definition conversation_id (askOpts : list AskOpts) : string :=
  let conversationId :=
    match askOpts with
    | o :: _ => o_ConversationID o
    | [] => ""
    end in
  if String.eqb conversationId "" then "default" else conversationId.

(** Lines 101 to 142 of [Ask] in src/ask.go: choose the conversation,
    create it or append the prompt to it, and truncate it when its
    token count is over the limit of the engine.  The result is the
    client with the conversation stored, the local copy
    [conversation], and [conversationId]. *)
Definition Ask_window (c : Client) (prompt : string) (askOpts : list AskOpts)
    : Client * Conv.Conversation * string :=
  let conversationId := conversation_id askOpts in
  let conversation :=
    match conversations c !! conversationId with
    | None =>
        let conversation :=
          Conv.initMessage Conv.zero
            (Conv.mkMessage "system"
               (if negb (String.eqb (c_initMessage c) "")
                then c_initMessage c else DEFAULT_INIT_MESSAGE)) in
        if Rev.promptOnCreate rev
        then Conv.addMessage conversation (Conv.mkMessage "user" prompt)
        else conversation
    | Some conversation =>
        Conv.addMessage conversation (Conv.mkMessage "user" prompt)
    end in
  let c := withConversations c (<[conversationId := conversation]> (conversations c)) in
  let tokens := Conv.getTokenCount conversation in
  if Rev.getEngineTokenLimit rev range (engine c) <? tokens
  then
    let conversation :=
      Conv.tokenizeMessage (Rev.getEngineTokenLimit rev range') conversation (engine c) in
    (withConversations c (<[conversationId := conversation]> (conversations c)),
     conversation, conversationId)
  else (c, conversation, conversationId).

(** [askWithAccessToken], to which [Ask] hands over in access-token
    mode, is not modelled here: it sends the prompt to the
    conversation endpoint and decodes the answer with
    [Stream.parseResponse]. *)
Variable askWithAccessToken : string -> list AskOpts -> M Stream.ChatResponse.

Definition Ask (prompt : string) (askOpts : list AskOpts) : M Stream.ChatResponse :=
  c <- getClient ;;
  if negb (clientStarted (auth c))
  then fail (Errorf "client is not started, call Start() first" [])
  else if authmode c =? AccessTokenMode
  then askWithAccessToken prompt askOpts
  else
    let '(c, conversation, conversationId) := Ask_window c prompt askOpts in
    setClient c ;;;
    fun s =>
      match askOpenAI (Conv.Messages conversation) s with
      | (Ret response, s') =>
          (conversation' <- ret (Conv.addMessage conversation
                                   (Conv.mkMessage "assistant" (GetResponse rev response))) ;;
           c' <- getClient ;;
           setClient (withConversations c'
                        (<[conversationId := conversation']> (conversations c'))) ;;;
           ret {| Stream.Message := GetResponse rev response;
                  Stream.ConversationID := conversationId;
                  Stream.ParentID := "";
                  Stream.Model := engine c';
                  Stream.done := false |}) s'
      | (Fail _, s') =>
          (* response is nil: response.GetResponse() dereferences it *)
          (Panic "nil pointer dereference", s')
      | (Panic msg, s') => (Panic msg, s')
      end.

End Engine.

Arguments mkState {W}.
Arguments client {W}.
Arguments net {W}.
Arguments disk {W}.
Arguments out {W}.
Arguments cacheAccessToken {W}.
Arguments loadCachedAccessToken {W}.
Arguments check_post {W}.
Arguments stepOne {W}.
Arguments stepTwo {W}.
Arguments stepThree {W}.
Arguments GetAccessToken {W}.
Arguments checkCredentials {W}.
Arguments pingProxy {W}.
Arguments Start {W}.
Arguments askOpenAI {W}.
Arguments Ask {W}.

End Chatgpt.

(** ** Histories of a conversation

    The operations a conversation undergoes after [Ask] created it:
    appends of messages and runs of the truncation. *)

Module History.

Inductive Op : Type :=
| Append (m : Conv.Message)
| Window (limit : string -> Z) (engine : string).

Definition apply (c : Conv.Conversation) (op : Op) : Conv.Conversation :=
  match op with
  | Append m => Conv.addMessage c m
  | Window limit engine => Conv.tokenizeMessage limit c engine
  end.

Definition run (c : Conv.Conversation) (ops : list Op) : Conv.Conversation :=
  fold_left apply ops c.

(** A conversation as [Ask] creates it, with the system text [init]. *)
Definition created (init : string) : Conv.Conversation :=
  Conv.initMessage Conv.zero (Conv.mkMessage "system" init).


(** The first entry of the history is the system message, with the
    stored init text. *)
Definition system_first (c : Conv.Conversation) : Prop :=
  Conv.Messages c !! 0%nat = Some (Conv.mkMessage "system" (Conv.InitMessage c)).

Fixpoint replicate_char (n : nat) (c : ascii) : string :=
  match n with
  | O => EmptyString
  | S k => String c (replicate_char k c)
  end.

(** A system text of 16004 bytes: 4001 tokens, over every limit of
    4000. *)
Definition long_init : string := replicate_char (N.to_nat 16004) "a".

End History.

(** ** Streams used below, and what is observed of a run *)

Module Streams.

Import Stream.

Definition nl : string := String "010" EmptyString.

Fixpoint unlines (lines : list string) : string :=
  match lines with
  | [] => EmptyString
  | l :: rest => l ++ nl ++ unlines rest
  end.

(** The stream of seven lines: an event line, a malformed data line, a
    well-formed frame, the sentinel, blank lines in between. *)
Definition seven_lines : string :=
  unlines
    [ "event: x"; "";
      "data: {malformed}"; "";
      lit "data: {'message':{'id':'m1','content':{'content_type':'text','parts':['Hi']}},'conversation_id':'c1'}";
      "";
      "data: [DONE]" ].

Definition frame (conversationID parentID text : string) : ChatResponse :=
  {| Message := text; ConversationID := conversationID; ParentID := parentID;
     Model := ""; done := false |}.

(** A stream that is nothing but a detail object. *)
Definition rate_limited : string := lit "{'detail':'rate limited'}".

(** A first line, then a detail object in a data line. *)
Definition detail_midstream : string :=
  unlines [ "event: x"; lit "data: {'detail':'boom'}" ].

(** The same with the text that ask.go looks for. *)
Definition detail_midstream_ask_go : string :=
  unlines [ "event: x"; lit "data: {'detail':}" ].

(** A first line, then a frame whose only part is [part], then the
    sentinel. *)
Definition one_frame (part : string) : string :=
  unlines
    [ "event: x";
      lit "data: {'message':{'id':'m1','content':{'content_type':'text','parts':['"
        ++ part ++ lit "']}},'conversation_id':'c1'}";
      "data: [DONE]" ].

(** A logger at the default level, and a printer for the values that
    are not strings (none occurs in the streams above). *)
Definition default_logger : Log.Logger :=
  {| Log.Level := Log.LogLevelInfo; Log.sessionName := "default" |}.

Definition no_other (v : Json.Value) : string := "".

(** How often a run closes the channel. *)
Fixpoint closes (evs : list Event) : nat :=
  match evs with
  | [] => O
  | CloseChan :: rest => S (closes rest)
  | _ :: rest => closes rest
  end.

(** The frames a run sends on the channel, in order. *)
Fixpoint sent (evs : list Event) : list ChatResponse :=
  match evs with
  | [] => []
  | Send r :: rest => r :: sent rest
  | _ :: rest => sent rest
  end.

(** The text, before trimming, of the frame that a data line carries:
    what [fmt.Sprintf] prints for the first part. *)
Definition frame_text (unmarshal : string -> option (list (string * Json.Value)))
    (sprint_other : Json.Value -> string) (line : string) : option string :=
  match unmarshal (GoStr.TrimPrefix line "data: ") with
  | None => None
  | Some parsedLine =>
      match asObject (Json.get parsedLine "message") with
      | None => None
      | Some message =>
          match asObject (Json.get message "content") with
          | None => None
          | Some content =>
              match asArray (Json.get content "parts") with
              | Some (part :: _) => Some (Sprintf_v sprint_other part)
              | _ => None
              end
          end
      end
  end.

(** Whether the identifiers of the frame of a data line, when it has
    one, are strings: [conversation_id] at the top, [id] in the
    message. *)
Definition typed_ids (unmarshal : string -> option (list (string * Json.Value)))
    (line : string) : bool :=
  match unmarshal (GoStr.TrimPrefix line "data: ") with
  | None => true
  | Some parsedLine =>
      match asObject (Json.get parsedLine "message") with
      | None => true
      | Some message =>
          match asString (Json.get parsedLine "conversation_id"),
                asString (Json.get message "id") with
          | Some _, Some _ => true
          | _, _ => false
          end
      end
  end.

(** What a live run has sent and kept against what the buffered run
    over the same lines has kept. *)
Definition split_of (sl sb : Scan) : Prop :=
  sublist (sent (events sl)) (messages sb)
  /\ sublist (messages sl) (messages sb)
  /\ Permutation (messages sb) (sent (events sl) ++ messages sl).

Definition same_stop (l b : Step) : Prop :=
  match l, b with
  | Continue sl, Continue sb | Break sl, Break sb => split_of sl sb
  | Return e sl, Return e' sb => e = e' /\ split_of sl sb
  | Crash m sl, Crash m' sb => m = m' /\ split_of sl sb
  | _, _ => False
  end.

(** Two frames and the sentinel: the first frame has text, the part
    of the second is empty. *)
Definition text_then_empty : list string :=
  [ lit "data: {'message':{'id':'m1','content':{'content_type':'text','parts':['Hi']}},'conversation_id':'c1'}";
    lit "data: {'message':{'id':'m2','content':{'content_type':'text','parts':['']}},'conversation_id':'c1'}";
    "data: [DONE]" ].

(** The lines that [startScan] does not skip at once. *)
Definition data_lines (lines : list string) : list string :=
  List.filter (fun line => GoStr.HasPrefix line "data: ") lines.

(** The loop state a step ends in. *)
Definition scan_of (st : Step) : Scan :=
  match st with
  | Continue s | Break s | Return _ s | Crash _ s => s
  end.

(** The line is one that the loop decodes as a frame of text: a data
    line without the text of an error and other than the sentinel,
    whose document has the fields, the content type text, the
    identifiers [cid] and [pid], and the first part [raw] as
    printed. *)
Definition text_frame (unmarshal : string -> option (list (string * Json.Value)))
    (sprint_other : Json.Value -> string) (rev : Rev.t)
    (line cid pid raw : string) : Prop :=
  String.eqb line "" || GoStr.HasPrefix line "event: " = false
  /\ GoStr.HasPrefix line "data: " = true
  /\ GoStr.Contains line (Rev.detailNeedle rev) = false
  /\ String.eqb (GoStr.TrimPrefix line "data: ") "[DONE]" = false
  /\ exists parsedLine message content part parts,
       unmarshal (GoStr.TrimPrefix line "data: ") = Some parsedLine
       /\ asObject (Json.get parsedLine "message") = Some message
       /\ asObject (Json.get message "content") = Some content
       /\ asString (Json.get content "content_type") = Some "text"
       /\ asArray (Json.get content "parts") = Some (part :: parts)
       /\ asString (Json.get parsedLine "conversation_id") = Some cid
       /\ asString (Json.get message "id") = Some pid
       /\ Sprintf_v sprint_other part = raw.

(** [r] is the frame of a line of the stream whose frame text, before
    trimming, is not empty. *)
Definition from_nonempty_text (unmarshal : string -> option (list (string * Json.Value)))
    (sprint_other : Json.Value -> string) (lines : list string) (r : ChatResponse) : Prop :=
  exists line raw,
    In line lines /\ frame_text unmarshal sprint_other line = Some raw /\
    raw <> "" /\ Message r = GoStr.TrimSpace raw.

End Streams.


(** ** Networks, disks and clients used below *)

Module Scenario.

Import Chatgpt.

(** A transport that keeps the exchanges it carried, in order. *)
Definition logged {W : Type} (send : W -> Request -> Reply * W)
    (wl : W * list (Request * Reply)) (req : Request)
    : Reply * (W * list (Request * Reply)) :=
  let '(r, w) := send (fst wl) req in (r, (w, (snd wl ++ [(req, r)])%list)).

(** A network that answers with the next reply of a script, whatever
    the request, and is unreachable when the script is over. *)
Definition scripted (script : list Reply) (req : Request) : Reply * list Reply :=
  match script with
  | r :: rest => (r, rest)
  | [] => (NetError "no route to host", [])
  end.

Definition redirect (status : Z) (location : string) : Reply :=
  Answer {| StatusCode := status; Status := ""; Location := location;
            SetCookies := ["did=1"]; RespBody := "" |}.

Definition ok (body : string) : Reply :=
  Answer {| StatusCode := 200; Status := "200 OK"; Location := "";
            SetCookies := []; RespBody := body |}.

Definition no_escape (s : string) : string := s.

(** The discovery endpoint issues the state [issued]. *)
Definition endpoint_issues (issued : string) (body : string) : string + (string * string) :=
  inr (issued, "https://provider.example/authorize").

Definition token_answer (body : string) : string + authResp :=
  inr {| r_AccessToken := "TOKEN"; r_Expires := 1000; r_Detail := "" |}.

(** A whole handshake in which every stage answers as expected, the
    redirects echoing the state [echoed]. *)
Definition handshake (echoed : string) : list Reply :=
  [ ok "{}";
    redirect 302 ("/u/login/identifier?state=" ++ echoed);
    redirect 302 ("/u/login/password?state=" ++ echoed);
    redirect 302 ("/authorize/resume?state=" ++ echoed);
    redirect 302 "https://chat.openai.com/api/auth/callback/auth0?code=abc";
    ok "{}" ].

(** A string of one byte that is no UTF-8, and the encoding of the
    replacement character U+FFFD. *)
Definition byte_255 : string := String "255" EmptyString.
Definition replacement_character : string :=
  String "239" (String "191" (String "189" EmptyString)).

Definition no_file : Disk := {| file := None; canOpen := true; canCreate := true |}.

Definition start_state {W : Type} (c : Client) (w : W) (d : Disk) : State W :=
  {| client := c; net := w; disk := d; out := [] |}.

Definition email_config : Config.t :=
  {| Config.ApiKey := ""; Config.Email := "user@example.com";
     Config.Password := "secret"; Config.AccessToken := "";
     Config.Engine := ""; Config.InitMessage := ""; Config.BaseURL := "";
     Config.LogLevel := 0; Config.IsPaid := false; Config.DisableCache := true |}.

(** Email and password, with the cache of tokens in use. *)
Definition cached_email_config : Config.t :=
  {| Config.ApiKey := ""; Config.Email := "user@example.com";
     Config.Password := "secret"; Config.AccessToken := "";
     Config.Engine := ""; Config.InitMessage := ""; Config.BaseURL := "";
     Config.LogLevel := 0; Config.IsPaid := false; Config.DisableCache := false |}.

(** An API key and a system text of 16004 bytes. *)
Definition long_init_config : Config.t :=
  {| Config.ApiKey := "sk-key"; Config.Email := ""; Config.Password := "";
     Config.AccessToken := ""; Config.Engine := "";
     Config.InitMessage := History.long_init; Config.BaseURL := "";
     Config.LogLevel := 0; Config.IsPaid := false; Config.DisableCache := true |}.

(** Email, password and a bearer token together, no API key. *)
Definition email_and_token_config : Config.t :=
  {| Config.ApiKey := ""; Config.Email := "user@example.com";
     Config.Password := "secret"; Config.AccessToken := "bearer-token";
     Config.Engine := ""; Config.InitMessage := ""; Config.BaseURL := "";
     Config.LogLevel := 0; Config.IsPaid := false; Config.DisableCache := true |}.

(** The state in which only the [authState] of [s] is replaced. *)
Definition set_authState {W : Type} (x : string) (s : State W) : State W :=
  {| client := withAuth (client s) (withAuthState (auth (client s)) x);
     net := net s; disk := disk s; out := out s |}.

(** The state in which another [Auth] takes the place of that of [s]. *)
Definition set_auth {W : Type} (a : Auth) (s : State W) : State W :=
  {| client := withAuth (client s) a; net := net s; disk := disk s; out := out s |}.

(** The state in which the cache file of [s] is replaced. *)
Definition set_file {W : Type} (f : CacheFile) (s : State W) : State W :=
  {| client := client s; net := net s;
     disk := {| file := Some f; canOpen := canOpen (disk s);
                canCreate := canCreate (disk s) |};
     out := out s |}.

End Scenario.

(** ** [genUUID] of ask.go

    [rand.Read] fills the sixteen bytes or fails; what it delivers is
    the argument ([None]: it failed). *)

Module Uuid.

Definition hex_digit (n : N) : ascii :=
  if (n <? 10)%N then ascii_of_N (48 + n) else ascii_of_N (87 + n).

(** [%x] of one byte: two digits, lower case. *)
Definition hex_byte (b : ascii) (rest : string) : string :=
  let n := N_of_ascii b in
  String (hex_digit (n / 16)) (String (hex_digit (n mod 16)) rest).

(** [%x] of a slice of bytes, in front of [rest]. *)
Definition hex (bs : list ascii) (rest : string) : string :=
  fold_right hex_byte rest bs.

(** [uuid[lo:hi]] *)
Definition slice (lo hi : nat) (uuid : list ascii) : list ascii :=
  firstn (hi - lo) (skipn lo uuid).

(** [fmt.Sprintf("%x-%x-%x-%x-%x", uuid[0:4], uuid[4:6], uuid[6:8],
    uuid[8:10], uuid[10:])] *)
Definition format (uuid : list ascii) : string :=
  hex (slice 0 4 uuid)
    (String "-" (hex (slice 4 6 uuid)
       (String "-" (hex (slice 6 8 uuid)
          (String "-" (hex (slice 8 10 uuid)
             (String "-" (hex (skipn 10 uuid) EmptyString)))))))).

Definition genUUID (random : option (list ascii)) : string :=
  match random with
  | None => ""
  | Some uuid => format uuid
  end.

(** Reading an identifier back: hyphens are skipped, two digits make
    a byte. *)
Definition unhex_digit (c : ascii) : option N :=
  let n := N_of_ascii c in
  if (48 <=? n)%N && (n <=? 57)%N then Some (n - 48)%N
  else if (97 <=? n)%N && (n <=? 102)%N then Some (n - 87)%N
  else None.

Fixpoint unhex (s : string) : option (list ascii) :=
  match s with
  | EmptyString => Some []
  | String c rest =>
      if Ascii.eqb c "-" then unhex rest
      else
        match rest with
        | String d rest' =>
            match unhex_digit c, unhex_digit d, unhex rest' with
            | Some h, Some l, Some bs => Some (ascii_of_N (h * 16 + l) :: bs)
            | _, _, _ => None
            end
        | EmptyString => None
        end
  end.

Definition is_hex_digit (c : ascii) : bool :=
  match unhex_digit c with
  | Some _ => true
  | None => false
  end.

(** The shape 8-4-4-4-12: hyphens at the four places, digits
    elsewhere. *)
Fixpoint shaped (groups : list nat) (s : string) : bool :=
  match groups with
  | [] => match s with EmptyString => true | _ => false end
  | O :: more =>
      match more, s with
      | [], EmptyString => true
      | _ :: _, String c rest => Ascii.eqb c "-" && shaped more rest
      | _, _ => false
      end
  | S k :: more =>
      match s with
      | String c rest => is_hex_digit c && shaped (k :: more) rest
      | EmptyString => false
      end
  end.

End Uuid.

(** ** client.go: the conversations of a client *)

Module Store.

Import Chatgpt.

Definition GetConversations (c : Client) : gmap string Conv.Conversation :=
  conversations c.

Definition not_found (id : string) : error :=
  Errorf "conversation with id %s not found" [id].

Definition GetConversation (c : Client) (id : string) : Outcome error Conv.Conversation :=
  match conversations c !! id with
  | Some conv => Ret conv
  | None => Fail (not_found id)
  end.

Definition SetConversation (c : Client) (id : string) (conv : Conv.Conversation) : Client :=
  withConversations c (<[id := conv]> (conversations c)).

Definition ResetConversation (c : Client) (id : string) : Outcome error unit * Client :=
  match conversations c !! id with
  | Some _ => (Ret tt, withConversations c (delete id (conversations c)))
  | None => (Fail (not_found id), c)
  end.

(** The client, and the line the logger writes. *)
Definition ResetConversations (c : Client) : Client * list string :=
  (withConversations c ∅, Log.Info (logger c) "All conversations have been reset.").

End Store.

(** ** ask.go: asking with an access token, [AskStream] *)

Module Access.

Import Chatgpt.

(** Where the two revisions of ask.go differ in
    [askWithAccessToken] and [askStreamWithAccessToken], besides what
    [Rev.t] holds: the address of the request, and the error that
    wraps a failure to build or send it. *)
Record t := mk {
  base : Rev.t;
  request_url : string -> string;
  request_error : string -> string -> error
}.

Definition ask_go : t :=
  {| base := Rev.ask_go;
     request_url := fun baseUrl => baseUrl ++ "conversation";
     request_error := fun url err => Errorf "error in get %s: %w" [url; err] |}.

Definition part_000 : t :=
  {| base := Rev.part_000;
     request_url := fun baseUrl => baseUrl;
     request_error := fun url err => Errorf "system error: %w" [err] |}.

(** The map [data] that is sent as JSON. *)
Record Data := mkData {
  message_id : string;
  prompt_part : string;
  model : string;
  conversation_id : option string;      (* present when not empty *)
  parent_message_id : string
}.

(** The lines that the logger wrote during a call of [parseResponse]. *)
Fixpoint logged_lines (evs : list Stream.Event) : list string :=
  match evs with
  | [] => []
  | Stream.Logged line :: rest => line :: logged_lines rest
  | _ :: rest => logged_lines rest
  end.

(** What [AskStream] hands back: the channel (or nil), the error (or
    nil), and, when [parseResponse] started it, the run of the
    decoding goroutine. *)
Record Streamed := mkStreamed {
  channel : bool;
  failure : option error;
  goroutine : option Stream.Run
}.

Section Access.

Variable W : Type.
Variable send : W -> Request -> Reply * W.
Variable unmarshal : string -> option (list (string * Json.Value)).
Variable sprint_other : Json.Value -> string.
(** [json.Marshal(data)] *)
Variable marshalData : Data -> string.
Variable rev : t.

Notation "x <- m ;; k" := (bind W m (fun x => k))
  (at level 100, m at next level, right associativity).
Notation "m ;;; k" := (bind W m (fun _ => k))
  (at level 100, right associativity).

(** [random1] and [random2] are what the two calls of [rand.Read]
    deliver: the one for the message, and the one for the parent,
    which takes place only without a parent in the options. *)
Definition make_data (c : Client) (random1 random2 : option (list ascii))
    (prompt : string) (askOpts : list AskOpts) : Data :=
  let conversationId :=
    match askOpts with
    | o :: _ => o_ConversationID o
    | [] => ""
    end in
  let parentId :=
    match askOpts with
    | o :: _ => o_ParentID o
    | [] => ""
    end in
  {| message_id := Uuid.genUUID random1;
     prompt_part := prompt;
     model := engine c;
     conversation_id :=
       if negb (String.eqb conversationId "") then Some conversationId else None;
     parent_message_id :=
       if negb (String.eqb parentId "") then parentId else Uuid.genUUID random2 |}.

Definition conversation_request (c : Client) (data : Data) : Request :=
  {| Method := "POST";
     URL := request_url rev (baseUrl c);
     Body := marshalData data;
     ContentType := "application/json";
     Authorization := "Bearer " ++ accessToken (auth c);
     Cookies := [] |}.

(** Whether [http.NewRequestWithContext] builds the request: the
    transport answers [BadRequest] for one that cannot be built.
    Nothing is sent by asking. *)
Definition built (req : Request) : M W bool :=
  fun s => (Ret (match fst (send (net s) req) with
                 | BadRequest => false
                 | _ => true
                 end), s).

Definition askWithAccessToken (random1 random2 : option (list ascii))
    (prompt : string) (askOpts : list AskOpts) : M W Stream.ChatResponse :=
  c <- getClient W ;;
  let _req_url := request_url rev (baseUrl c) in
  let req := conversation_request c (make_data c random1 random2 prompt askOpts) in
  ok <- built req ;;
  if negb ok then fail W (request_error rev _req_url "invalid request")
  else
  reply <- Do W send req ;;
  match reply with
  | BadRequest => fail W (request_error rev _req_url "invalid request")
  | NetError e => fail W (request_error rev _req_url e)
  | Answer resp =>
      if StatusCode resp =? 200 then
        let parsed :=
          Stream.parseResponse unmarshal sprint_other (base rev) (logger c) false
            (RespBody resp) in
        write W (logged_lines (Stream.did parsed)) ;;;
        match Stream.returned parsed with
        | Panic msg => panic W msg
        | Fail e => fail W e
        | Ret msgs =>
            match last msgs with
            | Some r => ret W r
            | None =>
                (* the body has been read and closed: nothing is left of it *)
                fail W (ChatError "" (StatusCode resp))
            end
        end
      else fail W (ChatError (RespBody resp) (StatusCode resp))
  end.

(** The error it returns, or nil, and the goroutine. *)
Definition askStreamWithAccessToken (random1 random2 : option (list ascii))
    (prompt : string) (askOpts : list AskOpts)
    : M W (option error * option Stream.Run) :=
  c <- getClient W ;;
  let _req_url := request_url rev (baseUrl c) in
  let req := conversation_request c (make_data c random1 random2 prompt askOpts) in
  ok <- built req ;;
  if negb ok then ret W (Some (request_error rev _req_url "invalid request"), None)
  else
  reply <- Do W send req ;;
  match reply with
  | BadRequest => ret W (Some (request_error rev _req_url "invalid request"), None)
  | NetError e => ret W (Some (request_error rev _req_url e), None)
  | Answer resp =>
      if StatusCode resp =? 200 then
        let parsed :=
          Stream.parseResponse unmarshal sprint_other (base rev) (logger c) true
            (RespBody resp) in
        match Stream.returned parsed with
        | Panic msg => panic W msg
        | Fail e => ret W (Some e, Stream.spawned parsed)
        | Ret _ => ret W (None, Stream.spawned parsed)
        end
      else ret W (Some (ChatError "" (StatusCode resp)), None)
  end.

Definition AskStream (random1 random2 : option (list ascii))
    (prompt : string) (askOpts : list AskOpts) : M W Streamed :=
  c <- getClient W ;;
  if negb (clientStarted (auth c))
  then ret W {| channel := false;
                failure := Some (Errorf "client is not started, call Start() first" []);
                goroutine := None |}
  else if authmode c =? AccessTokenMode
  then
    r <- askStreamWithAccessToken random1 random2 prompt askOpts ;;
    ret W {| channel := true; failure := fst r; goroutine := snd r |}
  else ret W {| channel := false;
                failure := Some (Errorf "streaming is not yet implemented for API key mode" []);
                goroutine := None |}.

End Access.

Arguments askWithAccessToken {W}.
Arguments askStreamWithAccessToken {W}.
Arguments AskStream {W}.

End Access.

(** ** What the further properties speak of *)

Module Facts.

Import Chatgpt.

(** The messages that a history appends, in order. *)
Fixpoint appended (ops : list History.Op) : list Conv.Message :=
  match ops with
  | [] => []
  | History.Append m :: rest => m :: appended rest
  | History.Window _ _ :: rest => appended rest
  end.

(** Every run of the truncation in the history finds the token count
    of the system text [init] within its limit. *)
Definition within_limits (init : string) (ops : list History.Op) : Prop :=
  Forall (fun op =>
            match op with
            | History.Window limit engine =>
                Conv.getTokenCount (History.created init) <= limit engine
            | History.Append _ => True
            end) ops.

(** The system text that [Ask] gives a conversation it creates. *)
Definition system_text (c : Client) : string :=
  if negb (String.eqb (c_initMessage c) "") then c_initMessage c else DEFAULT_INIT_MESSAGE.

Definition requests (log : list (Request * Reply)) : list Request := map fst log.

(** The request that [askOpenAI] sends for [messages]. *)
Definition completion_request (marshalPayload : string -> list Conv.Message -> string)
    (c : Client) (messages : list Conv.Message) : Request :=
  {| Method := "POST"; URL := OPENAI_HOST;
     Body := marshalPayload (engine c) messages;
     ContentType := "application/json";
     Authorization := "Bearer " ++ apiKey (auth c);
     Cookies := [] |}.

(** A network that cannot be reached. *)
Definition offline (w : unit) (req : Request) : Reply * unit :=
  (NetError "no route to host", w).

(** A client that [Start] has started in API-key mode. *)
Definition started_with_key (config : Config.t) : Client :=
  withMode (withAuth (NewClient config []) (withStarted (auth (NewClient config []))))
    ApiKeyMode.

(** A client that [Start] has started with a bearer token. *)
Definition started_with_token : Client :=
  withEngine
    (withMode
       (withAuth (NewClient Scenario.email_and_token_config [])
          (withStarted (auth (NewClient Scenario.email_and_token_config []))))
       AccessTokenMode)
    "text-davinci-002-render-sha".

(** A client started in API-key mode that holds one conversation,
    default, with a short system text. *)
Definition chatting : Client :=
  withConversations (started_with_key Scenario.long_init_config)
    {[ "default" := History.created "Be brief." ]}.

(** An answer of the completion API, as decoded. *)
Definition says (text : string) (body : string) : string + OpenAIResponse :=
  inr {| Choices := Some [(Conv.mkMessage "assistant" text, "stop")] |}.

(** The state in which the network of [s] is replaced. *)
Definition set_net {W : Type} (w : W) (s : State W) : State W :=
  {| client := client s; net := w; disk := disk s; out := out s |}.

(** A cache file that holds, for the session default, a token that
    expired at the instant 5. *)
Definition stale_cache : Disk :=
  {| file := Some (Mapping {[ "default" := {| AccessToken := "OLD"; Expires := 5 |} ]});
     canOpen := true; canCreate := true |}.

(** What a login leaves alone: every field of the client and of its
    credentials but [accessToken], [expires] and [authState], and the
    log. *)
Definition login_frame {W : Type} (s s' : State W) : Prop :=
  let a := auth (client s) in
  let a' := auth (client s') in
  email a' = email a /\ password a' = password a /\ apiKey a' = apiKey a
  /\ enableCache a' = enableCache a /\ clientStarted a' = clientStarted a
  /\ sessionName a' = sessionName a
  /\ withAuth (client s') a = client s
  /\ out s' = out s.

(** The same, and the cache file as well when the cache is not in
    use. *)
Definition login_frame_disk {W : Type} (s s' : State W) : Prop :=
  login_frame s s' /\ (enableCache (auth (client s)) = false -> disk s' = disk s).

(** Whether [Start] has marked the client. *)
Definition started {W : Type} (s : State W) : bool := clientStarted (auth (client s)).

End Facts.

(** * Properties *)

Local Open Scope list_scope.

(** ** The conversation window *)

Section Window.

Import Conv History.

Lemma InitMessage_apply c op : InitMessage (apply c op) = InitMessage c.
Proof.
  destruct op as [m | limit engine]; simpl; [reflexivity |].
  unfold tokenizeMessage. destruct (_ <? _); reflexivity.
Qed.

Lemma InitMessage_run ops : forall c, InitMessage (run c ops) = InitMessage c.
Proof.
  induction ops as [| op ops IH]; intros c; [reflexivity |].
  change (run c (op :: ops)) with (run (apply c op) ops).
  rewrite IH. apply InitMessage_apply.
Qed.


(** Over the limit, [tokenizeMessage] rebuilds the history from the
    two stored texts. *)
Lemma tokenizeMessage_over (limit : string -> Z) c engine :
  limit engine < getTokenCount c ->
  tokenizeMessage limit c engine =
    {| InitMessage := InitMessage c;
       LastMessage := LastMessage c;
       Messages := [mkMessage "system" (InitMessage c);
                    mkMessage "user" (LastMessage c)] |}.
Proof.
  intros H. unfold tokenizeMessage.
  apply Z.ltb_lt in H. rewrite H. reflexivity.
Qed.

Lemma tokenizeMessage_within (limit : string -> Z) c engine :
  getTokenCount c <= limit engine ->
  tokenizeMessage limit c engine = c.
Proof.
  intros H. unfold tokenizeMessage.
  destruct (Z.ltb_spec (limit engine) (getTokenCount c)); [lia | reflexivity].
Qed.

Lemma system_first_created init : system_first (created init).
Proof. reflexivity. Qed.

Lemma system_first_apply c op : system_first c -> system_first (apply c op).
Proof.
  unfold system_first. intros H. destruct op as [m | limit engine]; simpl.
  - apply lookup_app_l_Some. exact H.
  - unfold tokenizeMessage. destruct (_ <? _); [reflexivity | exact H].
Qed.

Lemma system_first_run ops : forall c, system_first c -> system_first (run c ops).
Proof.
  induction ops as [| op ops IH]; intros c H; [exact H |].
  change (run c (op :: ops)) with (run (apply c op) ops).
  apply IH, system_first_apply, H.
Qed.

(** C5: whatever messages are appended to a conversation that [Ask]
    created, and whenever the truncation runs in between, entry 0 of
    the history exists and is the system message whose content is
    the conversation's init message. *)
Theorem C5_system_message_stays_first (init : string) (ops : list Op) :
  let c := run (created init) ops in
  Messages c !! 0%nat = Some (mkMessage "system" init) /\ InitMessage c = init.
Proof.
  simpl.
  assert (Hi : InitMessage (run (created init) ops) = init)
    by (rewrite InitMessage_run; reflexivity).
  split; [| exact Hi].
  pose proof (system_first_run ops (created init) (system_first_created init)) as H.
  unfold system_first in H. rewrite Hi in H. exact H.
Qed.




(** In [Ask], on a conversation that exists, the truncation follows
    the append of the prompt: over the limit, the history sent is the
    system message and the prompt. *)
Lemma Ask_window_existing rev range range' c prompt askOpts conv :
  Chatgpt.conversations c !! Chatgpt.conversation_id askOpts = Some conv ->
  Rev.getEngineTokenLimit rev range (Chatgpt.engine c) < getTokenCount conv ->
  Rev.getEngineTokenLimit rev range' (Chatgpt.engine c) < getTokenCount conv ->
  Messages (snd (fst (Chatgpt.Ask_window rev range range' c prompt askOpts)))
  = [mkMessage "system" (InitMessage conv); mkMessage "user" prompt].
Proof.
  intros Hc H1 H2. unfold Chatgpt.Ask_window. rewrite Hc. simpl.
  change (getTokenCount (addMessage conv (mkMessage "user" prompt)))
    with (getTokenCount conv).
  apply Z.ltb_lt in H1. rewrite H1. simpl.
  rewrite tokenizeMessage_over by exact H2. reflexivity.
Qed.



(** [Ask] keeps the system message first in the conversation it works
    on, when the stored conversations have it first. *)
Lemma Ask_window_system_first rev range range' c prompt askOpts :
  (forall id conv, Chatgpt.conversations c !! id = Some conv -> system_first conv) ->
  system_first (snd (fst (Chatgpt.Ask_window rev range range' c prompt askOpts))).
Proof.
  intros Hall. unfold Chatgpt.Ask_window.
  set (conversation :=
         match Chatgpt.conversations c !! Chatgpt.conversation_id askOpts with
         | Some conversation => addMessage conversation (mkMessage "user" prompt)
         | None => _
         end).
  assert (Hc : system_first conversation).
  { subst conversation.
    destruct (Chatgpt.conversations c !! Chatgpt.conversation_id askOpts) as [conv |] eqn:E.
    - apply (system_first_apply conv (Append (mkMessage "user" prompt))), (Hall _ _ E).
    - destruct (Rev.promptOnCreate rev); reflexivity. }
  simpl. destruct (_ <? _); simpl; [| exact Hc].
  apply (system_first_apply conversation
           (Window (Rev.getEngineTokenLimit rev range') (Chatgpt.engine c))), Hc.
Qed.

End Window.

(** ** The stream decoder *)

Section Decoding.

Import Rev Stream Streams.

Variable unmarshal : string -> option (list (string * Json.Value)).
Variable sprint_other : Json.Value -> string.
Variable logger : Log.Logger.

Lemma closes_app evs evs' : closes (evs ++ evs') = (closes evs + closes evs')%nat.
Proof.
  induction evs as [| ev evs IH]; [reflexivity |].
  destruct ev; simpl; rewrite IH; reflexivity.
Qed.

Lemma sent_app evs evs' : sent (evs ++ evs') = sent evs ++ sent evs'.
Proof.
  induction evs as [| ev evs IH]; [reflexivity |].
  destruct ev; simpl; rewrite IH; reflexivity.
Qed.

Lemma closes_Logged ls : closes (map Logged ls) = O.
Proof. induction ls; simpl; auto. Qed.

Lemma sent_Logged ls : sent (map Logged ls) = [].
Proof. induction ls; simpl; auto. Qed.

(** Case analysis along the branches of [scanLine]. *)
Ltac scan_cases :=
  repeat match goal with
         | |- context [if ?b then _ else _] => destruct b eqn:?
         | |- context [match ?x with _ => _ end] => destruct x eqn:?
         end.

(** What one round adds to the frames sent: nothing, or one frame,
    and then the channel is there and the text of the frame, before
    trimming, is not empty. *)
Lemma scanLine_sent rev live s line :
  sent (events (scan_of (scanLine unmarshal sprint_other rev logger live s line)))
  = sent (events s)
  \/ (live = true /\
      exists raw r,
        frame_text unmarshal sprint_other line = Some raw /\ raw <> "" /\
        Message r = GoStr.TrimSpace raw /\
        sent (events (scan_of (scanLine unmarshal sprint_other rev logger live s line)))
        = sent (events s) ++ [r]).
Proof.
  unfold scanLine, frame_text.
  destruct (String.eqb line "" || GoStr.HasPrefix line "event: "); [left; reflexivity |].
  destruct (negb (GoStr.HasPrefix line "data: ")); [left; reflexivity |].
  destruct (GoStr.Contains line (detailNeedle rev)); [left; reflexivity |].
  destruct (String.eqb (GoStr.TrimPrefix line "data: ") "[DONE]"); [left; reflexivity |].
  destruct (unmarshal (GoStr.TrimPrefix line "data: ")) as [parsedLine |];
    [| left; reflexivity].
  destruct (negb (checkFields parsedLine)); [left; reflexivity |].
  destruct (asObject (Json.get parsedLine "message")) as [message |]; [| left; reflexivity].
  destruct (asObject (Json.get message "content")) as [content |]; [| left; reflexivity].
  destruct (asString (Json.get content "content_type")) as [t |]; simpl.
  2: { left. rewrite sent_app, sent_Logged, app_nil_r. reflexivity. }
  destruct (String.eqb t "text").
  2: { left. simpl. rewrite sent_app, sent_Logged, app_nil_r. reflexivity. }
  destruct (asArray (Json.get content "parts")) as [[| part parts] |];
    [left; reflexivity | | left; reflexivity].
  destruct (asString (Json.get parsedLine "conversation_id")) as [cid |];
    [| left; reflexivity].
  destruct (asString (Json.get message "id")) as [pid |]; [| left; reflexivity].
  destruct live; simpl; [| left; reflexivity].
  destruct (String.eqb_spec (Sprintf_v sprint_other part) "") as [E | NE]; simpl.
  - left. reflexivity.
  - right. split; [reflexivity |].
    eexists _, _. split; [reflexivity |]. split; [exact NE |].
    split; [| rewrite sent_app; reflexivity]. reflexivity.
Qed.

(** No round closes the channel. *)
Lemma scanLine_closes rev live s line :
  closes (events (scan_of (scanLine unmarshal sprint_other rev logger live s line)))
  = closes (events s).
Proof.
  unfold scanLine.
  scan_cases; simpl; try reflexivity;
    rewrite closes_app; simpl; rewrite ?closes_Logged; lia.
Qed.

Lemma scanLoop_closes rev live lines : forall s,
  closes (events (scan_of (scanLoop unmarshal sprint_other rev logger live s lines)))
  = closes (events s).
Proof.
  induction lines as [| line lines IH]; intros s; simpl; [reflexivity |].
  pose proof (scanLine_closes rev live s line) as H.
  destruct (scanLine unmarshal sprint_other rev logger live s line) as [s' | s' | e s' | m s'];
    simpl in *; try exact H.
  rewrite IH. exact H.
Qed.

(** In live mode the run closes the channel once when it returns
    normally, and not at all when it returns the detail error or
    panics. *)
Lemma startScan_live_closes rev lines :
  let run := startScan unmarshal sprint_other rev logger true lines in
  closes (effects run) = match outcome run with
                         | Ret _ => 1%nat
                         | _ => 0%nat
                         end.
Proof.
  cbv zeta. unfold startScan.
  pose proof (scanLoop_closes rev true lines {| messages := []; events := [] |}) as H.
  destruct (scanLoop unmarshal sprint_other rev logger true _ lines) as [s | s | e s | m s];
    simpl in *; rewrite closes_app, H; reflexivity.
Qed.

Lemma scanLoop_sent rev live lines : forall s seen,
  Forall (from_nonempty_text unmarshal sprint_other (seen ++ lines)) (sent (events s)) ->
  Forall (from_nonempty_text unmarshal sprint_other (seen ++ lines))
    (sent (events (scan_of (scanLoop unmarshal sprint_other rev logger live s lines)))).
Proof.
  induction lines as [| line lines IH]; intros s seen Hs; simpl; [exact Hs |].
  assert (Hstep : Forall (from_nonempty_text unmarshal sprint_other (seen ++ line :: lines))
                    (sent (events (scan_of
                       (scanLine unmarshal sprint_other rev logger live s line))))).
  { destruct (scanLine_sent rev live s line) as [E | (_ & raw & r & Hf & Hne & Hm & E)];
      rewrite E; [exact Hs |].
    apply Forall_app. split; [exact Hs |].
    constructor; [| constructor].
    exists line, raw. repeat split; auto.
    apply in_or_app. right. left. reflexivity. }
  destruct (scanLine unmarshal sprint_other rev logger live s line) as [s' | s' | e s' | m s'];
    simpl in *; try exact Hstep.
  replace (seen ++ line :: lines) with ((seen ++ [line]) ++ lines) in *
    by (rewrite <- app_assoc; reflexivity).
  apply IH. exact Hstep.
Qed.

(** A data line that carries a text frame, when the frame is not
    sent (there is no channel, or the text is empty): the frame is
    appended to [messages], whatever its text. *)
Lemma scanLine_keeps_unsent_frame rev live s line parsedLine message content
    part parts cid pid :
  String.eqb line "" || GoStr.HasPrefix line "event: " = false ->
  GoStr.HasPrefix line "data: " = true ->
  GoStr.Contains line (detailNeedle rev) = false ->
  String.eqb (GoStr.TrimPrefix line "data: ") "[DONE]" = false ->
  unmarshal (GoStr.TrimPrefix line "data: ") = Some parsedLine ->
  asObject (Json.get parsedLine "message") = Some message ->
  asObject (Json.get message "content") = Some content ->
  asString (Json.get content "content_type") = Some "text" ->
  asArray (Json.get content "parts") = Some (part :: parts) ->
  asString (Json.get parsedLine "conversation_id") = Some cid ->
  asString (Json.get message "id") = Some pid ->
  live && negb (String.eqb (Sprintf_v sprint_other part) "") = false ->
  scanLine unmarshal sprint_other rev logger live s line
  = Continue {| messages := messages s
                  ++ [frame cid pid (GoStr.TrimSpace (Sprintf_v sprint_other part))];
                events := events s |}.
Proof.
  intros H1 H2 H3 H4 H5 H6 H7 H8 H9 H10 H11 H12.
  unfold scanLine, checkFields.
  rewrite H1, H2. simpl. rewrite H3, H4, H5.
  repeat progress (simpl; rewrite ?H6, ?H7, ?H8, ?H9, ?H10, ?H11, ?H12).
  reflexivity.
Qed.

(** In buffered mode the loop sends nothing. *)
Lemma scanLoop_buffered_sends_nothing rev lines : forall s,
  sent (events s) = [] ->
  sent (events (scan_of (scanLoop unmarshal sprint_other rev logger false s lines))) = [].
Proof.
  induction lines as [| line lines IH]; intros s Hs; simpl; [exact Hs |].
  assert (Hstep : sent (events (scan_of
                    (scanLine unmarshal sprint_other rev logger false s line))) = []).
  { destruct (scanLine_sent rev false s line) as [E | (Hl & _)];
      [rewrite E; exact Hs | discriminate Hl]. }
  destruct (scanLine unmarshal sprint_other rev logger false s line) as [s' | s' | e s' | m s'];
    simpl in *; try exact Hstep.
  apply IH, Hstep.
Qed.

(** What [startScan] adds after the loop holds no frame. *)
Lemma startScan_sent rev live lines :
  sent (effects (startScan unmarshal sprint_other rev logger live lines))
  = sent (events (scan_of (scanLoop unmarshal sprint_other rev logger live
                             {| messages := []; events := [] |} lines))).
Proof.
  unfold startScan.
  destruct (scanLoop unmarshal sprint_other rev logger live _ lines) as [s | s | e s | m s];
    simpl; destruct live; try destruct (closeGuarded rev); simpl;
    rewrite sent_app; simpl; apply app_nil_r.
Qed.

(** ask.go closes the channel without testing it for nil: in buffered
    mode [startScan] never returns a result. *)
Lemma ask_go_buffered_never_returns lines :
  match outcome (startScan unmarshal sprint_other ask_go logger false lines) with
  | Ret _ => False
  | _ => True
  end.
Proof.
  unfold startScan.
  destruct (scanLoop unmarshal sprint_other ask_go logger false _ lines); simpl; exact I.
Qed.

(** A first line in which [strings.Contains] finds the text of the
    revision ends [parseResponse] with the error at once, in either
    mode: nothing is decoded, no goroutine is started. *)
Lemma first_line_detail rev live body line rest :
  scanLines body = line :: rest ->
  GoStr.Contains line (detailNeedle rev) = true ->
  parseResponse unmarshal sprint_other rev logger live body
  = {| returned := Fail (Errorf (FindDetail line) []); did := []; spawned := None |}.
Proof.
  intros Hl Hc. unfold parseResponse. rewrite Hl. simpl. rewrite Hc. reflexivity.
Qed.

(** unnamed/part_000 returns that error for the stream that is one
    detail object. *)
Lemma part_000_first_line_detail live :
  parseResponse unmarshal sprint_other part_000 logger live rate_limited
  = {| returned := Fail (Errorf rate_limited []); did := []; spawned := None |}.
Proof.
  apply (first_line_detail part_000 live rate_limited rate_limited []); reflexivity.
Qed.

(** unnamed/part_000 decodes the stream of seven lines to its one
    frame. *)
Lemma part_000_decodes_seven_lines :
  parseResponse Json.Unmarshal sprint_other part_000 logger false seven_lines
  = {| returned := Ret [frame "c1" "m1" "Hi"]; did := [CloseBody]; spawned := None |}.
Proof. vm_compute. reflexivity. Qed.

(** C3: [parseResponse] of ask.go, in buffered mode, on the stream of
    seven lines.  The frame is decoded, but the function ends in
    [close(streamChannel)] on the nil channel: it panics and returns
    no frame. *)
Theorem C3_ask_go_buffered_decode_panics :
  parseResponse Json.Unmarshal sprint_other ask_go logger false seven_lines
  = {| returned := Panic "close of nil channel"; did := [CloseBody]; spawned := None |}.
Proof. vm_compute. reflexivity. Qed.

(** C7: [parseResponse] of ask.go on the stream whose first line is a
    detail object.  The text it looks for has a brace too many and is
    not in the line, so no error is returned: in live mode the call
    returns no error and the goroutine closes the channel normally, in
    buffered mode the call panics on the nil channel. *)
Theorem C7_ask_go_misses_first_line_detail :
  GoStr.Contains rate_limited (detailNeedle ask_go) = false
  /\ parseResponse unmarshal sprint_other ask_go logger true rate_limited
     = {| returned := Ret []; did := [];
          spawned := Some {| outcome := Ret []; effects := [CloseChan; CloseBody] |} |}
  /\ parseResponse unmarshal sprint_other ask_go logger false rate_limited
     = {| returned := Panic "close of nil channel"; did := [CloseBody]; spawned := None |}.
Proof. repeat split; vm_compute; reflexivity. Qed.

(** C8: live mode, a detail object in a data line after the first
    line.  [startScan] returns the error from inside the loop and
    never reaches [close(streamChannel)]: the goroutine ends with the
    error and the channel closed zero times.  Both revisions, each
    with the text it looks for. *)
Theorem C8_detail_midstream_leaves_channel_open :
  option_map (fun run => (outcome run, closes (effects run)))
    (spawned (parseResponse unmarshal sprint_other part_000 logger true detail_midstream))
  = Some (Fail (Errorf (lit "{'detail':'boom'}") []), 0%nat)
  /\ option_map (fun run => (outcome run, closes (effects run)))
       (spawned (parseResponse unmarshal sprint_other ask_go logger true
                   detail_midstream_ask_go))
     = Some (Fail (Errorf (lit "{'detail':}") []), 0%nat).
Proof. split; vm_compute; reflexivity. Qed.

Lemma scanLine_messages_grow rev live s line :
  messages s `prefix_of` messages (scan_of (scanLine unmarshal sprint_other rev logger live s line)).
Proof.
  unfold scanLine.
  scan_cases; simpl; try reflexivity; apply prefix_app_r; reflexivity.
Qed.

Lemma scanLoop_messages_grow rev live lines : forall s,
  messages s `prefix_of` messages (scan_of (scanLoop unmarshal sprint_other rev logger live s lines)).
Proof.
  induction lines as [| line lines IH]; intros s; [reflexivity |].
  simpl. pose proof (scanLine_messages_grow rev live s line) as H.
  destruct (scanLine unmarshal sprint_other rev logger live s line) as [s' | s' | e s' | m s'];
    simpl in *; try exact H.
  etransitivity; [exact H | apply IH].
Qed.

(** C10, as the code has it: every frame that [startScan] sends on the
    channel comes from a line whose frame text, before trimming, is
    not empty; without a channel (buffered mode) nothing is sent.  A
    frame whose text is empty is not dropped: in either mode the loop
    appends it to the list of frames that it builds; nothing is ever
    taken from that list; and the list is what a run returns when it
    returns one. *)
Theorem C10_live_sends_only_nonempty_text rev live lines :
  Forall (from_nonempty_text unmarshal sprint_other lines)
    (sent (effects (startScan unmarshal sprint_other rev logger live lines)))
  /\ sent (effects (startScan unmarshal sprint_other rev logger false lines)) = []
  /\ (forall s line cid pid,
        text_frame unmarshal sprint_other rev line cid pid "" ->
        scanLine unmarshal sprint_other rev logger live s line
        = Continue {| messages := messages s ++ [frame cid pid ""]; events := events s |})
  /\ (forall s,
        messages s
          `prefix_of` messages (scan_of (scanLoop unmarshal sprint_other rev logger live
                                           s lines)))
  /\ (forall msgs,
        outcome (startScan unmarshal sprint_other rev logger live lines) = Ret msgs ->
        msgs = messages (scan_of (scanLoop unmarshal sprint_other rev logger live
                                    {| messages := []; events := [] |} lines))).
Proof.
  split; [| split; [| split; [| split]]].
  - rewrite startScan_sent.
    apply (scanLoop_sent rev live lines {| messages := []; events := [] |} []).
    constructor.
  - rewrite startScan_sent. apply scanLoop_buffered_sends_nothing. reflexivity.
  - intros s line cid pid
      (H1 & H2 & H3 & H4 & parsedLine & message & content & part & parts
         & H5 & H6 & H7 & H8 & H9 & H10 & H11 & H12).
    rewrite (scanLine_keeps_unsent_frame rev live s line parsedLine message content
               part parts cid pid H1 H2 H3 H4 H5 H6 H7 H8 H9 H10 H11).
    + rewrite H12. reflexivity.
    + rewrite H12. apply andb_false_r.
  - apply scanLoop_messages_grow.
  - intros msgs. unfold startScan.
    destruct (scanLoop unmarshal sprint_other rev logger live _ lines)
      as [s' | s' | e s' | m s']; simpl;
      destruct live; simpl; try discriminate;
      try (intros E; injection E as <-; reflexivity);
      destruct (closeGuarded rev); simpl; try discriminate;
      intros E; injection E as <-; reflexivity.
Qed.

End Decoding.

Section EmptyFrames.

Import Rev Stream Streams.

(** C10 as stated fails: in buffered mode a frame whose text is empty
    is appended to the result; in live mode a frame whose text is
    white space only is sent, with the empty text left by the
    trimming. *)
Lemma C10_empty_frames_are_delivered :
  returned (parseResponse Json.Unmarshal no_other part_000 default_logger false (one_frame ""))
  = Ret [frame "c1" "m1" ""]
  /\ spawned (parseResponse Json.Unmarshal no_other part_000 default_logger true (one_frame "  "))
     = Some {| outcome := Ret [];
               effects := [Send (frame "c1" "m1" ""); CloseChan; CloseBody] |}
  /\ spawned (parseResponse Json.Unmarshal no_other ask_go default_logger true (one_frame "  "))
     = Some {| outcome := Ret [];
               effects := [Send (frame "c1" "m1" ""); CloseChan; CloseBody] |}.
Proof. repeat split; vm_compute; reflexivity. Qed.

End EmptyFrames.

(** ** The credential cache *)

Section Utf8Facts.

Local Arguments Utf8.size : simpl never.
Local Arguments Utf8.accept : simpl never.
Local Arguments Utf8.cont : simpl never.

(** Replacing a second time changes nothing: what the encoder or
    the decoder of encoding/json delivers is valid UTF-8. *)
Lemma coerce_coerce (s : string) : Utf8.coerce (Utf8.coerce s) = Utf8.coerce s.
Proof.
  assert (H : forall n s, (String.length s <= n)%nat ->
                          Utf8.coerce (Utf8.coerce s) = Utf8.coerce s).
  { clear s. induction n as [| n IH]; intros s Hn.
    - destruct s; [reflexivity | simpl in Hn; lia].
    - destruct s as [| c0 r0]; [reflexivity |].
      simpl in Hn.
      assert (Hbad : Utf8.coerce (String "239" (String "191" (String "189" (Utf8.coerce r0))))
                     = String "239" (String "191" (String "189" (Utf8.coerce r0)))).
      { change (Utf8.coerce (String "239" (String "191" (String "189" (Utf8.coerce r0)))))
          with (String "239" (String "191" (String "189" (Utf8.coerce (Utf8.coerce r0))))).
        rewrite IH by lia. reflexivity. }
      simpl.
      destruct (Utf8.size c0) as [| [| [| [| [| k]]]]] eqn:Hs; try exact Hbad.
      + simpl. rewrite Hs. rewrite IH by lia. reflexivity.
      + destruct r0 as [| c1 r1]; [exact Hbad |].
        destruct (Utf8.accept c0 c1) eqn:Ha; [| exact Hbad].
        simpl. rewrite Hs, Ha. rewrite IH by (simpl in Hn; lia). reflexivity.
      + destruct r0 as [| c1 [| c2 r2]]; try exact Hbad.
        destruct (Utf8.accept c0 c1 && Utf8.cont c2) eqn:Ha; [| exact Hbad].
        simpl. rewrite Hs, Ha. rewrite IH by (simpl in Hn; lia). reflexivity.
      + destruct r0 as [| c1 [| c2 [| c3 r3]]]; try exact Hbad.
        destruct (Utf8.accept c0 c1 && Utf8.cont c2 && Utf8.cont c3) eqn:Ha;
          [| exact Hbad].
        simpl. rewrite Hs, Ha. rewrite IH by (simpl in Hn; lia). reflexivity. }
  apply (H (String.length s)). lia.
Qed.

Lemma valid_coerce (s : string) : Utf8.valid s = true -> Utf8.coerce s = s.
Proof. unfold Utf8.valid. intros H. apply String.eqb_eq. exact H. Qed.

End Utf8Facts.

Section Cache.

Import Chatgpt Scenario.

Context {W : Type}.

(** The entry that [cacheAccessToken] assigns, read back: with a
    name that is valid UTF-8 the map is the one assigned, the token
    as the encoder left it. *)
Lemma reread_valid (key : string) (v : authCache) (m : gmap string authCache) :
  Utf8.valid key = true ->
  reread key (<[key := v]> m)
  = <[key := {| AccessToken := Utf8.coerce (AccessToken v); Expires := Expires v |}]> m.
Proof.
  intros Hk. unfold reread. rewrite lookup_insert_eq.
  rewrite (valid_coerce key Hk), String.eqb_refl.
  apply insert_insert_eq.
Qed.

(** With any name: under the name assigned, the file read back has
    the entry with the token as the encoder left it, or nothing. *)
Lemma reread_lookup (key : string) (v : authCache) (m : gmap string authCache) :
  reread key (<[key := v]> m) !! key = None
  \/ reread key (<[key := v]> m) !! key
     = Some {| AccessToken := Utf8.coerce (AccessToken v); Expires := Expires v |}.
Proof.
  unfold reread. rewrite lookup_insert_eq.
  destruct (String.eqb_spec (Utf8.coerce key) key) as [E | E].
  - right. apply lookup_insert_eq.
  - left.
    assert (Hd : delete key (<[key := v]> m) !! key = None) by apply lookup_delete_eq.
    destruct (delete key (<[key := v]> m) !! Utf8.coerce key);
      [destruct (String.ltb (Utf8.coerce key) key) |];
      rewrite ?lookup_insert_ne by exact E; exact Hd.
Qed.

(** With a name that is not valid UTF-8, nothing is found under the
    name in the file read back. *)
Lemma reread_invalid (key : string) (v : authCache) (m : gmap string authCache) :
  Utf8.valid key = false -> reread key (<[key := v]> m) !! key = None.
Proof.
  intros Hk. destruct (reread_lookup key v m) as [H | H]; [exact H |].
  exfalso. revert H. unfold reread. rewrite lookup_insert_eq.
  unfold Utf8.valid in Hk. rewrite Hk.
  assert (E : Utf8.coerce key <> key)
    by (intros E; rewrite E, String.eqb_refl in Hk; discriminate Hk).
  assert (Hd : delete key (<[key := v]> m) !! key = None) by apply lookup_delete_eq.
  destruct (delete key (<[key := v]> m) !! Utf8.coerce key);
    [destruct (String.ltb (Utf8.coerce key) key) |];
    rewrite ?lookup_insert_ne by exact E; rewrite Hd; discriminate.
Qed.

(** C6, as the code has it, with a disk on which the cache file can
    be read and written.  (1) A credential stored for a session whose
    name is valid UTF-8 is loaded back by a client of that session
    name with its expiry and with its token as the JSON encoder
    leaves it, every byte that is not valid UTF-8 replaced by the
    replacement character: the token itself when it is valid UTF-8.
    A credential stored for a name that is not valid UTF-8 is not
    loaded back: the credential in memory stays as it is.  (2)
    Storing, for a valid name, into a mapping that holds another
    session leaves the entry of that session, and every entry but the
    session's own, as it was.  (3) Loading from a mapping that holds
    only the other session changes nothing: the credential in memory
    is not populated. *)
Theorem C6_cache_round_trip_and_merge
    (s : State W) (m : gmap string authCache) (other : string) (v : authCache) (a' : Auth) :
  canOpen (disk s) = true ->
  canCreate (disk s) = true ->
  sessionName a' = sessionName (auth (client s)) ->
  other <> sessionName (auth (client s)) ->
  m !! other = Some v ->
  let a := auth (client s) in
  let token := Utf8.coerce (accessToken a) in
  (fst (cacheAccessToken s) = Ret tt
   /\ let s2 := snd (loadCachedAccessToken (set_auth a' (snd (cacheAccessToken s)))) in
      (Utf8.valid (sessionName a) = true ->
       accessToken (auth (client s2)) = token /\ expires (auth (client s2)) = expires a)
      /\ (Utf8.valid (accessToken a) = true -> token = accessToken a)
      /\ (Utf8.valid (sessionName a) = false -> auth (client s2) = a'))
  /\ (Utf8.valid (sessionName a) = true ->
      exists m',
        file (disk (snd (cacheAccessToken (set_file (Mapping m) s)))) = Some (Mapping m')
        /\ m' !! other = Some v
        /\ (forall k, k <> sessionName a -> m' !! k = m !! k)
        /\ m' !! sessionName a = Some {| AccessToken := token; Expires := expires a |})
  /\ loadCachedAccessToken (set_file (Mapping {[ other := v ]}) s)
     = (Ret tt, set_file (Mapping {[ other := v ]}) s).
Proof.
  intros Hopen Hcreate Hname Hother Hm a token.
  destruct s as [c w d o]. destruct d as [f op cr]. simpl in *. subst op cr.
  split; [| split].
  - unfold cacheAccessToken, loadCachedAccessToken, bind, getAuth, getDisk,
      setDisk, setAuth, set_auth, fail, ret. simpl.
    split; [reflexivity |]. rewrite Hname.
    split; [| split].
    + intros Hvs. rewrite (reread_valid _ _ _ Hvs). rewrite lookup_insert_eq. simpl.
      split; reflexivity.
    + intros Hvt. apply valid_coerce. exact Hvt.
    + intros Hvs. rewrite (reread_invalid _ _ _ Hvs). reflexivity.
  - intros Hvs.
    unfold cacheAccessToken, bind, getAuth, getDisk, setDisk, set_file, decodePrevious.
    simpl. eexists. split; [reflexivity |].
    rewrite (reread_valid _ _ _ Hvs). simpl.
    split; [rewrite lookup_insert_ne by (intros E; apply Hother; symmetry; exact E);
            exact Hm |].
    split; [intros k Hk; rewrite lookup_insert_ne by (intros E; apply Hk; symmetry; exact E);
            reflexivity |].
    apply lookup_insert_eq.
  - unfold loadCachedAccessToken, bind, getAuth, getDisk, set_file, ret. simpl.
    rewrite lookup_singleton_ne by exact Hother. reflexivity.
Qed.

End Cache.

(** An instance: session s1 stores T and 42; the other session is s2. *)
Lemma C6_cache_round_trip_and_merge_witness :
  let s := Scenario.start_state
             (Chatgpt.withAuth (Chatgpt.NewClient Scenario.email_config ["s1"])
                (Chatgpt.withToken
                   (Chatgpt.auth (Chatgpt.NewClient Scenario.email_config ["s1"])) "T" 42))
             tt Scenario.no_file in
  let v := {| Chatgpt.AccessToken := "U"; Chatgpt.Expires := 7 |} in
  let a' := Chatgpt.auth (Chatgpt.NewClient Scenario.email_config ["s1"]) in
  let s2 := snd (Chatgpt.loadCachedAccessToken
                   (Scenario.set_auth a' (snd (Chatgpt.cacheAccessToken s)))) in
  Chatgpt.accessToken (Chatgpt.auth (Chatgpt.client s2)) = "T"
  /\ Chatgpt.expires (Chatgpt.auth (Chatgpt.client s2)) = 42
  /\ Chatgpt.loadCachedAccessToken (Scenario.set_file (Chatgpt.Mapping {[ "s2" := v ]}) s)
     = (Ret tt, Scenario.set_file (Chatgpt.Mapping {[ "s2" := v ]}) s).
Proof.
  cbv zeta.
  pose proof (C6_cache_round_trip_and_merge
                (Scenario.start_state
                   (Chatgpt.withAuth (Chatgpt.NewClient Scenario.email_config ["s1"])
                      (Chatgpt.withToken
                         (Chatgpt.auth (Chatgpt.NewClient Scenario.email_config ["s1"]))
                         "T" 42))
                   tt Scenario.no_file)
                {[ "s2" := {| Chatgpt.AccessToken := "U"; Chatgpt.Expires := 7 |} ]}
                "s2" {| Chatgpt.AccessToken := "U"; Chatgpt.Expires := 7 |}
                (Chatgpt.auth (Chatgpt.NewClient Scenario.email_config ["s1"]))
                eq_refl eq_refl eq_refl ltac:(discriminate) ltac:(reflexivity)) as H.
  cbv zeta in H. destruct H as [[_ [H1 _]] [_ H3]].
  destruct (H1 eq_refl) as [Ht He].
  split; [exact Ht | split; [exact He | exact H3]].
Defined.

(** C6 as stated fails for strings that are not valid UTF-8, which a
    Go string may be.  The token that is the one byte 255 is stored
    as the replacement character, and that is what is loaded.  The
    credential stored for the session whose name is that byte is
    written under the replacement character: a client of the name
    finds no entry, and its token stays empty. *)
Lemma C6_round_trip_replaces_invalid_utf8 :
  let c := Chatgpt.NewClient Scenario.email_config ["s1"] in
  let s := Scenario.start_state
             (Chatgpt.withAuth c (Chatgpt.withToken (Chatgpt.auth c) Scenario.byte_255 42))
             tt Scenario.no_file in
  let c' := Chatgpt.NewClient Scenario.email_config [Scenario.byte_255] in
  let s' := Scenario.start_state
              (Chatgpt.withAuth c' (Chatgpt.withToken (Chatgpt.auth c') "T" 42))
              tt Scenario.no_file in
  Chatgpt.accessToken
    (Chatgpt.auth
       (Chatgpt.client
          (snd (Chatgpt.loadCachedAccessToken
                  (Scenario.set_auth (Chatgpt.auth c) (snd (Chatgpt.cacheAccessToken s)))))))
  = Scenario.replacement_character
  /\ Scenario.replacement_character <> Scenario.byte_255
  /\ fst (Chatgpt.cacheAccessToken s') = Ret tt
  /\ Chatgpt.accessToken
       (Chatgpt.auth
          (Chatgpt.client
             (snd (Chatgpt.loadCachedAccessToken
                     (Scenario.set_auth (Chatgpt.auth c')
                        (snd (Chatgpt.cacheAccessToken s')))))))
     = "".
Proof.
  cbv zeta. split; [vm_compute; reflexivity |].
  split; [discriminate |].
  split; vm_compute; reflexivity.
Qed.

(** ** Start-up and the login handshake *)

Section Handshake.

Import Chatgpt Scenario.

(** C9: a client configured with email, password and a bearer token,
    and no API key.  [Start] tests the access token before the email
    and password: it starts with the bearer token, logs so, and sends
    no request at all, so no login takes place.  The comment of
    [checkCredentials] puts email and password before the access
    token. *)
Theorem C9_bearer_token_precedes_email_login :
  Start (logged scripted) no_escape (endpoint_issues "S") token_answer 0
    (start_state (NewClient email_and_token_config []) (handshake "S", []) no_file)
  = (Ret tt,
     {| client :=
          withEngine
            (withMode
               (withAuth (NewClient email_and_token_config [])
                  (withStarted (auth (NewClient email_and_token_config []))))
               AccessTokenMode)
            "text-davinci-002-render-sha";
        net := (handshake "S", []);
        disk := no_file;
        out := ["chatgpt - Info - Starting client with access token Authentication"] |}).
Proof. vm_compute. reflexivity. Qed.

(** Without the bearer token the same client logs in: six exchanges
    with the network. *)
Lemma Start_with_email_only_logs_in :
  let '(res, s) :=
    Start (logged scripted) no_escape (endpoint_issues "S") token_answer 0
      (start_state (NewClient email_config []) (handshake "S", []) no_file) in
  res = Ret tt
  /\ length (snd (net s)) = 6%nat
  /\ accessToken (auth (client s)) = "TOKEN"
  /\ out s = ["chatgpt - Info - Starting client with email and password Authentication";
              "chatgpt - Info - Successfully authenticated with OpenAI"].
Proof. vm_compute. repeat split; reflexivity. Qed.

Section AnyNetwork.

Variable W : Type.
Variable send : W -> Request -> Reply * W.
Variable QueryEscape : string -> string.

Lemma eqb_empty_false (x : string) : x <> "" -> String.eqb x "" = false.
Proof. intros H. apply String.eqb_neq. exact H. Qed.

Section StartOrder.

Variable decodeEndpoint : string -> string + (string * string).
Variable decodeAuthResp : string -> string + authResp.

Local Arguments String.eqb : simpl never.

(** With an API key, [Start] takes the API key, whatever else is
    configured, and sends nothing. *)
Lemma Start_api_key_first (now : Z) (s : State W) :
  file (disk s) = None ->
  proxy (client s) = None ->
  apiKey (auth (client s)) <> "" ->
  (email (auth (client s)) = "" <-> password (auth (client s)) = "") ->
  let run := Start send QueryEscape decodeEndpoint decodeAuthResp now s in
  fst run = Ret tt
  /\ authmode (client (snd run)) = ApiKeyMode
  /\ net (snd run) = net s.
Proof.
  destruct s as [[a convs eng im bu px am ip lg] w [f op cr] o]. simpl.
  intros -> -> Hkey Hep.
  unfold Start, loadCachedAccessToken, checkCredentials, Info.
  unfold bind, getAuth, getDisk, getClient, setClient, setAuth, write, ret, fail.
  pose proof (eqb_empty_false _ Hkey) as Ekey.
  destruct (String.eqb_spec (email a) "") as [He | He];
    destruct (String.eqb_spec (password a) "") as [Hp | Hp];
    try (exfalso; tauto).
  - repeat progress (simpl; rewrite ?He, ?Hp, ?Ekey).
    repeat split; reflexivity.
  - pose proof (eqb_empty_false _ He) as Ee. pose proof (eqb_empty_false _ Hp) as Ep.
    repeat progress (simpl; rewrite ?Ee, ?Ep, ?Ekey).
    repeat split; reflexivity.
Qed.

(** Without an API key and with a bearer token, [Start] takes the
    bearer token and sends nothing, also when email and password are
    configured. *)
Lemma Start_token_before_email (now : Z) (s : State W) :
  file (disk s) = None ->
  proxy (client s) = None ->
  enableCache (auth (client s)) = false ->
  apiKey (auth (client s)) = "" ->
  accessToken (auth (client s)) <> "" ->
  email (auth (client s)) <> "" ->
  password (auth (client s)) <> "" ->
  let run := Start send QueryEscape decodeEndpoint decodeAuthResp now s in
  fst run = Ret tt
  /\ authmode (client (snd run)) = AccessTokenMode
  /\ accessToken (auth (client (snd run))) = accessToken (auth (client s))
  /\ net (snd run) = net s.
Proof.
  destruct s as [[a convs eng im bu px am ip lg] w [f op cr] o]. simpl.
  intros -> -> Hcache Hkey Htok He Hp.
  unfold Start, loadCachedAccessToken, checkCredentials, use_free_engine, Info, Debug.
  unfold bind, getAuth, getDisk, getClient, setClient, setAuth, write, ret, fail.
  pose proof (eqb_empty_false _ Htok) as Et.
  pose proof (eqb_empty_false _ He) as Ee. pose proof (eqb_empty_false _ Hp) as Ep.
  repeat progress (simpl; rewrite ?Hkey, ?Hcache, ?Et, ?Ee, ?Ep).
  destruct ip; repeat progress (simpl; rewrite ?Hkey, ?Hcache, ?Et, ?Ee, ?Ep);
    repeat split; reflexivity.
Qed.

End StartOrder.

(** Unfolding one request of [stepTwo] at a time. *)
Ltac next_reply :=
  match goal with
  | |- context [send ?w ?req] =>
      let r := fresh "reply" in
      let w' := fresh "w" in
      destruct (send w req) as [r w'] eqn:?; destruct r as [? | ? |]; simpl
  | H : context [send ?w ?req] |- _ =>
      let r := fresh "reply" in
      let w' := fresh "w" in
      destruct (send w req) as [r w'] eqn:?; destruct r as [? | ? |]; simpl in *
  end.

(** The invalid-credentials error is neither a transport failure nor
    the error of a bad status. *)
Lemma invalid_credentials_distinct (e url : string) (code : Z) :
  invalid_credentials <> LibError e
  /\ invalid_credentials <> ChatError ("bad status for url: " ++ url)%string code
  /\ invalid_credentials <> Errorf "bad status for url: %s" [url].
Proof. repeat split; discriminate. Qed.

(** C4, as the code has it: when one of the exchanges that follow the
    first redirect of [stepTwo] (the two form posts, then the request
    for the last redirect) is answered with a status other than 302,
    [stepTwo] fails with a [ChatError]: the invalid-credentials error
    for a 400 on a form post, otherwise the text
    "bad status for url: " with the URL of that request, and the
    status as code.  [k] is the position of the exchange among those
    of the run. *)
Theorem C4_non_302_after_the_first_redirect
    (s : State (W * list (Request * Reply))) (auth_url _email _password : string)
    (k : nat) (req : Request) (resp : Response) :
  snd (net s) = [] ->
  snd (net (snd (stepTwo (logged send) QueryEscape auth_url _email _password s))) !! k
    = Some (req, Answer resp) ->
  StatusCode resp <> 302 ->
  (k = 1 \/ k = 2 \/ k = 3)%nat ->
  fst (stepTwo (logged send) QueryEscape auth_url _email _password s)
  = Fail (if (k <? 3)%nat && (StatusCode resp =? 400)
          then invalid_credentials
          else ChatError ("bad status for url: " ++ URL req)%string (StatusCode resp)).
Proof.
  destruct s as [c [w l] d o]. simpl. intros -> Hk Hst Hpos.
  revert Hk.
  unfold stepTwo, bind, Do, logged, check_post, fail, ret, panic. simpl.
  next_reply;
    [| intros Hk; destruct Hpos as [-> | [-> | ->]]; discriminate Hk
     | intros Hk; destruct Hpos as [-> | [-> | ->]]; discriminate Hk].
  destruct (StatusCode r =? 302) eqn:E0; simpl;
    [| intros Hk; destruct Hpos as [-> | [-> | ->]]; discriminate Hk].
  destruct (current_state_of (_url_prefix ++ Location r)) as [st |]; simpl;
    [| intros Hk; destruct Hpos as [-> | [-> | ->]]; discriminate Hk].
  next_reply;
    [| intros Hk; destruct Hpos as [-> | [-> | ->]]; discriminate Hk
     | intros Hk; destruct Hpos as [-> | [-> | ->]]; discriminate Hk].
  destruct (StatusCode r0 =? 302) eqn:E1; [| destruct (StatusCode r0 =? 400) eqn:F1]; simpl.
  2, 3: intros Hk; destruct Hpos as [-> | [-> | ->]]; try discriminate Hk;
        simpl in Hk; injection Hk as <- <-; simpl; rewrite F1; reflexivity.
  next_reply;
    [| intros Hk; destruct Hpos as [-> | [-> | ->]]; try discriminate Hk;
       simpl in Hk; injection Hk as <- <-; apply Z.eqb_eq in E1; contradiction
     | intros Hk; destruct Hpos as [-> | [-> | ->]]; try discriminate Hk;
       simpl in Hk; injection Hk as <- <-; apply Z.eqb_eq in E1; contradiction].
  destruct (StatusCode r1 =? 302) eqn:E2; [| destruct (StatusCode r1 =? 400) eqn:F2]; simpl.
  2, 3: intros Hk; destruct Hpos as [-> | [-> | ->]]; try discriminate Hk;
        simpl in Hk; injection Hk as <- <-; simpl;
        [apply Z.eqb_eq in E1; contradiction | rewrite F2; reflexivity].
  next_reply.
  - destruct (StatusCode r2 =? 302) eqn:E3; simpl;
      intros Hk; destruct Hpos as [-> | [-> | ->]];
      simpl in Hk; injection Hk as <- <-; simpl;
      try (apply Z.eqb_eq in E1; contradiction);
      try (apply Z.eqb_eq in E2; contradiction);
      try (apply Z.eqb_eq in E3; contradiction).
    reflexivity.
  - intros Hk; destruct Hpos as [-> | [-> | ->]];
      simpl in Hk; try discriminate Hk; injection Hk as <- <-;
      try (apply Z.eqb_eq in E1; contradiction);
      try (apply Z.eqb_eq in E2; contradiction).
  - intros Hk; destruct Hpos as [-> | [-> | ->]];
      simpl in Hk; try discriminate Hk; injection Hk as <- <-;
      try (apply Z.eqb_eq in E1; contradiction);
      try (apply Z.eqb_eq in E2; contradiction).
Qed.

(** C2, as the code has it: [stepTwo] takes the state echoed in the
    Location of the first redirect and sends it back in both form
    posts, but never compares it with the state that [stepOne]
    recorded in [authState]: run from a state that differs in
    [authState] only, [stepTwo] ends with the same outcome, the same
    exchanges and the same state otherwise. *)
Theorem C2_echoed_state_is_resent_not_compared
    (c : Client) (w : W) (d : Disk) (o : list string)
    (auth_url _email _password x : string) :
  let s := {| client := c; net := (w, @nil (Request * Reply)); disk := d; out := o |} in
  let run := stepTwo (logged send) QueryEscape auth_url _email _password s in
  stepTwo (logged send) QueryEscape auth_url _email _password (set_authState x s)
  = (fst run, set_authState x (snd run))
  /\ (forall k req rep,
        snd (net (snd run)) !! S k = Some (req, rep) -> (k < 2)%nat ->
        exists r0 st,
          snd (net (snd run)) !! 0%nat = Some (get auth_url [], Answer r0)
          /\ current_state_of (_url_prefix ++ Location r0)%string = Some st
          /\ Body req = if (k =? 0)%nat
                        then username_form QueryEscape st _email
                        else password_form QueryEscape st _email _password).
Proof.
  cbv zeta. split.
  - unfold stepTwo, bind, Do, logged, check_post, fail, ret, panic, set_authState. simpl.
    next_reply; try reflexivity.
    destruct (StatusCode r =? 302); simpl; [| reflexivity].
    destruct (current_state_of (_url_prefix ++ Location r)) as [st |]; simpl;
      [| reflexivity].
    next_reply; try reflexivity.
    destruct (StatusCode r0 =? 302); [| destruct (StatusCode r0 =? 400)]; simpl;
      try reflexivity.
    next_reply; try reflexivity.
    destruct (StatusCode r1 =? 302); [| destruct (StatusCode r1 =? 400)]; simpl;
      try reflexivity.
    next_reply; try reflexivity.
    destruct (StatusCode r2 =? 302); reflexivity.
  - intros k req rep Hk Hlt.
    assert (Hcases : k = 0%nat \/ k = 1%nat) by lia. clear Hlt.
    revert Hk.
    unfold stepTwo, bind, Do, logged, check_post, fail, ret, panic. simpl.
    next_reply;
      [| intros Hk; destruct Hcases as [-> | ->]; discriminate Hk
       | intros Hk; destruct Hcases as [-> | ->]; discriminate Hk].
    destruct (StatusCode r =? 302); simpl;
      [| intros Hk; destruct Hcases as [-> | ->]; discriminate Hk].
    destruct (current_state_of (_url_prefix ++ Location r)) as [st |] eqn:Est; simpl;
      [| intros Hk; destruct Hcases as [-> | ->]; discriminate Hk].
    assert (Hdone : forall l rest,
               ((get auth_url [], Answer r)
                  :: (post (_url_prefix ++ Location r)%string
                        (username_form QueryEscape st _email) (SetCookies r), l)
                  :: rest) !! S k = Some (req, rep) ->
               (forall q a, rest !! 0%nat = Some (q, a) ->
                  Body q = password_form QueryEscape st _email _password) ->
               exists r0 st0,
                 Some (get auth_url [], Answer r) = Some (get auth_url [], Answer r0)
                 /\ current_state_of (_url_prefix ++ Location r0)%string = Some st0
                 /\ Body req = if (k =? 0)%nat
                               then username_form QueryEscape st0 _email
                               else password_form QueryEscape st0 _email _password).
    { intros l rest Hk Hrest. exists r, st. split; [reflexivity |]. split; [exact Est |].
      destruct Hcases as [-> | ->]; simpl in Hk.
      - injection Hk as <- _. reflexivity.
      - simpl. destruct rest as [| [q a] rest']; [discriminate Hk |].
        simpl in Hk. injection Hk as <- _. apply (Hrest q a). reflexivity. }
    next_reply;
      [| intros Hk; apply (Hdone _ [] Hk); intros q a Hq; discriminate Hq
       | intros Hk; apply (Hdone _ [] Hk); intros q a Hq; discriminate Hq].
    destruct (StatusCode r0 =? 302); [| destruct (StatusCode r0 =? 400)]; simpl;
      try (intros Hk; apply (Hdone _ [] Hk); intros q a Hq; discriminate Hq).
    next_reply;
      try (intros Hk; apply (Hdone _ _ Hk); intros q a Hq;
           injection Hq as <- _; reflexivity).
    destruct (StatusCode r1 =? 302); [| destruct (StatusCode r1 =? 400)]; simpl;
      try (intros Hk; apply (Hdone _ _ Hk); intros q a Hq;
           injection Hq as <- _; reflexivity).
    next_reply;
      try destruct (StatusCode r2 =? 302); simpl;
      intros Hk; apply (Hdone _ _ Hk); intros q a Hq;
      injection Hq as <- _; reflexivity.
Qed.

End AnyNetwork.

(** An instance: the handshake that echoes ECHOED, run with the
    recorded state ISSUED. *)
Lemma C2_echoed_state_is_resent_not_compared_witness :
  let s := start_state (NewClient email_config [])
             (tl (handshake "ECHOED"), @nil (Request * Reply)) no_file in
  let run := stepTwo (logged scripted) no_escape "https://provider.example/authorize"
               "user@example.com" "secret" s in
  stepTwo (logged scripted) no_escape "https://provider.example/authorize"
    "user@example.com" "secret" (set_authState "ISSUED" s)
  = (fst run, set_authState "ISSUED" (snd run)).
Proof.
  cbv zeta.
  exact (proj1 (C2_echoed_state_is_resent_not_compared (list Reply) scripted no_escape
                  (NewClient email_config []) (tl (handshake "ECHOED")) no_file []
                  "https://provider.example/authorize" "user@example.com" "secret"
                  "ISSUED")).
Defined.

(** C2 as stated fails: the discovery endpoint issues the state
    ISSUED, every redirect echoes the state ECHOED, and the attempt
    goes through all its steps and ends with the token.  The form
    posts carry ECHOED, the token request carries ISSUED. *)
Lemma C2_state_mismatch_is_not_detected :
  let run := GetAccessToken (logged scripted) no_escape (endpoint_issues "ISSUED")
               token_answer 0
               (start_state (NewClient email_config [])
                  (handshake "ECHOED", @nil (Request * Reply)) no_file) in
  fst run = Ret "TOKEN"
  /\ authState (auth (client (snd run))) = "ISSUED"
  /\ current_state_of (_url_prefix ++ "/u/login/identifier?state=ECHOED")%string
     = Some "ECHOED"
  /\ "ISSUED" <> "ECHOED"
  /\ map (fun x => Body (fst x)) (snd (net (snd run)))
     = [ ""; "";
         "state=ECHOED&username=user@example.com&js-available=true&webauthn-available=true&is-brave=false&webauthn-platform-available=false&action=default";
         "state=ECHOED&username=user@example.com&password=secret&action=default";
         "";
         "state=ISSUED&callbackUrl=https://chat.openai.com/api/auth/callback/auth0?code=abc" ].
Proof.
  cbv zeta. split; [vm_compute; reflexivity |].
  split; [vm_compute; reflexivity |].
  split; [vm_compute; reflexivity |].
  split; [discriminate |].
  vm_compute. reflexivity.
Qed.

(** An instance: the password post is answered 400. *)
Lemma C4_non_302_after_the_first_redirect_witness :
  fst (stepTwo (logged scripted) no_escape "https://provider.example/authorize"
         "user@example.com" "wrong"
         (start_state (NewClient email_config [])
            ([redirect 302 "/u/login/identifier?state=S";
              redirect 302 "/u/login/password?state=S";
              redirect 400 ""], @nil (Request * Reply)) no_file))
  = Fail invalid_credentials.
Proof.
  exact (C4_non_302_after_the_first_redirect (list Reply) scripted no_escape
           (start_state (NewClient email_config [])
              ([redirect 302 "/u/login/identifier?state=S";
                redirect 302 "/u/login/password?state=S";
                redirect 400 ""], @nil (Request * Reply)) no_file)
           "https://provider.example/authorize" "user@example.com" "wrong"
           2%nat
           (post "https://auth0.openai.com/u/login/password?state=S"
              (password_form no_escape "S" "user@example.com" "wrong") ["did=1"])
           {| StatusCode := 400; Status := ""; Location := "";
              SetCookies := ["did=1"]; RespBody := "" |}
           eq_refl eq_refl ltac:(discriminate) ltac:(right; left; reflexivity)).
Defined.

(** C4 as stated fails at the first exchange of [stepTwo]: when the
    request for the first redirect is answered 500, or 404, the error
    is the same formatted text with the URL, and no status code. *)
Lemma C4_first_redirect_error_omits_status :
  fst (stepTwo (logged scripted) no_escape "https://provider.example/authorize"
         "user@example.com" "secret"
         (start_state (NewClient email_config [])
            ([redirect 500 ""], @nil (Request * Reply)) no_file))
  = Fail (Errorf "bad status for url: %s" ["https://provider.example/authorize"])
  /\ fst (stepTwo (logged scripted) no_escape "https://provider.example/authorize"
            "user@example.com" "secret"
            (start_state (NewClient email_config [])
               ([redirect 404 ""], @nil (Request * Reply)) no_file))
     = Fail (Errorf "bad status for url: %s" ["https://provider.example/authorize"]).
Proof. split; vm_compute; reflexivity. Qed.

(** [stepThree] does not look at the status of its exchange: an answer
    500 whose body decodes is taken for the token. *)
Lemma stepThree_ignores_status :
  fst (stepThree (logged scripted) no_escape token_answer "https://callback.example/?code=abc"
         (start_state (NewClient email_config [])
            ([redirect 500 ""], @nil (Request * Reply)) no_file))
  = Ret {| r_AccessToken := "TOKEN"; r_Expires := 1000; r_Detail := "" |}.
Proof. vm_compute. reflexivity. Qed.

End Handshake.

(** * Further properties *)

(** ** Conversations and [Ask] *)

Section MoreWindow.

Import Conv History Facts.

Lemma getTokenCount_run init ops :
  getTokenCount (run (created init) ops) = getTokenCount (created init).
Proof. unfold getTokenCount. rewrite InitMessage_run. reflexivity. Qed.

Lemma Messages_run_within init : forall ops c,
  InitMessage c = init ->
  within_limits init ops ->
  Messages (run c ops) = Messages c ++ appended ops.
Proof.
  induction ops as [| op ops IH]; intros c Hi Hw.
  - simpl. rewrite app_nil_r. reflexivity.
  - change (run c (op :: ops)) with (run (apply c op) ops).
    inversion Hw as [| ? ? Hop Hrest]; subst.
    rewrite IH; [| rewrite InitMessage_apply; reflexivity | exact Hrest].
    destruct op as [m | limit engine]; simpl.
    + rewrite <- app_assoc. reflexivity.
    + rewrite tokenizeMessage_within; [reflexivity |].
      unfold getTokenCount in *. simpl in Hop. exact Hop.
Qed.

(** X1: The token count is that of the system text alone, so a
    conversation whose system text is within the limit is never
    truncated, however long its history grows: it holds the system
    message and every message appended, in order. *)
Theorem history_within_limit_is_never_truncated (init : string) (ops : list Op) :
  within_limits init ops ->
  getTokenCount (run (created init) ops) = Z.quot (Z.of_nat (String.length init)) 4
  /\ Messages (run (created init) ops) = mkMessage "system" init :: appended ops.
Proof.
  intros Hw. split; [rewrite getTokenCount_run; reflexivity |].
  rewrite (Messages_run_within init ops (created init) eq_refl Hw). reflexivity.
Qed.

(** An instance: a short system text, three appends and two runs of
    the truncation. *)
Lemma history_within_limit_is_never_truncated_witness :
  Messages (run (created "Be brief.")
              [Append (mkMessage "user" "one");
               Window (Rev.getEngineTokenLimit_ask_go []) "gpt-4";
               Append (mkMessage "assistant" "two");
               Append (mkMessage "user" "three");
               Window Rev.getEngineTokenLimit_part_000 "gpt-4"])
  = [mkMessage "system" "Be brief."; mkMessage "user" "one";
     mkMessage "assistant" "two"; mkMessage "user" "three"].
Proof.
  apply (history_within_limit_is_never_truncated "Be brief."
           [Append (mkMessage "user" "one");
            Window (Rev.getEngineTokenLimit_ask_go []) "gpt-4";
            Append (mkMessage "assistant" "two");
            Append (mkMessage "user" "three");
            Window Rev.getEngineTokenLimit_part_000 "gpt-4"]).
  repeat constructor; vm_compute; discriminate.
Defined.

(** The first entry of [range] whose key the engine name contains
    decides. *)
Lemma limit_first_match range engine :
  (Rev.getEngineTokenLimit_ask_go range engine = 4000
   /\ forall a e, In (a, e) range -> GoStr.Contains engine a = false)
  \/ exists a e, In (a, e) range /\ GoStr.Contains engine a = true
                 /\ Rev.getEngineTokenLimit_ask_go range engine = e.
Proof.
  induction range as [| [a e] range IH]; simpl.
  - left. split; [reflexivity | intros a e []].
  - destruct (GoStr.Contains engine a) eqn:E.
    + right. exists a, e. auto.
    + destruct IH as [[H0 Hn] | (a' & e' & Hin & Hc & Hr)].
      * left. split; [exact H0 |].
        intros a' e' [Heq | Hin]; [injection Heq as <- <-; exact E | eauto].
      * right. exists a', e'. auto.
Qed.

Lemma Engines_list :
  map_to_list Engines
  = [("gpt-3.5-", 4000); ("gpt-4-32", 32000); ("gpt-4-8", 8000); ("text-davinci-", 4000)].
Proof. vm_compute. reflexivity. Qed.

(** X2: [getEngineTokenLimit] of src/ask.go, whatever order the iteration
    over [Engines] takes: the limit is 4000, or 32000 for a name that
    contains gpt-4-32, or 8000 for a name that contains gpt-4-8; a
    name that contains neither gets 4000; a name that contains
    gpt-4-32 and no other key gets 32000, one that contains gpt-4-8
    and no other key gets 8000. *)
Theorem engine_token_limit_cases (range : list (string * Z)) (engine : string) :
  Permutation range (map_to_list Engines) ->
  let l := Rev.getEngineTokenLimit_ask_go range engine in
  (l = 4000
   \/ (l = 32000 /\ GoStr.Contains engine "gpt-4-32" = true)
   \/ (l = 8000 /\ GoStr.Contains engine "gpt-4-8" = true))
  /\ (GoStr.Contains engine "gpt-4-32" = false ->
      GoStr.Contains engine "gpt-4-8" = false -> l = 4000)
  /\ (GoStr.Contains engine "gpt-3.5-" = false ->
      GoStr.Contains engine "text-davinci-" = false ->
      (GoStr.Contains engine "gpt-4-32" = true ->
       GoStr.Contains engine "gpt-4-8" = false -> l = 32000)
      /\ (GoStr.Contains engine "gpt-4-8" = true ->
          GoStr.Contains engine "gpt-4-32" = false -> l = 8000)).
Proof.
  intros Hp. cbv zeta.
  assert (Hin : forall a e, In (a, e) range ->
            (a, e) = ("gpt-3.5-", 4000) \/ (a, e) = ("gpt-4-32", 32000)
            \/ (a, e) = ("gpt-4-8", 8000) \/ (a, e) = ("text-davinci-", 4000)).
  { intros a e H. apply (Permutation_in _ Hp) in H. rewrite Engines_list in H.
    simpl in H. destruct H as [H | [H | [H | [H | []]]]]; auto. }
  assert (Hhas : forall a e, In (a, e) (map_to_list Engines) -> In (a, e) range).
  { intros a e H. apply (Permutation_in _ (Permutation_sym Hp)). exact H. }
  rewrite Engines_list in Hhas.
  destruct (limit_first_match range engine) as [[H0 Hn] | (a & e & Ha & Hc & Hr)].
  - split; [left; exact H0 |]. split; [intros _ _; exact H0 |].
    intros _ _. split; intros Ht _.
    + rewrite (Hn "gpt-4-32" 32000) in Ht; [discriminate |].
      apply Hhas. simpl. auto.
    + rewrite (Hn "gpt-4-8" 8000) in Ht; [discriminate |].
      apply Hhas. simpl. auto.
  - rewrite Hr.
    destruct (Hin a e Ha) as [H | [H | [H | H]]]; injection H as -> ->.
    + split; [left; reflexivity |]. split; [reflexivity |].
      intros H35 _. rewrite H35 in Hc. discriminate.
    + split; [right; left; auto |]. split; [intros H32; rewrite H32 in Hc; discriminate |].
      intros _ _. split; [reflexivity |]. intros _ H32. rewrite H32 in Hc. discriminate.
    + split; [right; right; auto |].
      split; [intros _ H8; rewrite H8 in Hc; discriminate |].
      intros _ _. split; [| reflexivity]. intros _ H8. rewrite H8 in Hc. discriminate.
    + split; [left; reflexivity |]. split; [reflexivity |].
      intros _ Htd. rewrite Htd in Hc. discriminate.
Qed.

(** An instance: gpt-4-32k, with the entries taken in reverse. *)
Lemma engine_token_limit_cases_witness :
  Rev.getEngineTokenLimit_ask_go
    [("text-davinci-", 4000); ("gpt-4-8", 8000); ("gpt-4-32", 32000); ("gpt-3.5-", 4000)]
    "gpt-4-32k" = 32000.
Proof.
  refine (proj1 (proj2 (proj2 (engine_token_limit_cases
            [("text-davinci-", 4000); ("gpt-4-8", 8000); ("gpt-4-32", 32000);
             ("gpt-3.5-", 4000)] "gpt-4-32k" _)) eq_refl eq_refl) eq_refl eq_refl).
  rewrite Engines_list. apply Permutation_rev.
Defined.

End MoreWindow.

Section MoreAsk.

Import Chatgpt Scenario Facts.

Variable W : Type.
Variable send : W -> Request -> Reply * W.
Variable decodeOpenAIResponse : string -> string + OpenAIResponse.
Variable decodeOpenAIError : string -> string + (string * Z).
Variable marshalPayload : string -> list Conv.Message -> string.
Variable rev : Rev.t.
Variable range range' : list (string * Z).
Variable askWithAccessToken : string -> list AskOpts -> M W Stream.ChatResponse.

(** The conversation that the first part of [Ask] stores when the
    system text is within the limit: an existing one with the prompt
    appended; a new one with the system message, and with the prompt
    after it only where the revision appends it. *)
Lemma Ask_window_stored (c : Client) (prompt : string) (askOpts : list AskOpts) :
  let result := Ask_window rev range range' c prompt askOpts in
  conversations (fst (fst result)) !! conversation_id askOpts = Some (snd (fst result))
  /\ match conversations c !! conversation_id askOpts with
     | Some conv =>
         Conv.getTokenCount conv <= Rev.getEngineTokenLimit rev range (engine c) ->
         Conv.Messages (snd (fst result))
         = Conv.Messages conv ++ [Conv.mkMessage "user" prompt]
     | None =>
         Conv.getTokenCount (History.created (system_text c))
           <= Rev.getEngineTokenLimit rev range (engine c) ->
         Conv.Messages (snd (fst result))
         = Conv.mkMessage "system" (system_text c)
             :: if Rev.promptOnCreate rev then [Conv.mkMessage "user" prompt] else []
     end.
Proof.
  cbv zeta. unfold Ask_window. fold (system_text c).
  destruct (conversations c !! conversation_id askOpts) as [conv |];
    [| destruct (Rev.promptOnCreate rev)]; simpl.
  - change (Conv.getTokenCount (Conv.addMessage conv (Conv.mkMessage "user" prompt)))
      with (Conv.getTokenCount conv).
    destruct (Z.ltb_spec (Rev.getEngineTokenLimit rev range (engine c))
                (Conv.getTokenCount conv)); simpl;
      (split; [apply lookup_insert_eq | intros H'; try lia; reflexivity]).
  - change (Conv.getTokenCount _)
      with (Conv.getTokenCount (History.created (system_text c))).
    destruct (Z.ltb_spec (Rev.getEngineTokenLimit rev range (engine c))
                (Conv.getTokenCount (History.created (system_text c)))); simpl;
      (split; [apply lookup_insert_eq | intros H'; try lia; reflexivity]).
  - change (Conv.getTokenCount _)
      with (Conv.getTokenCount (History.created (system_text c))).
    destruct (Z.ltb_spec (Rev.getEngineTokenLimit rev range (engine c))
                (Conv.getTokenCount (History.created (system_text c)))); simpl;
      (split; [apply lookup_insert_eq | intros H'; try lia; reflexivity]).
Qed.

(** X3: [Ask] in API-key mode, when the API does not answer 200 (an
    error status, or no answer at all): [askOpenAI] returns a nil
    response with the error, [Ask] calls [GetResponse] on it, and the
    call panics instead of returning the error.  The conversation
    stays stored as [Ask] had prepared it for the request; with a
    system text within the limit that is: an existing conversation
    with the prompt appended; a new conversation with the system
    message, and the prompt after it in unnamed/part_000 but not in
    src/ask.go. *)
Theorem Ask_panics_when_the_api_fails
    (s : State W) (prompt : string) (askOpts : list AskOpts) :
  clientStarted (auth (client s)) = true ->
  authmode (client s) <> AccessTokenMode ->
  (forall w req, match fst (send w req) with
                 | Answer resp => StatusCode resp <> 200
                 | _ => True
                 end) ->
  let run := Ask send decodeOpenAIResponse decodeOpenAIError marshalPayload rev range range'
               askWithAccessToken prompt askOpts s in
  (exists msg, fst run = Panic msg)
  /\ exists stored,
       conversations (client (snd run)) !! conversation_id askOpts = Some stored
       /\ match conversations (client s) !! conversation_id askOpts with
          | Some conv =>
              Conv.getTokenCount conv
                <= Rev.getEngineTokenLimit rev range (engine (client s)) ->
              Conv.Messages stored = Conv.Messages conv ++ [Conv.mkMessage "user" prompt]
          | None =>
              Conv.getTokenCount (History.created (system_text (client s)))
                <= Rev.getEngineTokenLimit rev range (engine (client s)) ->
              Conv.Messages stored
              = Conv.mkMessage "system" (system_text (client s))
                  :: if Rev.promptOnCreate rev then [Conv.mkMessage "user" prompt] else []
          end.
Proof.
  intros Hstarted Hmode Hsend. cbv zeta.
  assert (H : exists msg w,
             Ask send decodeOpenAIResponse decodeOpenAIError marshalPayload rev range range'
               askWithAccessToken prompt askOpts s
             = (Panic msg,
                {| client := fst (fst (Ask_window rev range range' (client s) prompt askOpts));
                   net := w; disk := disk s; out := out s |})).
  { unfold Ask. unfold bind at 1. unfold getClient. simpl.
    rewrite Hstarted. simpl.
    destruct (Z.eqb_spec (authmode (client s)) AccessTokenMode) as [E | _]; [contradiction |].
    destruct (Ask_window rev range range' (client s) prompt askOpts) as [[c conv] id].
    unfold bind, setClient, askOpenAI, bind, getClient, Do, fail, panic. simpl.
    specialize (Hsend (net s) (completion_request marshalPayload c (Conv.Messages conv))).
    unfold completion_request in Hsend.
    destruct (send (net s) _) as [[resp | e |] w]; simpl in *.
    - destruct (Z.eqb_spec (StatusCode resp) 200) as [E | _]; [contradiction |].
      destruct (decodeOpenAIError (RespBody resp)) as [e | [m code]]; simpl; eauto.
    - eauto.
    - eauto. }
  destruct H as (msg & w & ->). simpl. split; [eauto |].
  pose proof (Ask_window_stored (client s) prompt askOpts) as [Hst Hm]. eauto.
Qed.

(** X4: [Ask] on an existing conversation whose system text is within the
    limit, when the API answers 200 with a body that decodes: the
    request carries the history with the prompt appended; the reply
    is returned with the identifier of the conversation and the
    engine; the conversation stored under the identifier is the old
    one with the prompt and the reply appended. *)
Theorem Ask_appends_prompt_and_reply
    (s : State W) (prompt : string) (askOpts : list AskOpts)
    (conv : Conv.Conversation) (resp : Response) (w : W) (response : OpenAIResponse) :
  clientStarted (auth (client s)) = true ->
  authmode (client s) <> AccessTokenMode ->
  conversations (client s) !! conversation_id askOpts = Some conv ->
  Conv.getTokenCount conv <= Rev.getEngineTokenLimit rev range (engine (client s)) ->
  send (net s)
    (completion_request marshalPayload (client s)
       (Conv.Messages conv ++ [Conv.mkMessage "user" prompt]))
  = (Answer resp, w) ->
  StatusCode resp = 200 ->
  decodeOpenAIResponse (RespBody resp) = inr response ->
  let reply := GetResponse rev response in
  let stored :=
    {| Conv.InitMessage := Conv.InitMessage conv;
       Conv.LastMessage := reply;
       Conv.Messages := Conv.Messages conv
                          ++ [Conv.mkMessage "user" prompt; Conv.mkMessage "assistant" reply] |} in
  let run := Ask send decodeOpenAIResponse decodeOpenAIError marshalPayload rev range range'
               askWithAccessToken prompt askOpts s in
  fst run = Ret {| Stream.Message := reply;
                   Stream.ConversationID := conversation_id askOpts;
                   Stream.ParentID := "";
                   Stream.Model := engine (client s);
                   Stream.done := false |}
  /\ conversations (client (snd run)) !! conversation_id askOpts = Some stored
  /\ net (snd run) = w.
Proof.
  intros Hstarted Hmode Hconv Hlimit Hsend Hstatus Hdecode. cbv zeta.
  assert (H : exists c',
             Ask send decodeOpenAIResponse decodeOpenAIError marshalPayload rev range range'
               askWithAccessToken prompt askOpts s
             = (Ret {| Stream.Message := GetResponse rev response;
                       Stream.ConversationID := conversation_id askOpts;
                       Stream.ParentID := "";
                       Stream.Model := engine (client s);
                       Stream.done := false |},
                {| client := c'; net := w; disk := disk s; out := out s |})
             /\ conversations c' !! conversation_id askOpts
                = Some {| Conv.InitMessage := Conv.InitMessage conv;
                          Conv.LastMessage := GetResponse rev response;
                          Conv.Messages :=
                            Conv.Messages conv
                              ++ [Conv.mkMessage "user" prompt;
                                  Conv.mkMessage "assistant" (GetResponse rev response)] |}).
  { unfold Ask. unfold bind at 1. unfold getClient. simpl.
    rewrite Hstarted. simpl.
    destruct (Z.eqb_spec (authmode (client s)) AccessTokenMode) as [E | _];
      [contradiction |].
    unfold Ask_window. rewrite Hconv. simpl.
    change (Conv.getTokenCount (Conv.addMessage conv (Conv.mkMessage "user" prompt)))
      with (Conv.getTokenCount conv).
    destruct (Z.ltb_spec (Rev.getEngineTokenLimit rev range (engine (client s)))
                (Conv.getTokenCount conv)) as [Hlt | _]; [lia |].
    unfold bind, setClient, askOpenAI, bind, getClient, Do, fail, panic, ret. simpl.
    unfold completion_request in Hsend. simpl in Hsend. rewrite Hsend. simpl.
    rewrite Hstatus. simpl. rewrite Hdecode. simpl.
    eexists. split; [reflexivity |]. simpl. rewrite lookup_insert_eq.
    unfold Conv.addMessage. simpl. rewrite <- app_assoc. reflexivity. }
  destruct H as (c' & -> & H). simpl. auto.
Qed.

(** X5: The first [Ask] on a conversation, with a system text within the
    limit: it sends one request, and the history in it is the system
    message alone in src/ask.go, which never sends the prompt, and
    the system message and the prompt in unnamed/part_000. *)
Theorem first_Ask_request
    (c : Client) (w : W) (d : Disk) (o : list string) (prompt : string)
    (askOpts : list AskOpts)
    (awt : string -> list AskOpts -> M (W * list (Request * Reply)) Stream.ChatResponse) :
  clientStarted (auth c) = true ->
  authmode c <> AccessTokenMode ->
  conversations c !! conversation_id askOpts = None ->
  Conv.getTokenCount (History.created (system_text c))
    <= Rev.getEngineTokenLimit rev range (engine c) ->
  let s := {| client := c; net := (w, @nil (Request * Reply)); disk := d; out := o |} in
  requests (snd (net (snd (Ask (logged send) decodeOpenAIResponse decodeOpenAIError
                             marshalPayload rev range range' awt prompt askOpts s))))
  = [completion_request marshalPayload c
       (Conv.mkMessage "system" (system_text c)
          :: if Rev.promptOnCreate rev then [Conv.mkMessage "user" prompt] else [])].
Proof.
  intros Hstarted Hmode Hconv Hlimit. cbv zeta.
  unfold Ask. unfold bind at 1. unfold getClient. simpl.
  rewrite Hstarted. simpl.
  destruct (Z.eqb_spec (authmode c) AccessTokenMode) as [E | _]; [contradiction |].
  unfold Ask_window. rewrite Hconv.
  fold (system_text c).
  assert (Hcount : Conv.getTokenCount
                     (if Rev.promptOnCreate rev
                      then Conv.addMessage
                             (Conv.initMessage Conv.zero
                                (Conv.mkMessage "system" (system_text c)))
                             (Conv.mkMessage "user" prompt)
                      else Conv.initMessage Conv.zero
                             (Conv.mkMessage "system" (system_text c)))
                   = Conv.getTokenCount (History.created (system_text c))).
  { destruct (Rev.promptOnCreate rev); reflexivity. }
  cbv zeta. simpl engine. rewrite Hcount.
  assert (Hltb : (Rev.getEngineTokenLimit rev range (engine c)
                  <? Conv.getTokenCount (History.created (system_text c))) = false)
    by (apply Z.ltb_ge; lia).
  unfold bind, setClient, askOpenAI, bind, getClient, Do, logged, fail, panic, ret,
    completion_request, requests. simpl. rewrite ?Hltb. simpl.
  destruct (Rev.promptOnCreate rev); simpl;
    (destruct (send w _) as [[resp | e |] w'] eqn:Es; simpl;
     [ destruct (StatusCode resp =? 200); simpl;
       [ destruct (decodeOpenAIResponse (RespBody resp)) as [? | [[[|[? ?] ?]|]]]; reflexivity
       | destruct (decodeOpenAIError (RespBody resp)) as [? | [? ?]]; reflexivity ]
     | reflexivity | reflexivity ]).
Qed.

(** X6: The first [Ask] on a conversation, answered 200: what is stored
    afterwards.  In src/ask.go the conversation holds the system
    message and the reply: the prompt has not been sent and is not
    kept.  In unnamed/part_000 it holds the system message, the
    prompt and the reply. *)
Theorem first_Ask_history
    (s : State W) (prompt : string) (askOpts : list AskOpts)
    (resp : Response) (w : W) (response : OpenAIResponse) :
  clientStarted (auth (client s)) = true ->
  authmode (client s) <> AccessTokenMode ->
  conversations (client s) !! conversation_id askOpts = None ->
  Conv.getTokenCount (History.created (system_text (client s)))
    <= Rev.getEngineTokenLimit rev range (engine (client s)) ->
  send (net s)
    (completion_request marshalPayload (client s)
       (Conv.mkMessage "system" (system_text (client s))
          :: if Rev.promptOnCreate rev then [Conv.mkMessage "user" prompt] else []))
  = (Answer resp, w) ->
  StatusCode resp = 200 ->
  decodeOpenAIResponse (RespBody resp) = inr response ->
  let run := Ask send decodeOpenAIResponse decodeOpenAIError marshalPayload rev range range'
               askWithAccessToken prompt askOpts s in
  Stream.Message <$> (match fst run with Ret r => Some r | _ => None end)
  = Some (GetResponse rev response)
  /\ Conv.Messages <$> (conversations (client (snd run)) !! conversation_id askOpts)
     = Some (Conv.mkMessage "system" (system_text (client s))
               :: (if Rev.promptOnCreate rev then [Conv.mkMessage "user" prompt] else [])
               ++ [Conv.mkMessage "assistant" (GetResponse rev response)]).
Proof.
  intros Hstarted Hmode Hconv Hlimit Hsend Hstatus Hdecode. cbv zeta.
  assert (Hltb : (Rev.getEngineTokenLimit rev range (engine (client s))
                  <? Conv.getTokenCount (History.created (system_text (client s)))) = false)
    by (apply Z.ltb_ge; lia).
  assert (H : exists c',
             Ask send decodeOpenAIResponse decodeOpenAIError marshalPayload rev range range'
               askWithAccessToken prompt askOpts s
             = (Ret {| Stream.Message := GetResponse rev response;
                       Stream.ConversationID := conversation_id askOpts;
                       Stream.ParentID := "";
                       Stream.Model := engine (client s);
                       Stream.done := false |},
                {| client := c'; net := w; disk := disk s; out := out s |})
             /\ Conv.Messages <$> (conversations c' !! conversation_id askOpts)
                = Some (Conv.mkMessage "system" (system_text (client s))
                          :: (if Rev.promptOnCreate rev
                              then [Conv.mkMessage "user" prompt] else [])
                          ++ [Conv.mkMessage "assistant" (GetResponse rev response)])).
  { unfold Ask. unfold bind at 1. unfold getClient. simpl.
    rewrite Hstarted. simpl.
    destruct (Z.eqb_spec (authmode (client s)) AccessTokenMode) as [E | _];
      [contradiction |].
    unfold Ask_window. rewrite Hconv. fold (system_text (client s)).
    unfold completion_request in Hsend.
    destruct (Rev.promptOnCreate rev); simpl;
      change (Conv.getTokenCount _)
        with (Conv.getTokenCount (History.created (system_text (client s))));
      rewrite Hltb;
      unfold bind, setClient, askOpenAI, bind, getClient, Do, fail, panic, ret; simpl;
      simpl in Hsend; rewrite Hsend; simpl; rewrite Hstatus; simpl; rewrite Hdecode; simpl;
      eexists; (split; [reflexivity |]); simpl; rewrite lookup_insert_eq; reflexivity. }
  destruct H as (c' & -> & H). simpl. split; [reflexivity | exact H].
Qed.

(** [Ask] and [AskStream] on a client that is not marked as started
    refuse with the same error, send nothing and change nothing. *)
Lemma Ask_refuses_unstarted
    (s : State W)
    (unmarshal : string -> option (list (string * Json.Value)))
    (sprint_other : Json.Value -> string) (marshalData : Access.Data -> string)
    (arev : Access.t) (random1 random2 : option (list ascii))
    (prompt : string) (askOpts : list AskOpts) :
  started s = false ->
  Ask send decodeOpenAIResponse decodeOpenAIError marshalPayload rev range range'
    askWithAccessToken prompt askOpts s
  = (Fail (Errorf "client is not started, call Start() first" []), s)
  /\ Access.AskStream send unmarshal sprint_other marshalData arev random1 random2
       prompt askOpts s
     = (Ret {| Access.channel := false;
               Access.failure := Some (Errorf "client is not started, call Start() first" []);
               Access.goroutine := None |}, s).
Proof.
  unfold started. intros H.
  unfold Ask, Access.AskStream, bind, getClient, fail, ret. simpl. rewrite H. simpl.
  split; reflexivity.
Qed.

End MoreAsk.

Section MoreAskInstances.

Import Chatgpt Scenario Facts.

(** An instance: a started client with an API key, and a network that
    is not reachable. *)
Lemma Ask_panics_when_the_api_fails_witness :
  exists msg,
    fst (Ask offline (fun _ => inl "EOF") (fun _ => inl "EOF") (fun _ _ => "") Rev.ask_go
           [] [] (fun _ _ s => (Panic "not used", s)) "hello" []
           (start_state (started_with_key long_init_config) tt no_file))
    = Panic msg.
Proof.
  refine (proj1 (Ask_panics_when_the_api_fails unit offline (fun _ => inl "EOF")
                   (fun _ => inl "EOF") (fun _ _ => "") Rev.ask_go [] []
                   (fun _ _ s => (Panic "not used", s))
                   (start_state (started_with_key long_init_config) tt no_file)
                   "hello" [] eq_refl _ _)).
  - intros H. vm_compute in H. discriminate H.
  - intros w req. exact I.
Defined.


(** An instance: the conversation default holds the system message;
    the API answers Hello. *)
Lemma Ask_appends_prompt_and_reply_witness :
  fst (Ask scripted (says "Hello!") (fun _ => inl "EOF") (fun _ _ => "payload")
         Rev.ask_go [] [] (fun _ _ s => (Panic "not used", s)) "Hi" []
         (start_state chatting [ok "{}"] no_file))
  = Ret {| Stream.Message := "Hello!"; Stream.ConversationID := "default";
           Stream.ParentID := ""; Stream.Model := engine chatting;
           Stream.done := false |}.
Proof.
  exact (proj1
           (Ask_appends_prompt_and_reply (list Reply) scripted (says "Hello!")
              (fun _ => inl "EOF") (fun _ _ => "payload") Rev.ask_go [] []
              (fun _ _ s => (Panic "not used", s))
              (start_state chatting [ok "{}"] no_file) "Hi" []
              (History.created "Be brief.")
              {| StatusCode := 200; Status := "200 OK"; Location := "";
                 SetCookies := []; RespBody := "{}" |}
              [] {| Choices := Some [(Conv.mkMessage "assistant" "Hello!", "stop")] |}
              eq_refl ltac:(intros H; vm_compute in H; discriminate H) eq_refl
              ltac:(vm_compute; discriminate) eq_refl eq_refl eq_refl)).
Defined.

(** An instance: the first question to a client started with an API
    key. *)
Lemma first_Ask_request_witness :
  requests (snd (net (snd (Ask (logged scripted) (says "Hello!") (fun _ => inl "EOF")
                             (fun _ _ => "payload") Rev.ask_go [] []
                             (fun _ _ s => (Panic "not used", s)) "Hi" []
                             (start_state
                                (started_with_key email_and_token_config)
                                ([ok "{}"], @nil (Request * Reply)) no_file)))))
  = [completion_request (fun _ _ => "payload") (started_with_key email_and_token_config)
       [Conv.mkMessage "system" DEFAULT_INIT_MESSAGE]].
Proof.
  exact (first_Ask_request (list Reply) scripted (says "Hello!") (fun _ => inl "EOF")
           (fun _ _ => "payload") Rev.ask_go [] []
           (started_with_key email_and_token_config) [ok "{}"] no_file [] "Hi" []
           (fun _ _ s => (Panic "not used", s))
           eq_refl ltac:(intros H; vm_compute in H; discriminate H) eq_refl
           ltac:(vm_compute; discriminate)).
Defined.

(** An instance: the first question to a client started with an API
    key, answered Hello: the prompt Hi is not in the history. *)
Lemma first_Ask_history_witness :
  Conv.Messages
    <$> (conversations
           (client (snd (Ask scripted (says "Hello!") (fun _ => inl "EOF")
                           (fun _ _ => "payload") Rev.ask_go [] []
                           (fun _ _ s => (Panic "not used", s)) "Hi" []
                           (start_state (started_with_key email_and_token_config)
                              [ok "{}"] no_file))))
           !! "default")
  = Some [Conv.mkMessage "system" DEFAULT_INIT_MESSAGE;
          Conv.mkMessage "assistant" "Hello!"].
Proof.
  exact (proj2 (first_Ask_history (list Reply) scripted (says "Hello!")
                  (fun _ => inl "EOF") (fun _ _ => "payload") Rev.ask_go [] []
                  (fun _ _ s => (Panic "not used", s))
                  (start_state (started_with_key email_and_token_config)
                     [ok "{}"] no_file) "Hi" []
                  {| StatusCode := 200; Status := "200 OK"; Location := "";
                     SetCookies := []; RespBody := "{}" |}
                  [] {| Choices := Some [(Conv.mkMessage "assistant" "Hello!", "stop")] |}
                  eq_refl ltac:(intros H; vm_compute in H; discriminate H) eq_refl
                  ltac:(vm_compute; discriminate) eq_refl eq_refl eq_refl)).
Defined.

End MoreAskInstances.

(** ** The stream decoder *)

Section MoreStream.

Import Rev Stream Streams.

Variable unmarshal : string -> option (list (string * Json.Value)).
Variable sprint_other : Json.Value -> string.
Variable logger : Log.Logger.

Lemma scanLine_skips rev live s line :
  GoStr.HasPrefix line "data: " = false ->
  scanLine unmarshal sprint_other rev logger live s line = Continue s.
Proof.
  intros H. unfold scanLine. rewrite H.
  destruct (String.eqb line "" || GoStr.HasPrefix line "event: "); reflexivity.
Qed.

Lemma scanLoop_data_lines rev live lines : forall s,
  scanLoop unmarshal sprint_other rev logger live s lines
  = scanLoop unmarshal sprint_other rev logger live s (data_lines lines).
Proof.
  induction lines as [| line lines IH]; intros s; [reflexivity |].
  unfold data_lines. simpl.
  destruct (GoStr.HasPrefix line "data: ") eqn:E.
  - simpl. destruct (scanLine unmarshal sprint_other rev logger live s line);
      try reflexivity. apply IH.
  - rewrite (scanLine_skips rev live s line E). apply IH.
Qed.

(** X7: The decoder reads the lines that begin with the data prefix and
    no others: a run over a stream is the run over its data lines.
    So a detail object that is a line of its own, after the first, is
    passed over like a blank line. *)
Theorem startScan_reads_data_lines_only rev live lines :
  startScan unmarshal sprint_other rev logger live lines
  = startScan unmarshal sprint_other rev logger live (data_lines lines).
Proof.
  unfold startScan. rewrite scanLoop_data_lines. reflexivity.
Qed.

Lemma scanLine_sentinel rev live s :
  GoStr.Contains "data: [DONE]" (detailNeedle rev) = false ->
  scanLine unmarshal sprint_other rev logger live s "data: [DONE]" = Break s.
Proof.
  intros H. unfold scanLine. rewrite H. reflexivity.
Qed.

Lemma scanLoop_sentinel rev live before after :
  GoStr.Contains "data: [DONE]" (detailNeedle rev) = false ->
  forall s,
    scanLoop unmarshal sprint_other rev logger live s (before ++ "data: [DONE]" :: after)
    = scanLoop unmarshal sprint_other rev logger live s before.
Proof.
  intros H. induction before as [| line before IH]; intros s.
  - simpl. rewrite (scanLine_sentinel rev live s H). reflexivity.
  - simpl. destruct (scanLine unmarshal sprint_other rev logger live s line);
      try reflexivity. apply IH.
Qed.

(** X8: The sentinel line ends the stream: what follows it is never read,
    and the run is the one over the lines before it.  (The
    hypothesis holds in both revisions: the sentinel does not contain
    the text looked for in error lines.) *)
Theorem sentinel_ends_the_stream rev live before after :
  GoStr.Contains "data: [DONE]" (detailNeedle rev) = false ->
  startScan unmarshal sprint_other rev logger live (before ++ "data: [DONE]" :: after)
  = startScan unmarshal sprint_other rev logger live before.
Proof.
  intros H. unfold startScan. rewrite (scanLoop_sentinel rev live before after H).
  reflexivity.
Qed.

Lemma scanLine_typed rev live s line :
  typed_ids unmarshal line = true ->
  match scanLine unmarshal sprint_other rev logger live s line with
  | Crash _ _ => False
  | _ => True
  end.
Proof.
  unfold typed_ids, scanLine. intros H.
  destruct (String.eqb line "" || GoStr.HasPrefix line "event: "); [exact I |].
  destruct (negb (GoStr.HasPrefix line "data: ")); [exact I |].
  destruct (GoStr.Contains line (detailNeedle rev)); [exact I |].
  destruct (String.eqb (GoStr.TrimPrefix line "data: ") "[DONE]"); [exact I |].
  destruct (unmarshal (GoStr.TrimPrefix line "data: ")) as [parsedLine |]; [| exact I].
  unfold checkFields.
  destruct (asObject (Json.get parsedLine "message")) as [message |]; [| exact I].
  destruct (asObject (Json.get message "content")) as [content |]; [| exact I].
  destruct (asArray (Json.get content "parts")) as [[| part parts] |]; try exact I.
  simpl.
  destruct (asString (Json.get content "content_type")) as [t |]; simpl; [| exact I].
  destruct (String.eqb t "text"); [| exact I].
  destruct (asString (Json.get parsedLine "conversation_id")); [| discriminate H].
  destruct (asString (Json.get message "id")); [| discriminate H].
  destruct (live && negb (String.eqb (Sprintf_v sprint_other part) "")); exact I.
Qed.

Lemma scanLoop_typed rev live lines : forall s,
  forallb (typed_ids unmarshal) lines = true ->
  match scanLoop unmarshal sprint_other rev logger live s lines with
  | Crash _ _ => False
  | _ => True
  end.
Proof.
  induction lines as [| line lines IH]; intros s H; [exact I |].
  simpl in H. apply andb_true_iff in H as [Hl Hr]. simpl.
  pose proof (scanLine_typed rev live s line Hl) as Hs.
  destruct (scanLine unmarshal sprint_other rev logger live s line); try exact I.
  - apply IH. exact Hr.
  - exact Hs.
Qed.

(** X9: When every frame of the stream has strings for its conversation
    and message identifiers, the decoder does not panic, except at
    the unguarded close of src/ask.go in buffered mode. *)
Theorem decoder_panics_only_on_untyped_ids rev live lines :
  forallb (typed_ids unmarshal) lines = true ->
  match outcome (startScan unmarshal sprint_other rev logger live lines) with
  | Panic msg => live = false /\ closeGuarded rev = false /\ msg = "close of nil channel"
  | _ => True
  end.
Proof.
  intros H. unfold startScan.
  pose proof (scanLoop_typed rev live lines {| messages := []; events := [] |} H) as Hs.
  destruct (scanLoop unmarshal sprint_other rev logger live _ lines); simpl;
    try exact I; try contradiction;
    destruct live; simpl; try exact I; destruct (closeGuarded rev); simpl; auto.
Qed.

Lemma split_of_sent sl sb r evs :
  split_of sl sb ->
  sent (evs) = sent (events sl) ++ [r] ->
  split_of {| messages := messages sl; events := evs |}
           {| messages := messages sb ++ [r]; events := events sb |}.
Proof.
  intros (H1 & H2 & H3) E. unfold split_of. simpl. rewrite E. repeat split.
  - apply sublist_app; [exact H1 | reflexivity].
  - apply sublist_inserts_r. exact H2.
  - rewrite H3. rewrite <- !app_assoc. apply Permutation_app_head.
    apply Permutation_app_comm.
Qed.

Lemma split_of_kept sl sb r :
  split_of sl sb ->
  split_of {| messages := messages sl ++ [r]; events := events sl |}
           {| messages := messages sb ++ [r]; events := events sb |}.
Proof.
  intros (H1 & H2 & H3). unfold split_of. simpl. repeat split.
  - apply sublist_inserts_r. exact H1.
  - apply sublist_app; [exact H2 | reflexivity].
  - rewrite H3. rewrite <- !app_assoc. reflexivity.
Qed.

Lemma split_of_logged sl sb ls ls' :
  split_of sl sb ->
  split_of {| messages := messages sl; events := events sl ++ map Logged ls |}
           {| messages := messages sb; events := events sb ++ map Logged ls' |}.
Proof.
  intros (H1 & H2 & H3). unfold split_of. simpl.
  rewrite sent_app, sent_Logged, app_nil_r. auto.
Qed.

Lemma scanLine_live_and_buffered rev sl sb line :
  split_of sl sb ->
  same_stop (scanLine unmarshal sprint_other rev logger true sl line)
            (scanLine unmarshal sprint_other rev logger false sb line).
Proof.
  intros H. unfold scanLine.
  destruct (String.eqb line "" || GoStr.HasPrefix line "event: "); [exact H |].
  destruct (negb (GoStr.HasPrefix line "data: ")); [exact H |].
  destruct (GoStr.Contains line (detailNeedle rev)); [split; [reflexivity | exact H] |].
  destruct (String.eqb (GoStr.TrimPrefix line "data: ") "[DONE]"); [exact H |].
  destruct (unmarshal (GoStr.TrimPrefix line "data: ")) as [parsedLine |]; [| exact H].
  destruct (negb (checkFields parsedLine)); [exact H |].
  destruct (asObject (Json.get parsedLine "message")) as [message |];
    [| split; [reflexivity | exact H]].
  destruct (asObject (Json.get message "content")) as [content |];
    [| split; [reflexivity | exact H]].
  destruct (asString (Json.get content "content_type")) as [t |]; simpl.
  - destruct (String.eqb t "text").
    + destruct (asArray (Json.get content "parts")) as [[| part parts] |];
        [exact H | | split; [reflexivity | exact H]].
      destruct (asString (Json.get parsedLine "conversation_id"));
        [| split; [reflexivity | exact H]].
      destruct (asString (Json.get message "id")); [| split; [reflexivity | exact H]].
      destruct (negb (String.eqb (Sprintf_v sprint_other part) "")); simpl.
      * apply split_of_sent; [exact H |]. simpl. rewrite sent_app. reflexivity.
      * apply split_of_kept. exact H.
    + apply split_of_logged. exact H.
  - apply split_of_logged. exact H.
Qed.

Lemma scanLoop_live_and_buffered rev lines : forall sl sb,
  split_of sl sb ->
  same_stop (scanLoop unmarshal sprint_other rev logger true sl lines)
            (scanLoop unmarshal sprint_other rev logger false sb lines).
Proof.
  induction lines as [| line lines IH]; intros sl sb H; [exact H |].
  simpl. pose proof (scanLine_live_and_buffered rev sl sb line H) as Hs.
  destruct (scanLine unmarshal sprint_other rev logger true sl line);
    destruct (scanLine unmarshal sprint_other rev logger false sb line);
    simpl in Hs; try contradiction; try exact Hs.
  apply IH. exact Hs.
Qed.

(** X10: Live against buffered decoding of the same lines, where the
    buffered run returns its frames (unnamed/part_000): the live run
    ends normally too; the frames it sends, in their order, and the
    frames it keeps, in their order, are taken from the buffered
    result, and together they are all of it. *)
Theorem live_frames_are_the_buffered_ones rev lines msgs :
  outcome (startScan unmarshal sprint_other rev logger false lines) = Ret msgs ->
  let live := startScan unmarshal sprint_other rev logger true lines in
  exists kept,
    outcome live = Ret kept
    /\ sublist (sent (effects live)) msgs
    /\ sublist kept msgs
    /\ Permutation msgs (sent (effects live) ++ kept).
Proof.
  cbv zeta. rewrite startScan_sent. unfold startScan.
  assert (H0 : split_of {| messages := []; events := [] |} {| messages := []; events := [] |}).
  { unfold split_of. simpl. repeat split; constructor. }
  pose proof (scanLoop_live_and_buffered rev lines _ _ H0) as Hs.
  destruct (scanLoop unmarshal sprint_other rev logger true _ lines) as [sl | sl | e sl | m sl];
    destruct (scanLoop unmarshal sprint_other rev logger false _ lines)
      as [sb | sb | e' sb | m' sb];
    simpl in Hs; try contradiction; simpl;
    try (destruct (closeGuarded rev); simpl; intros E; [| discriminate E];
         injection E as <-; exists (messages sl); split; [reflexivity | exact Hs]);
    intros E; discriminate E.
Qed.

End MoreStream.

Section MoreStreamInstances.

Import Rev Stream Streams.

(** An instance: two data lines after the sentinel, in the later
    revision. *)
Lemma sentinel_ends_the_stream_witness :
  startScan Json.Unmarshal no_other part_000 default_logger true
    (["event: x"] ++ "data: [DONE]" :: [lit "data: {'detail':'late'}"; "data: {}"])
  = startScan Json.Unmarshal no_other part_000 default_logger true ["event: x"].
Proof.
  exact (sentinel_ends_the_stream Json.Unmarshal no_other default_logger part_000 true
           ["event: x"] [lit "data: {'detail':'late'}"; "data: {}"] eq_refl).
Defined.

(** An instance: the lines of the stream of seven lines after the
    first. *)
Lemma decoder_panics_only_on_untyped_ids_witness :
  match outcome (startScan Json.Unmarshal no_other part_000 default_logger true
                   (tl (scanLines seven_lines))) with
  | Panic msg => true = false /\ closeGuarded part_000 = false /\ msg = "close of nil channel"
  | _ => True
  end.
Proof.
  apply (decoder_panics_only_on_untyped_ids Json.Unmarshal no_other default_logger
           part_000 true (tl (scanLines seven_lines))).
  vm_compute. reflexivity.
Defined.

(** An instance: a frame with text, then a frame with an empty part:
    the first is sent, the second kept. *)
Lemma live_frames_are_the_buffered_ones_witness :
  exists kept,
    outcome (startScan Json.Unmarshal no_other part_000 default_logger true text_then_empty)
    = Ret kept
    /\ sublist (sent (effects (startScan Json.Unmarshal no_other part_000 default_logger
                                 true text_then_empty)))
         [frame "c1" "m1" "Hi"; frame "c1" "m2" ""]
    /\ sublist kept [frame "c1" "m1" "Hi"; frame "c1" "m2" ""]
    /\ Permutation [frame "c1" "m1" "Hi"; frame "c1" "m2" ""]
         (sent (effects (startScan Json.Unmarshal no_other part_000 default_logger true
                           text_then_empty)) ++ kept).
Proof.
  apply (live_frames_are_the_buffered_ones Json.Unmarshal no_other default_logger part_000
           text_then_empty [frame "c1" "m1" "Hi"; frame "c1" "m2" ""]).
  vm_compute. reflexivity.
Defined.

End MoreStreamInstances.

(** ** The login handshake and the token *)

Section MoreAuth.

Import Chatgpt Scenario Facts.

Variable W : Type.
Variable send : W -> Request -> Reply * W.
Variable QueryEscape : string -> string.
Variable decodeEndpoint : string -> string + (string * string).
Variable decodeAuthResp : string -> string + authResp.

Ltac reply :=
  match goal with
  | |- context [send ?w ?req] =>
      let r := fresh "reply" in
      let w' := fresh "w" in
      destruct (send w req) as [r w'] eqn:?; destruct r as [? | ? |]; simpl
  end.

Lemma bind_Ret {A B : Type} (m : M W A) (k : A -> M W B) s b s' :
  bind W m k s = (Ret b, s') ->
  exists a s1, m s = (Ret a, s1) /\ k a s1 = (Ret b, s').
Proof.
  unfold bind. destruct (m s) as [[a | e | msg] s1]; intros H; try discriminate H.
  exists a, s1. auto.
Qed.

Lemma login_frame_refl (s : State W) : login_frame s s.
Proof.
  destruct s as [[a convs eng im bu px am ip lg] w d o].
  unfold login_frame. simpl. repeat split; reflexivity.
Qed.

Lemma login_frame_trans (s1 s2 s3 : State W) :
  login_frame s1 s2 -> login_frame s2 s3 -> login_frame s1 s3.
Proof.
  destruct s1 as [[a1 convs1 eng1 im1 bu1 px1 am1 ip1 lg1] w1 d1 o1].
  destruct s2 as [[a2 convs2 eng2 im2 bu2 px2 am2 ip2 lg2] w2 d2 o2].
  destruct s3 as [[a3 convs3 eng3 im3 bu3 px3 am3 ip3 lg3] w3 d3 o3].
  unfold login_frame, withAuth. simpl.
  intros (H1 & H2 & H3 & H4 & H5 & H6 & H7 & H8) (G1 & G2 & G3 & G4 & G5 & G6 & G7 & G8).
  injection H7 as <- <- <- <- <- <- <- <-. injection G7 as <- <- <- <- <- <- <- <-.
  repeat split; congruence.
Qed.

Lemma set_net_frame (w : W) (s : State W) : login_frame s (set_net w s).
Proof.
  destruct s as [[a convs eng im bu px am ip lg] w0 d o].
  unfold login_frame. simpl. repeat split; reflexivity.
Qed.

(** [stepTwo] and [stepThree] change nothing but the network. *)
Lemma stepTwo_net auth_url _email _password (s : State W) :
  exists w, snd (stepTwo send QueryEscape auth_url _email _password s) = set_net w s.
Proof.
  unfold stepTwo, bind, Do, check_post, fail, ret, panic, set_net. simpl.
  reply; eauto.
  destruct (StatusCode r =? 302); simpl; eauto.
  destruct (current_state_of (_url_prefix ++ Location r)); simpl; eauto.
  reply; eauto.
  destruct (StatusCode r0 =? 302); [| destruct (StatusCode r0 =? 400)]; simpl; eauto.
  reply; eauto.
  destruct (StatusCode r1 =? 302); [| destruct (StatusCode r1 =? 400)]; simpl; eauto.
  reply; eauto.
  destruct (StatusCode r2 =? 302); simpl; eauto.
Qed.

Lemma stepThree_net code_url (s : State W) :
  exists w, snd (stepThree send QueryEscape decodeAuthResp code_url s) = set_net w s.
Proof.
  unfold stepThree, bind, getAuth, Do, fail, ret, panic, set_net. simpl.
  reply; eauto.
  destruct (decodeAuthResp (RespBody r)); simpl; eauto.
Qed.

Lemma stepOne_state (s : State W) :
  exists w, snd (stepOne send decodeEndpoint s) = set_net w s
            \/ exists st, snd (stepOne send decodeEndpoint s)
                          = set_net w (set_authState st s).
Proof.
  unfold stepOne, bind, getAuth, setAuth, Do, fail, ret, panic, set_net, set_authState.
  simpl. reply; eauto.
  destruct (StatusCode r =? 200); simpl; eauto.
  destruct (decodeEndpoint (RespBody r)) as [e | [st url]]; simpl; eauto.
Qed.

(** X11: A login that goes through: [stepTwo] returns only after four
    exchanges, each answered 302: the request for the first redirect,
    the two form posts and the request for the last redirect.  Every
    request after the first carries the cookies of the first answer
    (those set by later answers are not sent), both forms carry the
    state of the first redirect, each address is the prefix with the
    Location of the answer before, and the result is the Location of
    the last answer.  Nothing but the network has changed. *)
Theorem stepTwo_success_trace
    (c : Client) (w : W) (d : Disk) (o : list string)
    (auth_url _email _password code_url : string) :
  let s := {| client := c; net := (w, @nil (Request * Reply)); disk := d; out := o |} in
  let run := stepTwo (logged send) QueryEscape auth_url _email _password s in
  fst run = Ret code_url ->
  exists r1 r2 r3 r4 st,
    snd (net (snd run))
    = [ (get auth_url [], Answer r1);
        (post (_url_prefix ++ Location r1)%string
           (username_form QueryEscape st _email) (SetCookies r1), Answer r2);
        (post (_url_prefix ++ Location r2)%string
           (password_form QueryEscape st _email _password) (SetCookies r1), Answer r3);
        (get (_url_prefix ++ Location r3)%string (SetCookies r1), Answer r4) ]
    /\ Forall (fun r => StatusCode r = 302) [r1; r2; r3; r4]
    /\ current_state_of (_url_prefix ++ Location r1)%string = Some st
    /\ code_url = Location r4
    /\ client (snd run) = c /\ disk (snd run) = d /\ out (snd run) = o.
Proof.
  cbv zeta.
  unfold stepTwo, bind, Do, logged, check_post, fail, ret, panic. simpl.
  reply; try discriminate.
  destruct (Z.eqb_spec (StatusCode r) 302) as [E1 | E1]; simpl; [| discriminate].
  destruct (current_state_of (_url_prefix ++ Location r)) as [st |] eqn:Est; simpl;
    [| discriminate].
  reply; try discriminate.
  destruct (Z.eqb_spec (StatusCode r0) 302) as [E2 | E2];
    [| destruct (StatusCode r0 =? 400)]; simpl; try discriminate.
  reply; try discriminate.
  destruct (Z.eqb_spec (StatusCode r1) 302) as [E3 | E3];
    [| destruct (StatusCode r1 =? 400)]; simpl; try discriminate.
  reply; try discriminate.
  destruct (Z.eqb_spec (StatusCode r2) 302) as [E4 | E4]; simpl; [| discriminate].
  intros H. injection H as <-.
  exists r, r0, r1, r2, st.
  split; [reflexivity |]. split; [repeat constructor; assumption |].
  split; [exact Est |]. repeat split; reflexivity.
Qed.

(** X12: [stepTwo] panics on its first exchange and nowhere else, as long
    as its requests can be built: when the request for the first
    redirect gets no answer (the cookies of the nil response are read
    before the error is looked at), and when the Location of the
    first redirect holds no state parameter (the second piece of the
    split does not exist).  A failure of a later exchange is
    returned as an error. *)
Theorem stepTwo_panics_on_the_first_exchange_only
    (s : State W) (auth_url _email _password : string) :
  (forall w req, fst (send w req) <> BadRequest) ->
  (exists msg, fst (stepTwo send QueryEscape auth_url _email _password s) = Panic msg)
  <-> match fst (send (net s) (get auth_url [])) with
      | Answer r =>
          StatusCode r = 302
          /\ current_state_of (_url_prefix ++ Location r)%string = None
      | _ => True
      end.
Proof.
  intros Hreq.
  unfold stepTwo, bind, Do, check_post, fail, ret, panic. simpl.
  reply; [| split; eauto | split; eauto].
  destruct (Z.eqb_spec (StatusCode r) 302) as [E1 | E1]; simpl;
    [| split; [intros [msg H]; discriminate H | intros [H _]; contradiction]].
  destruct (current_state_of (_url_prefix ++ Location r)) as [st |] eqn:Est; simpl;
    [| split; eauto].
  split; [| intros [_ H]; discriminate H].
  intros [msg H]. exfalso. revert H.
  match goal with
  | |- context [send ?w ?req] =>
      pose proof (Hreq w req) as Hb; destruct (send w req) as [[? | ? |] ?]; simpl in *
  end; try discriminate; try (contradiction Hb; reflexivity).
  destruct (StatusCode r0 =? 302); [| destruct (StatusCode r0 =? 400)]; simpl;
    try discriminate.
  match goal with
  | |- context [send ?w ?req] =>
      pose proof (Hreq w req) as Hb'; destruct (send w req) as [[? | ? |] ?]; simpl in *
  end; try discriminate; try (contradiction Hb'; reflexivity).
  destruct (StatusCode r1 =? 302); [| destruct (StatusCode r1 =? 400)]; simpl;
    try discriminate.
  match goal with
  | |- context [send ?w ?req] =>
      pose proof (Hreq w req) as Hb''; destruct (send w req) as [[? | ? |] ?]; simpl in *
  end; try discriminate; try (contradiction Hb''; reflexivity).
  destruct (StatusCode r2 =? 302); simpl; discriminate.
Qed.

Lemma frame_bind {A B : Type} (m : M W A) (k : A -> M W B) (s : State W) :
  login_frame s (snd (m s)) ->
  (forall a s1, m s = (Ret a, s1) -> login_frame s1 (snd (k a s1))) ->
  login_frame s (snd (bind W m k s)).
Proof.
  intros Hm Hk. unfold bind.
  destruct (m s) as [[a | e | msg] s1] eqn:E; simpl in *; try exact Hm.
  exact (login_frame_trans _ _ _ Hm (Hk a s1 eq_refl)).
Qed.

Lemma set_auth_frame (s : State W) (token st : string) (exp : Z) :
  login_frame s (set_auth (withToken (auth (client s)) token exp) s)
  /\ login_frame s (set_authState st s).
Proof.
  destruct s as [[a convs eng im bu px am ip lg] w d o].
  unfold login_frame. simpl. repeat split; reflexivity.
Qed.

Lemma loadCachedAccessToken_state (s : State W) :
  loadCachedAccessToken s = (Ret tt, s)
  \/ exists m cache,
       file (disk s) = Some (Mapping m) /\ canOpen (disk s) = true
       /\ m !! sessionName (auth (client s)) = Some cache
       /\ loadCachedAccessToken s
          = (Ret tt, set_auth (withToken (auth (client s)) (AccessToken cache)
                                 (Expires cache)) s).
Proof.
  unfold loadCachedAccessToken, bind, getAuth, getDisk, setAuth, ret, set_auth. simpl.
  destruct (file (disk s)) as [[m | | stored] |] eqn:Ef; auto;
    destruct (canOpen (disk s)) eqn:Eo; simpl; auto.
  destruct (m !! sessionName (auth (client s))) as [cache |] eqn:Em; auto.
  right. exists m, cache. auto.
Qed.

Lemma loadCachedAccessToken_frame (s : State W) :
  login_frame s (snd (loadCachedAccessToken s)).
Proof.
  destruct (loadCachedAccessToken_state s) as [-> | (m & cache & _ & _ & _ & ->)]; simpl.
  - apply login_frame_refl.
  - apply set_auth_frame; exact "".
Qed.

Lemma cacheAccessToken_frame (s : State W) :
  login_frame s (snd (cacheAccessToken s)).
Proof.
  destruct s as [[a convs eng im bu px am ip lg] w d o].
  unfold cacheAccessToken, bind, getAuth, getDisk, setDisk, fail, login_frame. simpl.
  destruct (canCreate d); simpl; repeat split; reflexivity.
Qed.

Lemma stepOne_frame (s : State W) : login_frame s (snd (stepOne send decodeEndpoint s)).
Proof.
  destruct (stepOne_state s) as [w [-> | [st ->]]].
  - apply set_net_frame.
  - apply (login_frame_trans _ (set_authState st s)); [| apply set_net_frame].
    apply set_auth_frame; [exact "" | exact 0].
Qed.

Lemma stepTwo_frame auth_url _email _password (s : State W) :
  login_frame s (snd (stepTwo send QueryEscape auth_url _email _password s)).
Proof.
  destruct (stepTwo_net auth_url _email _password s) as [w ->]. apply set_net_frame.
Qed.

Lemma stepThree_frame code_url (s : State W) :
  login_frame s (snd (stepThree send QueryEscape decodeAuthResp code_url s)).
Proof.
  destruct (stepThree_net code_url s) as [w ->]. apply set_net_frame.
Qed.

Lemma GetAccessToken_keeps (now : Z) (s : State W) :
  login_frame s (snd (GetAccessToken send QueryEscape decodeEndpoint decodeAuthResp now s)).
Proof.
  unfold GetAccessToken.
  apply frame_bind; [apply login_frame_refl |]. intros a s1 E. injection E as <- <-.
  apply frame_bind.
  { destruct (enableCache (auth (client s)));
      [apply loadCachedAccessToken_frame | apply login_frame_refl]. }
  intros _ s1 _. clear s. rename s1 into s.
  apply frame_bind; [apply login_frame_refl |]. intros a s1 E. injection E as <- <-.
  destruct (negb (String.eqb (accessToken (auth (client s))) "")
            && (now <? expires (auth (client s)))); [apply login_frame_refl |].
  destruct (String.eqb (email (auth (client s))) ""
            || String.eqb (password (auth (client s))) ""); [apply login_frame_refl |].
  apply frame_bind; [apply stepOne_frame |]. intros callback_url s1 _.
  apply frame_bind; [apply stepTwo_frame |]. intros code_url s2 _.
  apply frame_bind; [apply stepThree_frame |]. intros resp s3 _.
  apply frame_bind; [apply login_frame_refl |]. intros a s4 E. injection E as <- <-.
  apply frame_bind; [apply set_auth_frame; exact "" |]. intros _ s4 _.
  apply frame_bind; [| intros _ s5 _; apply login_frame_refl].
  destruct (enableCache (auth (client s3))); [| apply login_frame_refl].
  pose proof (cacheAccessToken_frame s4) as H.
  destruct (cacheAccessToken s4) as [[[] | e | msg] s5]; exact H.
Qed.

Lemma stepOne_disk (s : State W) : disk (snd (stepOne send decodeEndpoint s)) = disk s.
Proof. destruct (stepOne_state s) as [w [-> | [st ->]]]; reflexivity. Qed.

Lemma stepTwo_disk auth_url _email _password (s : State W) :
  disk (snd (stepTwo send QueryEscape auth_url _email _password s)) = disk s.
Proof. destruct (stepTwo_net auth_url _email _password s) as [w ->]. reflexivity. Qed.

Lemma stepThree_disk code_url (s : State W) :
  disk (snd (stepThree send QueryEscape decodeAuthResp code_url s)) = disk s.
Proof. destruct (stepThree_net code_url s) as [w ->]. reflexivity. Qed.

Lemma loadCachedAccessToken_disk (s : State W) :
  disk (snd (loadCachedAccessToken s)) = disk s.
Proof.
  destruct (loadCachedAccessToken_state s) as [-> | (m & cache & _ & _ & _ & ->)];
    reflexivity.
Qed.

(** Loading the cache a second time changes nothing. *)
Lemma loadCachedAccessToken_twice (s : State W) :
  loadCachedAccessToken (snd (loadCachedAccessToken s))
  = (Ret tt, snd (loadCachedAccessToken s)).
Proof.
  destruct (loadCachedAccessToken_state s) as [E | (m & cache & Ef & Eo & Em & E)];
    rewrite E; simpl; [exact E |].
  unfold loadCachedAccessToken, bind, getAuth, getDisk, setAuth, ret, set_auth. simpl.
  rewrite Ef, Eo. simpl. rewrite Em. reflexivity.
Qed.

Lemma login_frame_disk_trans (s1 s2 s3 : State W) :
  login_frame_disk s1 s2 -> login_frame_disk s2 s3 -> login_frame_disk s1 s3.
Proof.
  intros [F1 D1] [F2 D2]. split; [exact (login_frame_trans _ _ _ F1 F2) |].
  intros H. rewrite D2, D1; [reflexivity | exact H |].
  destruct F1 as (_ & _ & _ & E & _). rewrite E. exact H.
Qed.

Lemma frame_disk_bind {A B : Type} (m : M W A) (k : A -> M W B) (s : State W) :
  login_frame_disk s (snd (m s)) ->
  (forall a s1, m s = (Ret a, s1) -> login_frame_disk s1 (snd (k a s1))) ->
  login_frame_disk s (snd (bind W m k s)).
Proof.
  intros Hm Hk. unfold bind.
  destruct (m s) as [[a | e | msg] s1] eqn:E; simpl in *; try exact Hm.
  exact (login_frame_disk_trans _ _ _ Hm (Hk a s1 eq_refl)).
Qed.

Lemma login_frame_disk_refl (s : State W) : login_frame_disk s s.
Proof. split; [apply login_frame_refl | reflexivity]. Qed.

(** X13: What [GetAccessToken] never touches, whatever its outcome: the
    email, the password, the API key, the session name, the cache
    switch and the started mark of the credentials, every other
    field of the client (conversations, engine, mode and the rest),
    and the log: it writes [accessToken], [expires] and [authState]
    only.  When the cache is not in use, the cache file is left alone
    as well. *)
Theorem GetAccessToken_frame (now : Z) (s : State W) :
  let s' := snd (GetAccessToken send QueryEscape decodeEndpoint decodeAuthResp now s) in
  login_frame s s'
  /\ (enableCache (auth (client s)) = false -> disk s' = disk s).
Proof.
  cbv zeta.
  change (login_frame_disk s
            (snd (GetAccessToken send QueryEscape decodeEndpoint decodeAuthResp now s))).
  unfold GetAccessToken.
  apply frame_disk_bind; [apply login_frame_disk_refl |].
  intros a s1 E. injection E as <- <-.
  apply frame_disk_bind.
  { split; [| intros ->; reflexivity].
    destruct (enableCache (auth (client s)));
      [apply loadCachedAccessToken_frame | apply login_frame_refl]. }
  intros _ s1 _. clear s. rename s1 into s.
  apply frame_disk_bind; [apply login_frame_disk_refl |].
  intros a s1 E. injection E as <- <-.
  destruct (negb (String.eqb (accessToken (auth (client s))) "")
            && (now <? expires (auth (client s)))); [apply login_frame_disk_refl |].
  destruct (String.eqb (email (auth (client s))) ""
            || String.eqb (password (auth (client s))) ""); [apply login_frame_disk_refl |].
  apply frame_disk_bind;
    [split; [apply stepOne_frame | intros _; apply stepOne_disk] |].
  intros callback_url s1 _.
  apply frame_disk_bind;
    [split; [apply stepTwo_frame | intros _; apply stepTwo_disk] |].
  intros code_url s2 _.
  apply frame_disk_bind;
    [split; [apply stepThree_frame | intros _; apply stepThree_disk] |].
  intros resp s3 _.
  apply frame_disk_bind; [apply login_frame_disk_refl |].
  intros a s4 E. injection E as <- <-.
  apply frame_disk_bind;
    [split; [apply set_auth_frame; exact "" | reflexivity] |].
  intros [] s4 E. injection E as <-.
  apply frame_disk_bind; [| intros _ s5 _; apply login_frame_disk_refl].
  split.
  - destruct (enableCache (auth (client s3))); [| apply login_frame_refl].
    match goal with
    | |- login_frame ?x _ =>
        pose proof (cacheAccessToken_frame x) as H;
        destruct (cacheAccessToken x) as [[[] | e | msg] s5]; exact H
    end.
  - simpl. intros ->. reflexivity.
Qed.

(** The token that [stepThree] returns is valid UTF-8. *)
Lemma stepThree_valid code_url (s s' : State W) (resp : authResp) :
  stepThree send QueryEscape decodeAuthResp code_url s = (Ret resp, s') ->
  Utf8.coerce (r_AccessToken resp) = r_AccessToken resp.
Proof.
  unfold stepThree, bind, getAuth, Do, fail, ret, panic. simpl.
  destruct (send (net s) _) as [[r | e |] w]; simpl; try discriminate.
  destruct (decodeAuthResp (RespBody r)); simpl; [discriminate |].
  intros E. injection E as <- _. simpl. apply coerce_coerce.
Qed.

(** With a token in memory that has not expired, and a cache that
    holds nothing else for the session, [GetAccessToken] returns the
    token and leaves the state as it is: no request is sent. *)
Lemma GetAccessToken_settled (now : Z) (s : State W) :
  (if enableCache (auth (client s)) then loadCachedAccessToken else ret W tt) s
  = (Ret tt, s) ->
  accessToken (auth (client s)) <> "" ->
  now < expires (auth (client s)) ->
  GetAccessToken send QueryEscape decodeEndpoint decodeAuthResp now s
  = (Ret (accessToken (auth (client s))), s).
Proof.
  intros Hl Ht He. unfold GetAccessToken.
  unfold bind at 1. unfold getAuth at 1. cbv beta iota.
  unfold bind at 1. rewrite Hl. cbv beta iota.
  unfold bind at 1. unfold getAuth at 1. cbv beta iota.
  rewrite (eqb_empty_false _ Ht). apply Z.ltb_lt in He. rewrite He. reflexivity.
Qed.

(** X14: After [GetAccessToken] has returned a token, by the cache or by a
    login, a second call before the expiry returns the same token and
    changes nothing: no request is sent.  (When the cache is in use
    the file must be writable: a login whose token cannot be stored
    leaves the old file, which the next call loads over the new
    token.) *)
Theorem GetAccessToken_again (now now' : Z) (s : State W) (token : string) :
  (enableCache (auth (client s)) = true -> canCreate (disk s) = true) ->
  fst (GetAccessToken send QueryEscape decodeEndpoint decodeAuthResp now s) = Ret token ->
  token <> "" ->
  let s' := snd (GetAccessToken send QueryEscape decodeEndpoint decodeAuthResp now s) in
  now' < expires (auth (client s')) ->
  GetAccessToken send QueryEscape decodeEndpoint decodeAuthResp now' s' = (Ret token, s').
Proof.
  intros Hc Hret Htok. cbv zeta.
  destruct (GetAccessToken send QueryEscape decodeEndpoint decodeAuthResp now s)
    as [r s'] eqn:E.
  simpl in *. subst r. intros Hexp.
  assert (H : accessToken (auth (client s')) = token
              /\ (if enableCache (auth (client s')) then loadCachedAccessToken
                  else ret W tt) s' = (Ret tt, s')).
  { revert E. unfold GetAccessToken. intros E.
    apply bind_Ret in E as (a & s0 & E0 & E). injection E0 as <- <-.
    apply bind_Ret in E as ([] & s1 & El & E).
    apply bind_Ret in E as (a1 & s1' & E0 & E). injection E0 as <- <-.
    assert (Hcache1 : enableCache (auth (client s1)) = enableCache (auth (client s))).
    { destruct (enableCache (auth (client s))) eqn:Ec.
      - pose proof (loadCachedAccessToken_frame s) as F. rewrite El in F; simpl in F.
        destruct F as (_ & _ & _ & F & _). rewrite F. exact Ec.
      - injection El as <-. exact Ec. }
    assert (Hdisk1 : disk s1 = disk s).
    { destruct (enableCache (auth (client s))).
      - pose proof (loadCachedAccessToken_disk s) as F. rewrite El in F; simpl in F. exact F.
      - injection El as <-. reflexivity. }
    destruct (negb (String.eqb (accessToken (auth (client s1))) "")
              && (now <? expires (auth (client s1)))).
    - injection E as <- <-. split; [reflexivity |].
      rewrite Hcache1. destruct (enableCache (auth (client s))).
      + pose proof (loadCachedAccessToken_twice s) as F. rewrite El in F; simpl in F. exact F.
      + reflexivity.
    - destruct (String.eqb (email (auth (client s1))) ""
                || String.eqb (password (auth (client s1))) ""); [discriminate E |].
      apply bind_Ret in E as (cb & s2 & E1 & E).
      apply bind_Ret in E as (code & s3 & E2 & E).
      apply bind_Ret in E as (resp & s4 & E3 & E).
      apply bind_Ret in E as (a4 & s4' & E0 & E). injection E0 as <- <-.
      apply bind_Ret in E as ([] & s5 & E5 & E). injection E5 as <-.
      apply bind_Ret in E as ([] & s6 & E6 & E). injection E as <- <-.
      assert (Hcache4 : enableCache (auth (client s4)) = enableCache (auth (client s))).
      { pose proof (stepOne_frame s1) as F1. rewrite E1 in F1; simpl in F1.
        pose proof (stepTwo_frame cb (email (auth (client s1)))
                      (password (auth (client s1))) s2) as F2. rewrite E2 in F2; simpl in F2.
        pose proof (stepThree_frame code s3) as F3. rewrite E3 in F3; simpl in F3.
        destruct F1 as (_ & _ & _ & F1 & _). destruct F2 as (_ & _ & _ & F2 & _).
        destruct F3 as (_ & _ & _ & F3 & _). simpl in *. congruence. }
      assert (Hdisk4 : disk s4 = disk s).
      { pose proof (stepOne_disk s1) as F1. rewrite E1 in F1; simpl in F1.
        pose proof (stepTwo_disk cb (email (auth (client s1)))
                      (password (auth (client s1))) s2) as F2. rewrite E2 in F2; simpl in F2.
        pose proof (stepThree_disk code s3) as F3. rewrite E3 in F3; simpl in F3.
        simpl in *. congruence. }
      revert E6. rewrite Hcache4.
      destruct (enableCache (auth (client s))) eqn:Ec.
      + specialize (Hc eq_refl). rewrite <- Hdisk4 in Hc.
        unfold cacheAccessToken, bind, getAuth, getDisk, setDisk, fail. simpl.
        rewrite Hc. simpl. intros E6. injection E6 as <-. simpl.
        split; [reflexivity |]. rewrite Hcache4.
        unfold loadCachedAccessToken, bind, getAuth, getDisk, setAuth, ret. simpl.
        destruct (canOpen (disk s4)); simpl; [| reflexivity].
        pose proof (stepThree_valid _ _ _ _ E3) as Hv.
        match goal with
        | |- context [reread ?k (<[?k := ?v]> ?m) !! ?k] =>
            destruct (reread_lookup k v m) as [-> | ->]; [reflexivity |]
        end.
        simpl. rewrite Hv. reflexivity.
      + intros E6. injection E6 as <-. simpl. rewrite Hcache4. split; reflexivity. }
  destruct H as [<- Hl].
  apply GetAccessToken_settled; assumption.
Qed.

(** *** [Start] *)

Local Arguments String.eqb : simpl never.

Lemma kept_bind {A B : Type} (m : M W A) (k : A -> M W B) (s : State W) :
  started (snd (m s)) = started s ->
  (forall a s1, m s = (Ret a, s1) -> started (snd (k a s1)) = started s1) ->
  started (snd (bind W m k s)) = started s.
Proof.
  intros Hm Hk. unfold bind.
  destruct (m s) as [[a | e | msg] s1] eqn:E; simpl in *; try exact Hm.
  rewrite (Hk a s1 eq_refl). exact Hm.
Qed.

Lemma login_frame_started (s s' : State W) : login_frame s s' -> started s' = started s.
Proof. intros (_ & _ & _ & _ & H & _). exact H. Qed.

Lemma checkCredentials_state (s : State W) : snd (checkCredentials s) = s.
Proof.
  unfold checkCredentials, bind, getAuth, fail, ret. simpl.
  destruct (_ && _ && _); [reflexivity |]. destruct (_ || _); reflexivity.
Qed.

(** The part of [Start] that pings the proxy. *)
Lemma proxy_part_client (s : State W) :
  client (snd ((match proxy (client s) with
                | Some _ => bind W (pingProxy send) (fun _ => Debug W "Proxy server is alive")
                | None => ret W tt
                end) s)) = client s.
Proof.
  destruct (proxy (client s)) as [p |] eqn:Ep; [| reflexivity].
  unfold pingProxy, Debug, bind, getClient, Do, write, fail, ret. simpl. rewrite Ep.
  destruct (send (net s) _) as [[r | e |] w]; reflexivity.
Qed.

(** The three branches of [Start], from the credentials [a] that the
    branch tests. *)
Lemma branch_started (now : Z) (a : Auth) (s : State W) :
  started
    (snd ((if negb (String.eqb (apiKey a) "") then
             bind W (getClient W) (fun c =>
             bind W (setClient W (withMode c ApiKeyMode)) (fun _ =>
             Info W "Starting client with API key Authentication"))
           else if negb (String.eqb (accessToken a) "") then
             bind W (getClient W) (fun c =>
             bind W (setClient W (withMode c AccessTokenMode)) (fun _ =>
             bind W (if enableCache a then cacheAccessToken else ret W tt) (fun _ =>
             bind W (Info W "Starting client with access token Authentication") (fun _ =>
             use_free_engine W))))
           else if negb (String.eqb (email a) "") && negb (String.eqb (password a) "") then
             bind W (Info W "Starting client with email and password Authentication")
               (fun _ =>
             bind W (GetAccessToken send QueryEscape decodeEndpoint decodeAuthResp now)
               (fun accessToken =>
             bind W (Info W "Successfully authenticated with OpenAI") (fun _ =>
             bind W (getAuth W) (fun a =>
             bind W (setAuth W (withToken a accessToken (expires a))) (fun _ =>
             bind W (getClient W) (fun c =>
             bind W (setClient W (withMode c AccessTokenMode)) (fun _ =>
             use_free_engine W)))))))
           else ret W tt) s))
  = started s.
Proof.
  destruct (negb (String.eqb (apiKey a) "")).
  { unfold Info, bind, getClient, setClient, write, started. reflexivity. }
  destruct (negb (String.eqb (accessToken a) "")).
  { unfold started.
    unfold Info, use_free_engine, Debug, cacheAccessToken, bind, getClient, setClient,
      getAuth, getDisk, setDisk, write, fail, ret. simpl.
    destruct (enableCache a); simpl; [destruct (canCreate (disk s)); simpl |];
      destruct (ispaid (client s)); reflexivity. }
  destruct (negb (String.eqb (email a) "") && negb (String.eqb (password a) ""));
    [| reflexivity].
  apply kept_bind; [reflexivity |]. intros [] s1 E. injection E as <-.
  apply kept_bind; [apply login_frame_started, GetAccessToken_keeps |].
  intros tok s2 _.
  unfold started, Info, use_free_engine, Debug, bind, getClient, setClient, getAuth,
    setAuth, write, ret. simpl.
  destruct (ispaid (client s2)); reflexivity.
Qed.

Lemma marked_bind {A : Type} (m : M W A) (k : A -> M W unit) (s : State W) :
  started (snd (m s)) = started s ->
  (forall a s1, m s = (Ret a, s1) ->
     started (snd (k a s1)) = match fst (k a s1) with
                              | Ret _ => true
                              | _ => started s1
                              end) ->
  started (snd (bind W m k s)) = match fst (bind W m k s) with
                                 | Ret _ => true
                                 | _ => started s
                                 end.
Proof.
  intros Hm Hk. unfold bind.
  destruct (m s) as [[a | e | msg] s1] eqn:E; simpl in *; try exact Hm.
  rewrite (Hk a s1 eq_refl). rewrite Hm. reflexivity.
Qed.

Lemma Start_started_mark (now : Z) (s : State W) :
  let run := Start send QueryEscape decodeEndpoint decodeAuthResp now s in
  started (snd run) = match fst run with
                      | Ret _ => true
                      | _ => started s
                      end.
Proof.
  cbv zeta. unfold Start.
  apply marked_bind; [apply login_frame_started, loadCachedAccessToken_frame |].
  intros _ s1 _.
  apply marked_bind; [rewrite checkCredentials_state; reflexivity |].
  intros _ s2 _.
  apply marked_bind; [reflexivity |]. intros c s3 E. injection E as <- <-.
  apply marked_bind; [unfold started; rewrite proxy_part_client; reflexivity |].
  intros _ s3 _.
  apply marked_bind; [reflexivity |]. intros a s4 E. injection E as <- <-.
  apply marked_bind; [apply branch_started |].
  intros _ s4 _. reflexivity.
Qed.

Lemma checkCredentials_Ret (s s' : State W) :
  checkCredentials s = (Ret tt, s') ->
  s' = s
  /\ String.eqb (apiKey (auth (client s))) ""
     && (String.eqb (email (auth (client s))) ""
         || String.eqb (password (auth (client s))) "")
     && String.eqb (accessToken (auth (client s))) "" = false.
Proof.
  unfold checkCredentials, bind, getAuth, fail, ret. simpl.
  destruct (_ && _ && _); [discriminate |]. destruct (_ || _); [discriminate |].
  intros E. injection E as <-. auto.
Qed.

Lemma login_frame_client (s s' : State W) :
  login_frame s s' ->
  engine (client s') = engine (client s) /\ ispaid (client s') = ispaid (client s)
  /\ authmode (client s') = authmode (client s)
  /\ apiKey (auth (client s')) = apiKey (auth (client s)).
Proof.
  intros (_ & _ & H3 & _ & _ & _ & H7 & _). rewrite <- H7. simpl. auto.
Qed.

(** X15: When [Start] returns without error: with an API key the client
    is in API-key mode and keeps its engine; without one it is in
    access-token mode, and its engine is the one configured only for
    a paid account: otherwise [Start] replaces it by the free
    engine. *)
Theorem Start_mode_and_engine (now : Z) (s : State W) :
  let run := Start send QueryEscape decodeEndpoint decodeAuthResp now s in
  fst run = Ret tt ->
  let c := client s in
  let c' := client (snd run) in
  (apiKey (auth c) <> "" -> authmode c' = ApiKeyMode /\ engine c' = engine c)
  /\ (apiKey (auth c) = "" ->
      authmode c' = AccessTokenMode
      /\ engine c' = if ispaid c then engine c else "text-davinci-002-render-sha").
Proof.
  cbv zeta.
  destruct (Start send QueryEscape decodeEndpoint decodeAuthResp now s) as [r s'] eqn:E.
  simpl. intros ->. unfold Start in E.
  apply bind_Ret in E as ([] & s1 & El & E).
  apply bind_Ret in E as ([] & s2 & Ec & E).
  apply checkCredentials_Ret in Ec as [-> Hcred].
  apply bind_Ret in E as (c & s2 & E0 & E). injection E0 as <- <-.
  apply bind_Ret in E as ([] & s3 & Ep & E).
  pose proof (proxy_part_client s1) as Hp. rewrite Ep in Hp. simpl in Hp.
  apply bind_Ret in E as (a & s4 & E0 & E). injection E0 as <- <-.
  apply bind_Ret in E as ([] & s4 & Eb & E).
  apply bind_Ret in E as (a & s5 & E0 & E). injection E0 as <- <-.
  injection E as <-. simpl.
  pose proof (login_frame_client _ _ (loadCachedAccessToken_frame s)) as Hl.
  rewrite El in Hl. simpl in Hl. destruct Hl as (Heng & Hpaid & _ & Hkey).
  rewrite <- Heng, <- Hpaid, <- Hkey, <- Hp. rewrite <- Hp in Hcred. clear Heng Hpaid Hkey Hp.
  revert Eb.
  destruct (String.eqb_spec (apiKey (auth (client s3))) "") as [Ek | Ek]; simpl.
  - destruct (String.eqb_spec (accessToken (auth (client s3))) "") as [Et | Et]; simpl.
    + rewrite andb_true_r in Hcred. simpl in Hcred.
      apply orb_false_iff in Hcred as [-> ->]. simpl.
      intros Eb.
      apply bind_Ret in Eb as ([] & s5 & Ei & Eb).
      apply bind_Ret in Eb as (tok & s6 & Eg & Eb).
      pose proof (login_frame_client _ _
                    (GetAccessToken_keeps now s5)) as Hg.
      rewrite Eg in Hg. simpl in Hg. destruct Hg as (Heng & Hpaid & _ & _).
      unfold Info, bind, getClient, write in Ei. simpl in Ei. injection Ei as <-.
      simpl in Heng, Hpaid.
      revert Eb. unfold Info, use_free_engine, Debug, bind, getClient, setClient, getAuth,
        setAuth, write, ret. simpl. rewrite Hpaid.
      destruct (ispaid (client s3)); simpl; intros Eb; injection Eb as <-; simpl;
        (split; [intros H; contradiction | intros _; auto]).
    + unfold Info, use_free_engine, Debug, cacheAccessToken, bind, getClient, setClient,
        getAuth, getDisk, setDisk, write, fail, ret. simpl.
      destruct (enableCache (auth (client s3))); simpl;
        [destruct (canCreate (disk s3)); simpl; [| discriminate] |];
        destruct (ispaid (client s3)); simpl; intros Eb; injection Eb as <-; simpl;
        (split; [intros H; contradiction | intros _; auto]).
  - unfold Info, bind, getClient, setClient, write. simpl.
    intros Eb. injection Eb as <-. simpl.
    split; [intros _; auto | intros H; contradiction].
Qed.

(** X16: [Start] loads the cache file whether or not the cache is in use,
    and takes a token it finds there for the session without
    comparing its expiry with the clock: for a client without API
    key, whatever the time, it starts in access-token mode with the
    cached token and sends no request, also when email and password
    are configured. *)
Theorem Start_takes_the_cached_token
    (now : Z) (s : State W) (m : gmap string authCache) (cache : authCache) :
  file (disk s) = Some (Mapping m) ->
  canOpen (disk s) = true ->
  m !! sessionName (auth (client s)) = Some cache ->
  AccessToken cache <> "" ->
  apiKey (auth (client s)) = "" ->
  proxy (client s) = None ->
  (email (auth (client s)) = "" <-> password (auth (client s)) = "") ->
  (enableCache (auth (client s)) = true -> canCreate (disk s) = true) ->
  let run := Start send QueryEscape decodeEndpoint decodeAuthResp now s in
  fst run = Ret tt
  /\ net (snd run) = net s
  /\ authmode (client (snd run)) = AccessTokenMode
  /\ accessToken (auth (client (snd run))) = AccessToken cache
  /\ expires (auth (client (snd run))) = Expires cache.
Proof.
  destruct s as [[a convs eng im bu px am ip lg] w [f op cr] o]. simpl.
  intros -> -> Hm Htok Hkey -> Hep Hc.
  unfold Start, loadCachedAccessToken, checkCredentials, use_free_engine, Info, Debug,
    cacheAccessToken.
  unfold bind, getAuth, getDisk, getClient, setClient, setAuth, setDisk, write, ret, fail.
  pose proof (eqb_empty_false _ Htok) as Et.
  assert (Hcases : (String.eqb (email a) "" = true /\ String.eqb (password a) "" = true)
                   \/ (String.eqb (email a) "" = false
                       /\ String.eqb (password a) "" = false)).
  { destruct (String.eqb_spec (email a) "") as [He | He];
      destruct (String.eqb_spec (password a) "") as [Hp | Hp]; auto; exfalso; tauto. }
  destruct Hcases as [[Ee Ep] | [Ee Ep]];
    repeat progress (simpl; rewrite ?Hm, ?Hkey, ?Et, ?Ee, ?Ep);
    (destruct (enableCache a) eqn:Ec;
     [rewrite (Hc eq_refl) |];
     destruct ip; repeat progress (simpl; rewrite ?Hm, ?Hkey, ?Et, ?Ee, ?Ep);
     repeat split; reflexivity).
Qed.

End MoreAuth.

Section MoreSession.

Import Chatgpt Scenario Facts.

Variable W : Type.
Variable send : W -> Request -> Reply * W.
Variable QueryEscape : string -> string.
Variable decodeEndpoint : string -> string + (string * string).
Variable decodeAuthResp : string -> string + authResp.
Variable decodeOpenAIResponse : string -> string + OpenAIResponse.
Variable decodeOpenAIError : string -> string + (string * Z).
Variable marshalPayload : string -> list Conv.Message -> string.
Variable rev : Rev.t.
Variable range range' : list (string * Z).
Variable askWithAccessToken : string -> list AskOpts -> M W Stream.ChatResponse.
Variable unmarshal : string -> option (list (string * Json.Value)).
Variable sprint_other : Json.Value -> string.
Variable marshalData : Access.Data -> string.
Variable arev : Access.t.

(** X17: [Start] marks the client as started when it returns without
    error, and only then: after an error or a panic the mark is what
    it was.  As long as the mark is not set, [Ask] and [AskStream]
    refuse with an error, send nothing and change nothing: so a
    client whose [Start] has failed cannot be used. *)
Theorem Start_marks_started_only_on_success
    (now : Z) (s : State W) (random1 random2 : option (list ascii))
    (prompt : string) (askOpts : list AskOpts) :
  let run := Start send QueryEscape decodeEndpoint decodeAuthResp now s in
  started (snd run) = match fst run with
                      | Ret _ => true
                      | _ => started s
                      end
  /\ (started (snd run) = false ->
      Ask send decodeOpenAIResponse decodeOpenAIError marshalPayload rev range range'
        askWithAccessToken prompt askOpts (snd run)
      = (Fail (Errorf "client is not started, call Start() first" []), snd run)
      /\ Access.AskStream send unmarshal sprint_other marshalData arev random1 random2
           prompt askOpts (snd run)
         = (Ret {| Access.channel := false;
                   Access.failure :=
                     Some (Errorf "client is not started, call Start() first" []);
                   Access.goroutine := None |}, snd run)).
Proof.
  cbv zeta. split; [apply Start_started_mark |].
  apply Ask_refuses_unstarted.
Qed.

End MoreSession.

Section MoreAuthInstances.

Import Chatgpt Scenario Facts.

(** An instance: the redirects of the handshake that echoes S. *)
Lemma stepTwo_success_trace_witness :
  exists r1 r2 r3 r4 st,
    snd (net (snd (stepTwo (logged scripted) no_escape "https://provider.example/authorize"
                     "user@example.com" "secret"
                     (start_state (NewClient email_config [])
                        (tl (handshake "S"), @nil (Request * Reply)) no_file))))
    = [ (get "https://provider.example/authorize" [], Answer r1);
        (post (_url_prefix ++ Location r1)%string
           (username_form no_escape st "user@example.com") (SetCookies r1), Answer r2);
        (post (_url_prefix ++ Location r2)%string
           (password_form no_escape st "user@example.com" "secret") (SetCookies r1),
         Answer r3);
        (get (_url_prefix ++ Location r3)%string (SetCookies r1), Answer r4) ]
    /\ st = "S".
Proof.
  destruct (stepTwo_success_trace (list Reply) scripted no_escape
              (NewClient email_config []) (tl (handshake "S")) no_file []
              "https://provider.example/authorize" "user@example.com" "secret"
              "https://chat.openai.com/api/auth/callback/auth0?code=abc" eq_refl)
    as (r1 & r2 & r3 & r4 & st & Hlog & _ & Hst & _).
  exists r1, r2, r3, r4, st. split; [exact Hlog |].
  vm_compute in Hlog. injection Hlog as <- _ _ _.
  vm_compute in Hst. injection Hst as <-. reflexivity.
Defined.

(** An instance: the network cannot be reached. *)
Lemma stepTwo_panics_on_the_first_exchange_only_witness :
  exists msg,
    fst (stepTwo offline no_escape "https://provider.example/authorize"
           "user@example.com" "secret"
           (start_state (NewClient email_config []) tt no_file))
    = Panic msg.
Proof.
  apply (proj2 (stepTwo_panics_on_the_first_exchange_only unit offline no_escape
                  (start_state (NewClient email_config []) tt no_file)
                  "https://provider.example/authorize" "user@example.com" "secret"
                  ltac:(intros w req; discriminate))).
  exact I.
Defined.

(** An instance: a login with the cache in use, at the instant 0; the
    token expires at 1000, the second call is at 999. *)
Lemma GetAccessToken_again_witness :
  let s' := snd (GetAccessToken scripted no_escape (endpoint_issues "S") token_answer 0
                   (start_state (NewClient cached_email_config []) (handshake "S")
                      no_file)) in
  GetAccessToken scripted no_escape (endpoint_issues "S") token_answer 999 s'
  = (Ret "TOKEN", s').
Proof.
  exact (GetAccessToken_again (list Reply) scripted no_escape (endpoint_issues "S")
           token_answer 0 999
           (start_state (NewClient cached_email_config []) (handshake "S") no_file)
           "TOKEN" ltac:(intros _; reflexivity) ltac:(vm_compute; reflexivity)
           ltac:(discriminate) ltac:(vm_compute; reflexivity)).
Defined.

(** An instance: email, password and a bearer token, a free account. *)
Lemma Start_mode_and_engine_witness :
  engine (client (snd (Start scripted no_escape (endpoint_issues "S") token_answer 0
                         (start_state (NewClient email_and_token_config [])
                            (handshake "S") no_file))))
  = "text-davinci-002-render-sha".
Proof.
  exact (proj2 (proj2 (Start_mode_and_engine (list Reply) scripted no_escape
                         (endpoint_issues "S") token_answer 0
                         (start_state (NewClient email_and_token_config [])
                            (handshake "S") no_file)
                         ltac:(vm_compute; reflexivity)) eq_refl)).
Defined.

(** An instance: email and password, the cache not in use, and a file
    whose token expired at the instant 5; the time is 1000. *)
Lemma Start_takes_the_cached_token_witness :
  let run := Start scripted no_escape (endpoint_issues "S") token_answer 1000
               (start_state (NewClient email_config []) (handshake "S") stale_cache) in
  fst run = Ret tt
  /\ net (snd run) = handshake "S"
  /\ authmode (client (snd run)) = AccessTokenMode
  /\ accessToken (auth (client (snd run))) = "OLD"
  /\ expires (auth (client (snd run))) = 5.
Proof.
  exact (Start_takes_the_cached_token (list Reply) scripted no_escape (endpoint_issues "S")
           token_answer 1000
           (start_state (NewClient email_config []) (handshake "S") stale_cache)
           {[ "default" := {| AccessToken := "OLD"; Expires := 5 |} ]}
           {| AccessToken := "OLD"; Expires := 5 |}
           eq_refl eq_refl ltac:(vm_compute; reflexivity) ltac:(discriminate)
           eq_refl eq_refl ltac:(split; discriminate) ltac:(discriminate)).
Defined.

End MoreAuthInstances.

(** ** The conversations of a client *)

Section MoreStore.

Import Chatgpt Store Facts.

Variable rev : Rev.t.
Variable range range' : list (string * Z).

(** X18: The conversations of a client behave as a map from identifiers:
    a conversation set is the one got, under its identifier only;
    resetting an identifier fails, and changes nothing, exactly when
    nothing is stored under it; after a reset that identifier is not
    found and every other is as before; after resetting all, none is
    found. *)
Theorem conversations_as_a_map (c : Client) (id : string) (conv : Conv.Conversation) :
  GetConversation (SetConversation c id conv) id = Ret conv
  /\ (forall id', id' <> id ->
        GetConversation (SetConversation c id conv) id' = GetConversation c id')
  /\ (fst (ResetConversation c id) = Fail (not_found id)
      <-> GetConversation c id = Fail (not_found id))
  /\ (GetConversation c id = Fail (not_found id) -> snd (ResetConversation c id) = c)
  /\ (fst (ResetConversation c id) = Ret tt
      <-> exists conv', GetConversation c id = Ret conv')
  /\ GetConversation (snd (ResetConversation c id)) id = Fail (not_found id)
  /\ (forall id', id' <> id ->
        GetConversation (snd (ResetConversation c id)) id' = GetConversation c id')
  /\ (forall id', GetConversation (fst (ResetConversations c)) id' = Fail (not_found id')).
Proof.
  unfold GetConversation, SetConversation, ResetConversation, ResetConversations. simpl.
  split; [rewrite lookup_insert_eq; reflexivity |].
  split; [intros id' H; rewrite lookup_insert_ne by (intros E; apply H; symmetry; exact E);
          reflexivity |].
  split; [destruct (conversations c !! id); simpl; split; intros H;
          try reflexivity; discriminate H |].
  split; [destruct (conversations c !! id); simpl; [discriminate | reflexivity] |].
  split; [destruct (conversations c !! id) as [conv' |]; simpl; split;
          [eauto | reflexivity | discriminate | intros [conv' H]; discriminate H] |].
  split; [destruct (conversations c !! id) eqn:E; simpl;
          [rewrite lookup_delete_eq; reflexivity | rewrite E; reflexivity] |].
  split; [intros id' H; destruct (conversations c !! id) eqn:E; simpl;
          [rewrite lookup_delete_ne by (intros E'; apply H; symmetry; exact E')|];
          reflexivity |].
  intros id'. rewrite lookup_empty. reflexivity.
Qed.

(** X19: After the conversation of an [Ask] has been reset, the history
    is forgotten: the next [Ask] on it works on a conversation made
    anew, as on a client without conversations, which holds the
    system message, and in unnamed/part_000 the prompt, when the
    system text is within the limit. *)
Theorem Ask_after_reset_starts_afresh
    (c : Client) (prompt : string) (askOpts : list AskOpts) :
  fst (ResetConversation c (conversation_id askOpts)) = Ret tt ->
  Conv.getTokenCount (History.created (system_text c))
    <= Rev.getEngineTokenLimit rev range (engine c) ->
  let c' := snd (ResetConversation c (conversation_id askOpts)) in
  snd (fst (Ask_window rev range range' c' prompt askOpts))
  = snd (fst (Ask_window rev range range' (fst (ResetConversations c)) prompt askOpts))
  /\ Conv.Messages (snd (fst (Ask_window rev range range' c' prompt askOpts)))
     = Conv.mkMessage "system" (system_text c)
         :: if Rev.promptOnCreate rev then [Conv.mkMessage "user" prompt] else [].
Proof.
  unfold ResetConversation, ResetConversations.
  destruct (conversations c !! conversation_id askOpts) eqn:E; simpl; [| discriminate].
  intros _ Hlimit.
  assert (Hltb : (Rev.getEngineTokenLimit rev range (engine c)
                  <? Conv.getTokenCount (History.created (system_text c))) = false)
    by (apply Z.ltb_ge; lia).
  unfold Ask_window. simpl. rewrite lookup_delete_eq, lookup_empty.
  fold (system_text c).
  destruct (Rev.promptOnCreate rev); simpl;
    change (Conv.getTokenCount _) with (Conv.getTokenCount (History.created (system_text c)));
    rewrite Hltb; simpl; split; reflexivity.
Qed.

End MoreStore.

Section MoreStoreInstances.

Import Chatgpt Store Facts Scenario.

(** An instance: a client with the default system text, and a
    conversation set from outside. *)
Lemma Ask_after_reset_starts_afresh_witness :
  Conv.Messages
    (snd (fst (Ask_window Rev.part_000 [] []
                 (snd (ResetConversation
                         (SetConversation (started_with_key email_config) "default"
                            (History.created "Be brief."))
                         "default")) "Hi" [])))
  = [Conv.mkMessage "system" DEFAULT_INIT_MESSAGE; Conv.mkMessage "user" "Hi"].
Proof.
  exact (proj2 (Ask_after_reset_starts_afresh Rev.part_000 [] []
                  (SetConversation (started_with_key email_config) "default"
                     (History.created "Be brief."))
                  "Hi" [] eq_refl ltac:(vm_compute; discriminate))).
Defined.

End MoreStoreInstances.

(** ** [genUUID] *)

Section MoreUuid.

Import Uuid.

Lemma unhex_hex_byte (b : ascii) (rest : string) :
  unhex (hex_byte b rest) = match unhex rest with
                            | Some bs => Some (b :: bs)
                            | None => None
                            end.
Proof.
  destruct b as [[] [] [] [] [] [] [] []]; cbv - [unhex];
    simpl; destruct (unhex rest); reflexivity.
Qed.

Lemma shaped_hex_byte (b : ascii) (k : nat) (more : list nat) (rest : string) :
  shaped (S (S k) :: more) (hex_byte b rest) = shaped (k :: more) rest.
Proof.
  destruct b as [[] [] [] [] [] [] [] []]; reflexivity.
Qed.

Lemma sixteen (u : list ascii) :
  length u = 16%nat ->
  exists b0 b1 b2 b3 b4 b5 b6 b7 b8 b9 b10 b11 b12 b13 b14 b15,
    u = [b0; b1; b2; b3; b4; b5; b6; b7; b8; b9; b10; b11; b12; b13; b14; b15].
Proof.
  intros H.
  do 16 (destruct u as [| ? u]; [discriminate H |]).
  destruct u; [| discriminate H]. repeat eexists.
Qed.

Lemma unhex_format (u : list ascii) : length u = 16%nat -> unhex (format u) = Some u.
Proof.
  intros H. destruct (sixteen u H) as (b0 & b1 & b2 & b3 & b4 & b5 & b6 & b7 & b8 & b9
                                        & b10 & b11 & b12 & b13 & b14 & b15 & ->).
  unfold format, slice, hex. simpl firstn. simpl skipn. simpl fold_right.
  repeat (rewrite unhex_hex_byte
          || change (unhex (String "-" ?r)) with (unhex r)).
  reflexivity.
Qed.

(** X20: The identifier that [genUUID] makes of sixteen random bytes has
    36 characters, in the shape 8-4-4-4-12 of lower-case hexadecimal
    digits and hyphens, and the bytes can be read back from it: so
    different bytes give different identifiers. *)
Theorem genUUID_shape_and_bytes (u v : list ascii) :
  length u = 16%nat ->
  length v = 16%nat ->
  String.length (genUUID (Some u)) = 36%nat
  /\ shaped [8; 4; 4; 4; 12]%nat (genUUID (Some u)) = true
  /\ unhex (genUUID (Some u)) = Some u
  /\ (genUUID (Some u) = genUUID (Some v) -> u = v).
Proof.
  intros Hu Hv. simpl genUUID.
  split; [| split; [| split]].
  - destruct (sixteen u Hu) as (b0 & b1 & b2 & b3 & b4 & b5 & b6 & b7 & b8 & b9
                                 & b10 & b11 & b12 & b13 & b14 & b15 & ->).
    reflexivity.
  - destruct (sixteen u Hu) as (b0 & b1 & b2 & b3 & b4 & b5 & b6 & b7 & b8 & b9
                                 & b10 & b11 & b12 & b13 & b14 & b15 & ->).
    unfold format, slice, hex. simpl firstn. simpl skipn. simpl fold_right.
    repeat (rewrite shaped_hex_byte
            || change (shaped (0%nat :: ?k :: ?more) (String "-" ?r))
                 with (shaped (k :: more) r)).
    reflexivity.
  - apply unhex_format. exact Hu.
  - intros E. apply (f_equal unhex) in E.
    rewrite (unhex_format u Hu), (unhex_format v Hv) in E. injection E as E. exact E.
Qed.

End MoreUuid.

(** An instance: the bytes 0 to 15, and sixteen bytes 255. *)
Lemma genUUID_shape_and_bytes_witness :
  Uuid.unhex (Uuid.genUUID (Some (map ascii_of_nat (seq 0 16))))
  = Some (map ascii_of_nat (seq 0 16))
  /\ Uuid.genUUID (Some (map ascii_of_nat (seq 0 16)))
     = "00010203-0405-0607-0809-0a0b0c0d0e0f".
Proof.
  split; [| vm_compute; reflexivity].
  exact (proj1 (proj2 (proj2 (genUUID_shape_and_bytes
                                (map ascii_of_nat (seq 0 16))
                                (repeat "255"%char 16) eq_refl eq_refl)))).
Defined.

(** ** Asking with an access token *)

Section MoreAccess.

Import Chatgpt Scenario Facts Access.

Variable W : Type.
Variable send : W -> Request -> Reply * W.
Variable unmarshal : string -> option (list (string * Json.Value)).
Variable sprint_other : Json.Value -> string.
Variable marshalData : Data -> string.

(** Buffered decoding in src/ask.go never hands back frames. *)
Lemma ask_go_buffered_parse (logger : Log.Logger) (body : string) :
  match Stream.returned
          (Stream.parseResponse unmarshal sprint_other Rev.ask_go logger false body) with
  | Ret _ => False
  | _ => True
  end.
Proof.
  unfold Stream.parseResponse.
  destruct (match Stream.scanLines body with
            | line :: _ => GoStr.Contains line (Rev.detailNeedle Rev.ask_go)
            | [] => false
            end); simpl; [exact I |].
  apply ask_go_buffered_never_returns.
Qed.

(** X21: In src/ask.go a question asked in access-token mode is never
    answered: [askWithAccessToken] decodes in buffered mode, where
    the decoder of that revision ends at the close of the nil channel
    or with an error, so [Ask] returns an error or panics, whatever
    the network answers. *)
Theorem ask_go_access_token_mode_never_answers
    (decodeOpenAIResponse : string -> string + OpenAIResponse)
    (decodeOpenAIError : string -> string + (string * Z))
    (marshalPayload : string -> list Conv.Message -> string)
    (range range' : list (string * Z))
    (random1 random2 : option (list ascii))
    (prompt : string) (askOpts : list AskOpts) (s : State W) :
  authmode (client s) = AccessTokenMode ->
  match fst (Ask send decodeOpenAIResponse decodeOpenAIError marshalPayload Rev.ask_go
               range range'
               (askWithAccessToken send unmarshal sprint_other marshalData ask_go
                  random1 random2)
               prompt askOpts s) with
  | Ret _ => False
  | _ => True
  end.
Proof.
  intros Hmode. unfold Ask, bind, getClient, fail. simpl.
  destruct (clientStarted (auth (client s))); simpl; [| exact I].
  rewrite Hmode. simpl.
  unfold askWithAccessToken, built, bind, getClient, Do, write, fail, ret, panic. simpl.
  destruct (send (net s) _) as [[resp | e |] w] eqn:Es; simpl; rewrite ?Es; simpl;
    try exact I.
  destruct (StatusCode resp =? 200); simpl; [| exact I].
  pose proof (ask_go_buffered_parse (logger (client s)) (RespBody resp)) as H.
  destruct (Stream.returned _); simpl; [contradiction | exact I | exact I].
Qed.

(** X22: [askWithAccessToken] sends at most one request, the prompt with
    the identifiers to the conversation address under the bearer
    token: none when the request cannot be built, as the error is
    returned before anything is sent, and exactly one otherwise.  It
    keeps nothing: whatever the outcome, the client, with its
    conversations, and the cache file are as before. *)
Theorem access_token_ask_keeps_no_history
    (rev : Access.t) (random1 random2 : option (list ascii))
    (prompt : string) (askOpts : list AskOpts)
    (c : Client) (w : W) (d : Disk) (o : list string) :
  let s := {| client := c; net := (w, @nil (Request * Reply)); disk := d; out := o |} in
  let run := askWithAccessToken (logged send) unmarshal sprint_other marshalData rev
               random1 random2 prompt askOpts s in
  let req := conversation_request marshalData rev c
               (make_data c random1 random2 prompt askOpts) in
  client (snd run) = c
  /\ disk (snd run) = d
  /\ match fst (send w req) with
     | BadRequest =>
         run = (Fail (request_error rev (request_url rev (baseUrl c)) "invalid request"), s)
     | _ => requests (snd (net (snd run))) = [req]
     end.
Proof.
  cbv zeta.
  unfold askWithAccessToken, built, bind, getClient, Do, logged, write, fail, ret, panic,
    requests.
  simpl.
  destruct (send w _) as [[resp | e |] w'] eqn:Es; simpl; rewrite ?Es; simpl; auto.
  destruct (StatusCode resp =? 200); simpl; auto.
  destruct (Stream.returned _) as [msgs | e | msg]; simpl; auto.
  destruct (last msgs); simpl; auto.
Qed.

(** X23: [AskStream] always returns, and what it returns settles the fate
    of the channel.  A channel is handed out exactly in access-token
    mode on a started client.  With an error (no answer, a status
    other than 200, a detail object in the first line) no goroutine
    was started: the channel handed out with it is never written to
    and never closed.  Without error the decoding goroutine runs, and
    closes the channel once when it ends normally and not at all
    when it ends with an error or a panic. *)
Theorem AskStream_channel
    (rev : Access.t) (random1 random2 : option (list ascii))
    (prompt : string) (askOpts : list AskOpts) (s : State W) :
  exists st,
    fst (AskStream send unmarshal sprint_other marshalData rev random1 random2
           prompt askOpts s) = Ret st
    /\ (channel st = true
        <-> clientStarted (auth (client s)) = true
            /\ authmode (client s) = AccessTokenMode)
    /\ (failure st <> None -> goroutine st = None)
    /\ (failure st = None ->
        exists g, goroutine st = Some g
                  /\ Streams.closes (Stream.effects g)
                     = match Stream.outcome g with
                       | Ret _ => 1%nat
                       | _ => 0%nat
                       end).
Proof.
  unfold AskStream, bind, getClient, ret. simpl.
  destruct (clientStarted (auth (client s))); simpl.
  2: { eexists. split; [reflexivity |]. simpl.
       split; [split; [discriminate | intros [H _]; discriminate H] |].
       split; [reflexivity | discriminate]. }
  destruct (Z.eqb_spec (authmode (client s)) AccessTokenMode) as [Em | Em]; simpl.
  2: { eexists. split; [reflexivity |]. simpl.
       split; [split; [discriminate | intros [_ H]; contradiction] |].
       split; [reflexivity | discriminate]. }
  unfold askStreamWithAccessToken, built, bind, getClient, Do, ret, panic. simpl.
  destruct (send (net s) _) as [[resp | e |] w] eqn:Es; simpl; rewrite ?Es; simpl.
  - destruct (StatusCode resp =? 200); simpl.
    + unfold Stream.parseResponse.
      destruct (match Stream.scanLines (RespBody resp) with
                | line :: _ => GoStr.Contains line (Rev.detailNeedle (base rev))
                | [] => false
                end); simpl.
      * eexists. split; [reflexivity |]. simpl.
        split; [tauto |]. split; [reflexivity | discriminate].
      * eexists. split; [reflexivity |]. simpl.
        split; [tauto |]. split; [intros H; contradiction |].
        intros _. eexists. split; [reflexivity |].
        apply startScan_live_closes.
    + eexists. split; [reflexivity |]. simpl.
      split; [tauto |]. split; [reflexivity | discriminate].
  - eexists. split; [reflexivity |]. simpl.
    split; [tauto |]. split; [reflexivity | discriminate].
  - eexists. split; [reflexivity |]. simpl.
    split; [tauto |]. split; [reflexivity | discriminate].
Qed.

End MoreAccess.

Section MoreAccessInstances.

Import Chatgpt Scenario Facts Access.

(** An instance: a client started with a bearer token, and an answer
    200 with the stream of seven lines. *)
Lemma ask_go_access_token_mode_never_answers_witness :
  match fst (Ask scripted (says "Hello!") (fun _ => inl "EOF") (fun _ _ => "payload")
               Rev.ask_go [] []
               (askWithAccessToken scripted Json.Unmarshal Streams.no_other
                  (fun _ => "data") ask_go None None)
               "Hi" []
               (start_state started_with_token [ok Streams.seven_lines] no_file)) with
  | Ret _ => False
  | _ => True
  end.
Proof.
  exact (ask_go_access_token_mode_never_answers (list Reply) scripted Json.Unmarshal
           Streams.no_other (fun _ => "data") (says "Hello!") (fun _ => inl "EOF")
           (fun _ _ => "payload") [] [] None None "Hi" []
           (start_state started_with_token [ok Streams.seven_lines] no_file)
           eq_refl).
Defined.

End MoreAccessInstances.

(** ** The logger of a new client *)

Section MoreLog.

Import Chatgpt.

Lemma emit_written (l : Log.Logger) (threshold : Z) (tag msg : string) :
  Log.emit l threshold tag msg <> [] <-> Log.Level l <= threshold.
Proof.
  unfold Log.emit. destruct (Z.leb_spec (Log.Level l) threshold); split; intros H0;
    try assumption; try discriminate; try lia. contradiction.
Qed.

(** X24: Which messages the logger of a new client writes, by the level
    of the configuration: the level 0, which the source names
    LogLevelNone and describes as disabling all logging, is taken for
    no level given and replaced by the level of Info, so Info, Warn
    and Error messages are written; only a level above that of Error
    silences the logger. *)
Theorem new_client_log_levels (config : Config.t) (names : list string) (msg : string) :
  let l := logger (NewClient config names) in
  let level := Config.LogLevel config in
  (Log.Debug l msg <> [] <-> level <= Log.LogLevelDebug /\ level <> Log.LogLevelNone)
  /\ (Log.Info l msg <> [] <-> level <= Log.LogLevelInfo)
  /\ (Log.Warn l msg <> [] <-> level <= Log.LogLevelWarn)
  /\ (Log.Error l msg <> [] <-> level <= Log.LogLevelError).
Proof.
  cbv zeta. unfold Log.Debug, Log.Info, Log.Warn, Log.Error.
  rewrite !emit_written. unfold NewClient. simpl Log.Level.
  unfold Log.LogLevelDebug, Log.LogLevelInfo, Log.LogLevelWarn, Log.LogLevelError,
    Log.LogLevelNone.
  destruct (Z.eqb_spec (Config.LogLevel config) 0) as [E | E]; simpl negb; cbv iota; lia.
Qed.

End MoreLog.
